(** * Order book and execution database of nautilus_trader: a shallow embedding

    The development embeds

    - the order book classes [OrderBook], [L3OrderBook], [L2OrderBook] and
      [L1OrderBook] together with the [OrderBookData] messages
      (model/orderbook/book.pyx),
    - the execution databases [BypassExecutionDatabase]
      (execution/database.pyx) and [RedisExecutionDatabase]
      (redis/execution.pyx),
    - the parser of the [DepthType] enum (model/c_enums/depth_type.pyx).

    Python objects that are reachable through more than one reference (the
    resting [Order] and [Level] objects, which the L1 book also caches in
    [_top_bid], [_top_ask], [_top_bid_level] and [_top_ask_level]) live in an
    explicit object store and are named by references; a method that raises
    keeps the mutations it made before raising. *)

From Stdlib Require Import ZArith QArith Lia Ascii.
From stdpp Require Import base list strings gmap pretty.

Local Open Scope Z_scope.

(** ** Enumerations (model/c_enums) *)

(** Modelled from the spec: the enum declarations of model/c_enums are not
    among the sources; the members are those the spec lists and the book
    compares with (side in BUY, SELL). *)
Inductive OrderSide := BUY | SELL.

(** Modelled from the spec: the aggressor of a trade, as [_update_trade_tick]
    distinguishes it. *)
Inductive AggressorSide := AggressorSide_BUY | AggressorSide_SELL.

(** Modelled from the spec: level in L1, L2, L3. *)
Inductive OrderBookLevel := L1 | L2 | L3.

(** Modelled from the spec: type in ADD, UPDATE, DELETE. *)
Inductive OrderBookDeltaType := ADD | UPDATE | DELETE.

#[global] Instance OrderSide_eq_dec : EqDecision OrderSide.
Proof. solve_decision. Defined.

#[global] Instance OrderBookLevel_eq_dec : EqDecision OrderBookLevel.
Proof. solve_decision. Defined.

(** Modelled from the spec: [OrderSideParser.to_str] (c_enums/order_side.pyx)
    is not among the sources; it yields the name of the side, as
    [DepthTypeParser.to_str] does for its enum. *)
Definition OrderSideParser_to_str (s : OrderSide) : string :=
  match s with
  | BUY => "BUY"
  | SELL => "SELL"
  end.

(** ** Exceptions *)

Inductive Exn :=
| ValueError (msg : string)
| TypeError (msg : string)
| RuntimeError (msg : string)
| NotImplementedError (msg : string)
| AssertionError (msg : string)
| OverflowError (msg : string).

Inductive outcome (A : Type) :=
| Ok (a : A)
| Raise (e : Exn).

Arguments Ok {A} a.
Arguments Raise {A} e.

(** ** Prices, sizes and the object store

    Prices and sizes are [double] in the source.  The data model fixes them to
    [price_precision] and [size_precision] decimals; a value is represented by
    its integer mantissa (the value multiplied by ten to the precision), on
    which [==], [<=], [>=] and [-] are exact. *)

Abbreviation ref := nat.

(** Modelled from the spec: the resting [Order] (model/orderbook/order.pyx) is
    not among the sources; it has an id, a side, a price and a volume. *)
Record Order := mkOrder {
  order_id : string;
  order_side : OrderSide;
  order_price : Z;
  order_volume : Z
}.

(** Modelled from the spec: the [Level] class (model/orderbook/level.pyx) is
    not among the sources; a level has a price and the resting orders at that
    price, in insertion order. *)
Record Level := mkLevel {
  level_price : Z;
  level_orders : list ref
}.

Record Store := mkStore {
  store_orders : list Order;
  store_levels : list Level
}.

Definition empty_store : Store := mkStore [] [].

Definition get_order (st : Store) (r : ref) : Order :=
  default (mkOrder "" BUY 0 0) (store_orders st !! r).

Definition get_level (st : Store) (r : ref) : Level :=
  default (mkLevel 0 []) (store_levels st !! r).

Definition put_order (r : ref) (o : Order) (st : Store) : Store :=
  mkStore (<[r := o]> (store_orders st)) (store_levels st).

Definition put_level (r : ref) (l : Level) (st : Store) : Store :=
  mkStore (store_orders st) (<[r := l]> (store_levels st)).

(** Creating an object: the new reference is the next free cell. *)
Definition alloc_order (o : Order) (st : Store) : ref * Store :=
  (length (store_orders st), mkStore (store_orders st ++ [o]) (store_levels st)).

Definition alloc_level (l : Level) (st : Store) : ref * Store :=
  (length (store_levels st), mkStore (store_orders st) (store_levels st ++ [l])).

(** Modelled from the spec: [Order.update_price] sets the price of the
    order object. *)
Definition Order_update_price (r : ref) (p : Z) (st : Store) : Store :=
  let o := get_order st r in
  put_order r (mkOrder (order_id o) (order_side o) p (order_volume o)) st.

(** Modelled from the spec: [Order.update_volume] sets the volume of the
    order object. *)
Definition Order_update_volume (r : ref) (v : Z) (st : Store) : Store :=
  let o := get_order st r in
  put_order r (mkOrder (order_id o) (order_side o) (order_price o) v) st.

(** The assignment [order.id = i]. *)
Definition Order_set_id (r : ref) (i : string) (st : Store) : Store :=
  let o := get_order st r in
  put_order r (mkOrder i (order_side o) (order_price o) (order_volume o)) st.

(** The assignment [level.price = p]. *)
Definition Level_set_price (r : ref) (p : Z) (st : Store) : Store :=
  let l := get_level st r in
  put_level r (mkLevel p (level_orders l)) st.

(** ** Level *)

(** Modelled from the spec: [Level.volume], the sum of the volumes of the
    orders of the level. *)
Definition Level_volume (st : Store) (l : Level) : Z :=
  foldr (fun r acc => order_volume (get_order st r) + acc) 0 (level_orders l).

(** Modelled from the spec: orders are located by id. *)
Definition has_id (st : Store) (i : string) (r : ref) : bool :=
  String.eqb (order_id (get_order st r)) i.

(** Modelled from the spec: the level holds an order with the id. *)
Definition Level_has_id (st : Store) (i : string) (rl : ref) : bool :=
  existsb (has_id st i) (level_orders (get_level st rl)).

(** Modelled from the spec: [Level.add] appends, keeping insertion order. *)
Definition Level_add (o : ref) (l : Level) : Level :=
  mkLevel (level_price l) (level_orders l ++ [o]).

(** Modelled from the spec: replacement in place of the first order that
    carries the id. *)
Fixpoint replace_id (st : Store) (i : string) (o : ref) (rs : list ref) : list ref :=
  match rs with
  | [] => []
  | r :: rest => if has_id st i r then o :: rest else r :: replace_id st i o rest
  end.

(** Modelled from the spec: [Level.update], the order carrying the id of [o]
    is replaced in place by [o]. *)
Definition Level_update (st : Store) (o : ref) (l : Level) : Level :=
  mkLevel (level_price l) (replace_id st (order_id (get_order st o)) o (level_orders l)).

(** Modelled from the spec: removal of the first order that carries the
    id. *)
Fixpoint remove_id (st : Store) (i : string) (rs : list ref) : list ref :=
  match rs with
  | [] => []
  | r :: rest => if has_id st i r then rest else r :: remove_id st i rest
  end.

(** Modelled from the spec: [Level.delete], the order carrying the id of [o]
    is removed. *)
Definition Level_delete (st : Store) (o : ref) (l : Level) : Level :=
  mkLevel (level_price l) (remove_id st (order_id (get_order st o)) (level_orders l)).

(** ** Ladder *)

(** Modelled from the spec: the [Ladder] class (model/orderbook/ladder.pyx) is
    not among the sources.  One side of a book: the levels sorted by price,
    descending when [reverse] (bids) and ascending otherwise (asks), so that
    the best level comes first. *)
Record Ladder := mkLadder {
  ladder_reverse : bool;
  ladder_price_precision : Z;
  ladder_size_precision : Z;
  ladder_levels : list ref
}.

(** Modelled from the spec: [Ladder(reverse, price_precision,
    size_precision)], a side without levels. *)
Definition Ladder_new (reverse : bool) (price_precision size_precision : Z) : Ladder :=
  mkLadder reverse price_precision size_precision [].

Definition Ladder_with_levels (lad : Ladder) (ls : list ref) : Ladder :=
  mkLadder (ladder_reverse lad) (ladder_price_precision lad) (ladder_size_precision lad) ls.

(** Modelled from the spec: [Ladder.prices], the prices of the levels. *)
Definition Ladder_prices (st : Store) (lad : Ladder) : list Z :=
  map (fun r => level_price (get_level st r)) (ladder_levels lad).

(** Modelled from the spec: [Ladder.depth(n)], the top [n] levels. *)
Definition Ladder_depth (n : nat) (lad : Ladder) : list ref :=
  take n (ladder_levels lad).

(** Modelled from the spec: [Ladder.top], the best level, or [None] on a
    side without levels. *)
Definition Ladder_top (lad : Ladder) : option ref :=
  head (Ladder_depth 1 lad).

(** Modelled from the spec: the level is the one of price [p]. *)
Definition at_price (st : Store) (p : Z) (rl : ref) : bool :=
  level_price (get_level st rl) =? p.

(** Modelled from the spec: the sorted position of a new price, before the
    first level that is worse. *)
Fixpoint insert_level (st : Store) (reverse : bool) (p : Z) (rl : ref) (ls : list ref) : list ref :=
  match ls with
  | [] => [rl]
  | r :: rest =>
      let q := level_price (get_level st r) in
      if (if reverse then q <? p else p <? q)
      then rl :: ls
      else r :: insert_level st reverse p rl rest
  end.

(** Modelled from the spec: a level leaves the ladder. *)
Fixpoint remove_ref (rl : ref) (ls : list ref) : list ref :=
  match ls with
  | [] => []
  | r :: rest => if Nat.eqb r rl then rest else r :: remove_ref rl rest
  end.

(** Modelled from the spec: [Ladder.add] is price keyed; the order joins the
    level of its price, or a new level at the sorted position. *)
Definition Ladder_add (o : ref) (lad : Ladder) (st : Store) : Ladder * Store :=
  let p := order_price (get_order st o) in
  match List.find (at_price st p) (ladder_levels lad) with
  | Some rl => (lad, put_level rl (Level_add o (get_level st rl)) st)
  | None =>
      let '(rl, st') := alloc_level (mkLevel p [o]) st in
      (Ladder_with_levels lad (insert_level st (ladder_reverse lad) p rl (ladder_levels lad)), st')
  end.

(** Modelled from the spec: [Ladder.delete] locates the order by id, removes
    it from its level and drops a level that becomes empty; an id the ladder
    does not hold changes nothing. *)
Definition Ladder_delete (o : ref) (lad : Ladder) (st : Store) : Ladder * Store :=
  let i := order_id (get_order st o) in
  match List.find (Level_has_id st i) (ladder_levels lad) with
  | None => (lad, st)
  | Some rl =>
      let l' := Level_delete st o (get_level st rl) in
      let st' := put_level rl l' st in
      match level_orders l' with
      | [] => (Ladder_with_levels lad (remove_ref rl (ladder_levels lad)), st')
      | _ :: _ => (lad, st')
      end
  end.

(** Modelled from the spec: [Ladder.update] locates the order by id and
    replaces it in place, re-inserting it when its price changed.  An id the
    ladder does not hold is inserted: the callers under src rely on it
    ([apply_snapshot] uses [update] on a cleared book, where "they're
    equivalent", and the L2 [update] removes the level "so we can insert the
    new level" before it calls [_update]). *)
Definition Ladder_update (o : ref) (lad : Ladder) (st : Store) : Ladder * Store :=
  let i := order_id (get_order st o) in
  match List.find (Level_has_id st i) (ladder_levels lad) with
  | None => Ladder_add o lad st
  | Some rl =>
      if level_price (get_level st rl) =? order_price (get_order st o)
      then (lad, put_level rl (Level_update st o (get_level st rl)) st)
      else
        let '(lad', st') := Ladder_delete o lad st in
        Ladder_add o lad' st'
  end.

(** ** OrderBook state

    One record serves the three subclasses; [level] is the variant tag that
    resolves the overridden methods.  The four [_top_*] fields belong to
    [L1OrderBook] and stay [None] in the other variants. *)

Record OrderBook := mkOrderBook {
  instrument_id : string;
  level : OrderBookLevel;
  price_precision : Z;
  size_precision : Z;
  bids : Ladder;
  asks : Ladder;
  last_update_timestamp_ns : Z;
  objects : Store;
  _top_bid : option ref;
  _top_ask : option ref;
  _top_bid_level : option ref;
  _top_ask_level : option ref
}.

Definition set_bids (lad : Ladder) (b : OrderBook) : OrderBook :=
  mkOrderBook (instrument_id b) (level b) (price_precision b) (size_precision b)
    lad (asks b) (last_update_timestamp_ns b) (objects b)
    (_top_bid b) (_top_ask b) (_top_bid_level b) (_top_ask_level b).

Definition set_asks (lad : Ladder) (b : OrderBook) : OrderBook :=
  mkOrderBook (instrument_id b) (level b) (price_precision b) (size_precision b)
    (bids b) lad (last_update_timestamp_ns b) (objects b)
    (_top_bid b) (_top_ask b) (_top_bid_level b) (_top_ask_level b).

Definition set_last_update_timestamp_ns (ts : Z) (b : OrderBook) : OrderBook :=
  mkOrderBook (instrument_id b) (level b) (price_precision b) (size_precision b)
    (bids b) (asks b) ts (objects b)
    (_top_bid b) (_top_ask b) (_top_bid_level b) (_top_ask_level b).

Definition set_objects (st : Store) (b : OrderBook) : OrderBook :=
  mkOrderBook (instrument_id b) (level b) (price_precision b) (size_precision b)
    (bids b) (asks b) (last_update_timestamp_ns b) st
    (_top_bid b) (_top_ask b) (_top_bid_level b) (_top_ask_level b).

Definition set_top_bid (o : option ref) (l : option ref) (b : OrderBook) : OrderBook :=
  mkOrderBook (instrument_id b) (level b) (price_precision b) (size_precision b)
    (bids b) (asks b) (last_update_timestamp_ns b) (objects b)
    o (_top_ask b) l (_top_ask_level b).

Definition set_top_ask (o : option ref) (l : option ref) (b : OrderBook) : OrderBook :=
  mkOrderBook (instrument_id b) (level b) (price_precision b) (size_precision b)
    (bids b) (asks b) (last_update_timestamp_ns b) (objects b)
    (_top_bid b) o (_top_bid_level b) l.

(** ** Methods that may raise: state and exception

    [M A] is a method body returning [A]: it yields an outcome together with
    the book as the call left it, also when it raised. *)

Definition M (A : Type) : Type := OrderBook -> outcome A * OrderBook.

Definition ret {A} (a : A) : M A := fun b => (Ok a, b).

Definition raise {A} (e : Exn) : M A := fun b => (Raise e, b).

Definition bind {A B} (c : M A) (k : A -> M B) : M B :=
  fun b =>
    match c b with
    | (Ok a, b') => k a b'
    | (Raise e, b') => (Raise e, b')
    end.

Definition lift (f : OrderBook -> OrderBook) : M unit := fun b => (Ok tt, f b).

Declare Scope book_scope.
Delimit Scope book_scope with book.
Notation "x <- c ;; k" := (bind c (fun x => k))
  (at level 100, c at next level, right associativity) : book_scope.
Notation "c ;; k" := (bind c (fun _ => k))
  (at level 100, right associativity) : book_scope.

(** [for x in xs: body(x)] *)
Fixpoint for_each {A} (body : A -> M unit) (xs : list A) : M unit :=
  match xs with
  | [] => ret tt
  | x :: rest => (body x ;; for_each body rest)%book
  end.

(** The state a call leaves behind, whatever its outcome. *)
Definition exec {A} (c : M A) (b : OrderBook) : OrderBook := snd (c b).

Definition result {A} (c : M A) (b : OrderBook) : outcome A := fst (c b).

(** ** Condition (core/correctness.pyx) *)

(** Modelled from the spec: [Condition.not_negative_int] raises the
    validation error for a negative precision. *)
Definition Condition_not_negative_int (v : Z) (param : string) : outcome unit :=
  if v <? 0 then Raise (ValueError (param ++ " was negative")) else Ok tt.

(** Modelled from the spec: [Condition.equal] raises the validation error
    when the two levels differ and touches nothing. *)
Definition Condition_equal (a b : OrderBookLevel) (param1 param2 : string) : M unit :=
  if bool_decide (a = b)
  then ret tt
  else raise (ValueError (param1 ++ " was not equal to " ++ param2)).

(** Modelled from the spec: the [Condition] class is not among the sources.
    The statement [Condition(data.level, self.level, "data.level",
    "self.level")] of [OrderBook.apply] is the constructor-style call: it
    calls the class itself, not one of its static checks, builds an object
    from the four arguments and drops it.  Nothing is compared and nothing
    is raised. *)
Definition Condition_call (a b : OrderBookLevel) (param1 param2 : string) : M unit :=
  ret tt.

(** Modelled from the spec: [Condition.not_none] raises the validation error
    for a none argument; otherwise the argument is the object. *)
Definition Condition_not_none {A} (argument : option A) (param : string) : outcome A :=
  match argument with
  | Some a => Ok a
  | None => Raise (ValueError ("The '" ++ param ++ "' argument was None"))
  end.

(** Modelled from the spec: [Condition.in_range_int] raises the validation
    error for a value outside the closed range. *)
Definition Condition_in_range_int (value start finish : Z) (param : string) : outcome unit :=
  if (value <? start) || (finish <? value)
  then Raise (ValueError (param ++ " was out of range"))
  else Ok tt.

(** ** C integers

    A parameter declared [int] (or as a C enum) is a C integer.  The Python
    integer of the caller is converted when the call is made, before the body
    runs, and the call raises [OverflowError] for an integer the C type
    cannot hold. *)
Definition as_c_int (value : Z) : outcome Z :=
  if (-2147483648 <=? value) && (value <=? 2147483647)
  then Ok value
  else Raise (OverflowError "value too large to convert to int").

(** Modelled from the spec: the values of the members of [OrderBookLevel];
    the declaration of the enum is not among the sources, and
    [OrderBook.create] admits the range 1 to 3. *)
Definition OrderBookLevel_value (lvl : OrderBookLevel) : Z :=
  match lvl with
  | L1 => 1
  | L2 => 2
  | L3 => 3
  end.

(** A function that returns from one of its branches, or falls off its end
    and returns [None]. *)
Definition returned {A} (r : outcome A) : outcome (option A) :=
  match r with
  | Ok a => Ok (Some a)
  | Raise e => Raise e
  end.

(** ** OrderBook: construction

    [OrderBook.__init__] refuses to build the base class itself; it is
    reached here through the three subclasses, which take the same two C
    integers and pass them on. *)

Definition OrderBook_init (instrument : string) (lvl : OrderBookLevel)
    (price_precision size_precision : Z) : outcome OrderBook :=
  match as_c_int price_precision with
  | Raise e => Raise e
  | Ok pp =>
    match as_c_int size_precision with
    | Raise e => Raise e
    | Ok sp =>
      match Condition_not_negative_int pp "price_precision" with
      | Raise e => Raise e
      | Ok _ =>
        match Condition_not_negative_int sp "size_precision" with
        | Raise e => Raise e
        | Ok _ =>
            Ok (mkOrderBook instrument lvl pp sp
                  (Ladder_new true pp sp) (Ladder_new false pp sp) 0 empty_store
                  None None None None)
        end
      end
    end
  end.

Definition L3OrderBook_init (instrument : string) (pp sp : Z) : outcome OrderBook :=
  OrderBook_init instrument L3 pp sp.

Definition L2OrderBook_init (instrument : string) (pp sp : Z) : outcome OrderBook :=
  OrderBook_init instrument L2 pp sp.

Definition L1OrderBook_init (instrument : string) (pp sp : Z) : outcome OrderBook :=
  match OrderBook_init instrument L1 pp sp with
  | Raise e => Raise e
  | Ok b => Ok (set_top_ask None None (set_top_bid None None b))
  end.

(** Modelled from the spec: of the [Instrument] (model/instrument.pyx) the
    book reads the id and the two precisions. *)
Record Instrument := mkInstrument {
  instrument_ident : string;
  instrument_price_precision : Z;
  instrument_size_precision : Z
}.

(** [OrderBook.create(instrument, level)]: the instrument may be [None], the
    level is a C enum and so any C integer.  Behind the two checks one of the
    three branches returns the book; a level that is the value of no member
    would fall off the end. *)
Definition OrderBook_create (instrument : option Instrument) (level : Z)
    : outcome (option OrderBook) :=
  match as_c_int level with
  | Raise e => Raise e
  | Ok level =>
    match Condition_not_none instrument "instrument" with
    | Raise e => Raise e
    | Ok instrument =>
      match Condition_in_range_int level 1 3 "level" with
      | Raise e => Raise e
      | Ok _ =>
          if level =? OrderBookLevel_value L1
          then returned (L1OrderBook_init (instrument_ident instrument)
                           (instrument_price_precision instrument)
                           (instrument_size_precision instrument))
          else if level =? OrderBookLevel_value L2
          then returned (L2OrderBook_init (instrument_ident instrument)
                           (instrument_price_precision instrument)
                           (instrument_size_precision instrument))
          else if level =? OrderBookLevel_value L3
          then returned (L3OrderBook_init (instrument_ident instrument)
                           (instrument_price_precision instrument)
                           (instrument_size_precision instrument))
          else Ok None
      end
    end
  end.

(** ** OrderBook: base class methods *)

(** An [Order] argument is an object of the caller; it joins the store when
    the call is made.  A [None] argument is rejected by [Condition.not_none]
    before anything is touched; the arguments below are the objects that pass
    that check. *)
Definition new_object (order : Order) (b : OrderBook) : ref * OrderBook :=
  let '(r, st) := alloc_order order (objects b) in (r, set_objects st b).

(** Modelled from the spec: [Order(price, volume, side)] without an id; the
    object gets an id of its own, derived here from its place in the
    store. *)
Definition Order_new (price volume : Z) (sd : OrderSide) (b : OrderBook) : Order :=
  mkOrder ("order-" ++ pretty (length (store_orders (objects b)))) sd price volume.

Definition OrderBook_clear_bids (b : OrderBook) : OrderBook :=
  set_bids (Ladder_new true (price_precision b) (size_precision b)) b.

Definition OrderBook_clear_asks (b : OrderBook) : OrderBook :=
  set_asks (Ladder_new false (price_precision b) (size_precision b)) b.

Definition OrderBook_clear (b : OrderBook) : OrderBook :=
  OrderBook_clear_asks (OrderBook_clear_bids b).

Definition on_bids (f : Ladder -> Store -> Ladder * Store) (b : OrderBook) : OrderBook :=
  let '(lad, st) := f (bids b) (objects b) in set_objects st (set_bids lad b).

Definition on_asks (f : Ladder -> Store -> Ladder * Store) (b : OrderBook) : OrderBook :=
  let '(lad, st) := f (asks b) (objects b) in set_objects st (set_asks lad b).

Definition OrderBook__add (o : ref) (b : OrderBook) : OrderBook :=
  match order_side (get_order (objects b) o) with
  | BUY => on_bids (Ladder_add o) b
  | SELL => on_asks (Ladder_add o) b
  end.

Definition OrderBook__update (o : ref) (b : OrderBook) : OrderBook :=
  match order_side (get_order (objects b) o) with
  | BUY => on_bids (Ladder_update o) b
  | SELL => on_asks (Ladder_update o) b
  end.

Definition OrderBook__delete (o : ref) (b : OrderBook) : OrderBook :=
  match order_side (get_order (objects b) o) with
  | BUY => on_bids (Ladder_delete o) b
  | SELL => on_asks (Ladder_delete o) b
  end.

Definition OrderBook_add (order : Order) : M unit :=
  fun b => let '(o, b1) := new_object order b in (Ok tt, OrderBook__add o b1).

Definition OrderBook_update (order : Order) : M unit :=
  fun b => let '(o, b1) := new_object order b in (Ok tt, OrderBook__update o b1).

Definition OrderBook_delete (order : Order) : M unit :=
  fun b => let '(o, b1) := new_object order b in (Ok tt, OrderBook__delete o b1).

(** *** Top of book *)

Definition OrderBook_best_bid_level (b : OrderBook) : option ref := Ladder_top (bids b).

Definition OrderBook_best_ask_level (b : OrderBook) : option ref := Ladder_top (asks b).

Definition OrderBook_best_bid_price (b : OrderBook) : option Z :=
  match Ladder_top (bids b) with
  | Some top_bid_level => Some (level_price (get_level (objects b) top_bid_level))
  | None => None
  end.

Definition OrderBook_best_ask_price (b : OrderBook) : option Z :=
  match Ladder_top (asks b) with
  | Some top_ask_level => Some (level_price (get_level (objects b) top_ask_level))
  | None => None
  end.

Definition OrderBook_best_bid_qty (b : OrderBook) : option Z :=
  match Ladder_top (bids b) with
  | Some top_bid_level => Some (Level_volume (objects b) (get_level (objects b) top_bid_level))
  | None => None
  end.

Definition OrderBook_best_ask_qty (b : OrderBook) : option Z :=
  match Ladder_top (asks b) with
  | Some top_ask_level => Some (Level_volume (objects b) (get_level (objects b) top_ask_level))
  | None => None
  end.

Definition OrderBook_spread (b : OrderBook) : option Z :=
  match Ladder_top (bids b), Ladder_top (asks b) with
  | Some top_bid_level, Some top_ask_level =>
      Some (level_price (get_level (objects b) top_ask_level)
            - level_price (get_level (objects b) top_bid_level))
  | _, _ => None
  end.

(** [(ask + bid) / 2.0]: the quotient is taken in the rationals. *)
Definition OrderBook_midpoint (b : OrderBook) : option Q :=
  match Ladder_top (bids b), Ladder_top (asks b) with
  | Some top_bid_level, Some top_ask_level =>
      Some ((inject_Z (level_price (get_level (objects b) top_ask_level)
                       + level_price (get_level (objects b) top_bid_level)) / 2)%Q)
  | _, _ => None
  end.

Definition OrderBook_timestamp_ns (b : OrderBook) : Z := last_update_timestamp_ns b.

(** *** Integrity of the base class: the two tops do not cross *)

Definition OrderBook__check_integrity (b : OrderBook) : outcome unit :=
  match Ladder_top (bids b), Ladder_top (asks b) with
  | Some top_bid_level, Some top_ask_level =>
      let best_bid := level_price (get_level (objects b) top_bid_level) in
      let best_ask := level_price (get_level (objects b) top_ask_level) in
      if best_bid <? best_ask then Ok tt else Raise (AssertionError "Orders in cross")
  | _, _ => Ok tt
  end.

(** ** L2OrderBook *)

Fixpoint zeros (n : nat) : string :=
  match n with
  | O => ""
  | S k => "0" ++ zeros k
  end.

(** [f"{price:.{precision}f}"] on a price with [precision] decimals. *)
Definition format_fixed (precision : Z) (mantissa : Z) : string :=
  let scale := 10 ^ precision in
  let a := Z.abs mantissa in
  let frac := pretty (a mod scale) in
  (if mantissa <? 0 then "-" else "")
  ++ pretty (a / scale)
  ++ (if 0 <? precision
      then "." ++ zeros (Z.to_nat precision - String.length frac) ++ frac
      else "").

Definition L2OrderBook__process_order (o : ref) (b : OrderBook) : OrderBook :=
  set_objects
    (Order_set_id o (format_fixed (price_precision b) (order_price (get_order (objects b) o)))
       (objects b)) b.

Definition price_in (p : Z) (prices : list Z) : bool := existsb (Z.eqb p) prices.

Definition L2OrderBook__remove_if_exists (o : ref) (b : OrderBook) : OrderBook :=
  let order := get_order (objects b) o in
  if bool_decide (order_side order = BUY)
     && price_in (order_price order) (Ladder_prices (objects b) (bids b))
  then OrderBook__delete o b
  else if bool_decide (order_side order = SELL)
          && price_in (order_price order) (Ladder_prices (objects b) (asks b))
  then OrderBook__delete o b
  else b.

Definition L2OrderBook_add (order : Order) : M unit :=
  fun b =>
    let '(o, b1) := new_object order b in
    (Ok tt, OrderBook__add o (L2OrderBook__process_order o b1)).

Definition L2OrderBook_update (order : Order) : M unit :=
  fun b =>
    let '(o, b1) := new_object order b in
    (Ok tt, OrderBook__update o
              (L2OrderBook__remove_if_exists o (L2OrderBook__process_order o b1))).

Definition L2OrderBook_delete (order : Order) : M unit :=
  fun b =>
    let '(o, b1) := new_object order b in
    (Ok tt, OrderBook__delete o (L2OrderBook__process_order o b1)).

Definition L2OrderBook_check_integrity (b : OrderBook) : outcome unit :=
  match OrderBook__check_integrity b with
  | Raise e => Raise e
  | Ok _ =>
      if forallb (fun rl => Nat.eqb (length (level_orders (get_level (objects b) rl))) 1)
           (ladder_levels (bids b) ++ ladder_levels (asks b))
      then Ok tt
      else Raise (AssertionError "Number of orders on level > 1")
  end.

(** ** L1OrderBook *)

(** Modelled from the spec: the ticks (model/tick.pyx) are not among the
    sources; a quote carries bid, ask and their sizes, a trade its price, size
    and aggressor side. *)
Inductive Tick :=
| QuoteTick (bid ask bid_size ask_size : Z)
| TradeTick (price size : Z) (aggressor_side : AggressorSide).

Definition L1OrderBook__process_order (o : ref) (b : OrderBook) : OrderBook :=
  set_objects
    (Order_set_id o (OrderSideParser_to_str (order_side (get_order (objects b) o)))
       (objects b)) b.

Definition L1OrderBook_add (order : Order) : M unit :=
  raise (NotImplementedError "Use `update(order)` for L1OrderBook").

(** [x >= top] and [x <= top] against a top price that exists. *)
Definition ge_price (x : Z) (top : option Z) : bool :=
  match top with
  | Some q => q <=? x
  | None => false
  end.

Definition le_price (x : Z) (top : option Z) : bool :=
  match top with
  | Some q => x <=? q
  | None => false
  end.

Definition L1OrderBook_update (order : Order) : M unit :=
  fun b =>
    let b1 :=
      if bool_decide (order_side order = BUY)
         && bool_decide (is_Some (OrderBook_best_ask_level b))
         && ge_price (order_price order) (OrderBook_best_ask_price b)
      then OrderBook_clear_asks b
      else if bool_decide (order_side order = SELL)
              && bool_decide (is_Some (OrderBook_best_bid_level b))
              && le_price (order_price order) (OrderBook_best_bid_price b)
      then OrderBook_clear_bids b
      else b in
    let '(o, b2) := new_object order b1 in
    (Ok tt, OrderBook__update o (L1OrderBook__process_order o b2)).

Definition L1OrderBook_delete (order : Order) : M unit :=
  fun b =>
    let '(o, b1) := new_object order b in
    (Ok tt, OrderBook__delete o (L1OrderBook__process_order o b1)).

(** [_top_bid] and [_top_bid_level] are assigned together, so the second is
    set whenever the first is. *)
Definition L1OrderBook__update_bid (price size : Z) (b : OrderBook) : OrderBook :=
  match _top_bid b with
  | None =>
      let '(bid, b1) := new_object (Order_new price size BUY b) b in
      let b2 := OrderBook__add bid (L1OrderBook__process_order bid b1) in
      set_top_bid (Some bid) (Ladder_top (bids b2)) b2
  | Some top_bid =>
      match _top_bid_level b with
      | None => b
      | Some top_bid_level =>
          set_objects
            (Order_update_volume top_bid size
               (Order_update_price top_bid price
                  (Level_set_price top_bid_level price (objects b)))) b
      end
  end.

Definition L1OrderBook__update_ask (price size : Z) (b : OrderBook) : OrderBook :=
  match _top_ask b with
  | None =>
      let '(ask, b1) := new_object (Order_new price size SELL b) b in
      let b2 := OrderBook__add ask (L1OrderBook__process_order ask b1) in
      set_top_ask (Some ask) (Ladder_top (asks b2)) b2
  | Some top_ask =>
      match _top_ask_level b with
      | None => b
      | Some top_ask_level =>
          set_objects
            (Order_update_volume top_ask size
               (Order_update_price top_ask price
                  (Level_set_price top_ask_level price (objects b)))) b
      end
  end.

Definition L1OrderBook__update_quote_tick (bid ask bid_size ask_size : Z)
    (b : OrderBook) : OrderBook :=
  L1OrderBook__update_ask ask ask_size (L1OrderBook__update_bid bid bid_size b).

(** An expression statement: the value is computed and dropped. *)
Definition expression_statement {A} (value : A) (b : OrderBook) : OrderBook := b.

Definition cached_price (b : OrderBook) (o : option ref) : Z :=
  match o with
  | Some r => order_price (get_order (objects b) r)
  | None => 0
  end.

Definition cached_level_price (b : OrderBook) (l : option ref) : Z :=
  match l with
  | Some r => level_price (get_level (objects b) r)
  | None => 0
  end.

Definition L1OrderBook__update_trade_tick (price size : Z) (aggressor_side : AggressorSide)
    (b : OrderBook) : OrderBook :=
  match aggressor_side with
  | AggressorSide_SELL =>
      let b1 := L1OrderBook__update_bid price size b in
      if bool_decide (is_Some (_top_ask b1))
         && (cached_price b1 (_top_ask b1) <=? cached_price b1 (_top_bid b1))
      then
        let b2 :=
          expression_statement
            (cached_price b1 (_top_ask b1) =? cached_price b1 (_top_bid b1)) b1 in
        expression_statement
          (cached_level_price b2 (_top_ask_level b2) =? cached_price b2 (_top_bid b2)) b2
      else b1
  | AggressorSide_BUY =>
      let b1 := L1OrderBook__update_ask price size b in
      if bool_decide (is_Some (_top_bid b1))
         && (cached_price b1 (_top_ask b1) <=? cached_price b1 (_top_bid b1))
      then
        let b2 :=
          expression_statement
            (cached_price b1 (_top_bid b1) =? cached_price b1 (_top_ask b1)) b1 in
        expression_statement
          (cached_level_price b2 (_top_bid_level b2) =? cached_price b2 (_top_ask b2)) b2
      else b1
  end.

Definition L1OrderBook_update_top (tick : Tick) : M unit :=
  match tick with
  | QuoteTick bid ask bid_size ask_size =>
      lift (L1OrderBook__update_quote_tick bid ask bid_size ask_size)
  | TradeTick price size aggressor_side =>
      lift (L1OrderBook__update_trade_tick price size aggressor_side)
  end.

Definition L1OrderBook_check_integrity (b : OrderBook) : outcome unit :=
  match OrderBook__check_integrity b with
  | Raise e => Raise e
  | Ok _ =>
      if negb (Nat.leb (length (ladder_levels (bids b))) 1)
      then Raise (AssertionError "Number of bid levels > 1")
      else if negb (Nat.leb (length (ladder_levels (asks b))) 1)
      then Raise (AssertionError "Number of ask levels > 1")
      else Ok tt
  end.

(** ** OrderBookData *)

Record OrderBookSnapshot := mkOrderBookSnapshot {
  snapshot_instrument_id : string;
  snapshot_level : OrderBookLevel;
  snapshot_bids : list (Z * Z);
  snapshot_asks : list (Z * Z);
  snapshot_timestamp_ns : Z
}.

Record OrderBookDelta := mkOrderBookDelta {
  delta_instrument_id : string;
  delta_level : OrderBookLevel;
  delta_type : OrderBookDeltaType;
  delta_order : Order;
  delta_timestamp_ns : Z
}.

Record OrderBookDeltas := mkOrderBookDeltas {
  deltas_instrument_id : string;
  deltas_level : OrderBookLevel;
  deltas_deltas : list OrderBookDelta;
  deltas_timestamp_ns : Z
}.

Inductive OrderBookData :=
| DataSnapshot (snapshot : OrderBookSnapshot)
| DataDeltas (deltas : OrderBookDeltas)
| DataDelta (delta : OrderBookDelta).

Definition data_level (data : OrderBookData) : OrderBookLevel :=
  match data with
  | DataSnapshot s => snapshot_level s
  | DataDeltas ds => deltas_level ds
  | DataDelta d => delta_level d
  end.

(** ** Overridden methods: [self.add], [self.update], [self.delete] *)

Definition self_add (order : Order) : M unit :=
  fun b =>
    match level b with
    | L1 => L1OrderBook_add order b
    | L2 => L2OrderBook_add order b
    | L3 => OrderBook_add order b
    end.

Definition self_update (order : Order) : M unit :=
  fun b =>
    match level b with
    | L1 => L1OrderBook_update order b
    | L2 => L2OrderBook_update order b
    | L3 => OrderBook_update order b
    end.

Definition self_delete (order : Order) : M unit :=
  fun b =>
    match level b with
    | L1 => L1OrderBook_delete order b
    | L2 => L2OrderBook_delete order b
    | L3 => OrderBook_delete order b
    end.

Definition self_check_integrity (b : OrderBook) : outcome unit :=
  match level b with
  | L1 => L1OrderBook_check_integrity b
  | L2 => L2OrderBook_check_integrity b
  | L3 => OrderBook__check_integrity b
  end.

(** ** OrderBook: applying data

    The data arguments are the objects that pass [Condition.not_none]. *)

Definition OrderBook__apply_delta (delta : OrderBookDelta) : M unit :=
  (match delta_type delta with
   | ADD => self_add (delta_order delta)
   | UPDATE => self_update (delta_order delta)
   | DELETE => self_delete (delta_order delta)
   end ;;
   lift (set_last_update_timestamp_ns (delta_timestamp_ns delta)))%book.

Definition OrderBook_apply_delta (delta : OrderBookDelta) : M unit :=
  fun b =>
    (Condition_equal (delta_level delta) (level b) "delta.level" "self.level" ;;
     OrderBook__apply_delta delta)%book b.

Definition OrderBook_apply_deltas (deltas : OrderBookDeltas) : M unit :=
  fun b =>
    (Condition_equal (deltas_level deltas) (level b) "deltas.level" "self.level" ;;
     for_each OrderBook__apply_delta (deltas_deltas deltas))%book b.

Definition OrderBook_apply_snapshot (snapshot : OrderBookSnapshot) : M unit :=
  fun b =>
    (Condition_equal (snapshot_level snapshot) (level b) "snapshot.level" "self.level" ;;
     lift OrderBook_clear ;;
     for_each (fun bid b' => self_update (Order_new (fst bid) (snd bid) BUY b') b')
       (snapshot_bids snapshot) ;;
     for_each (fun ask b' => self_update (Order_new (fst ask) (snd ask) SELL b') b')
       (snapshot_asks snapshot) ;;
     lift (set_last_update_timestamp_ns (snapshot_timestamp_ns snapshot)))%book b.

Definition OrderBook_apply (data : OrderBookData) : M unit :=
  fun b =>
    (Condition_call (data_level data) (level b) "data.level" "self.level" ;;
     match data with
     | DataSnapshot snapshot => OrderBook_apply_snapshot snapshot
     | DataDeltas deltas => OrderBook_apply_deltas deltas
     | DataDelta delta => OrderBook__apply_delta delta
     end)%book b.

(** * Execution databases

    The databases store and rebuild accounts, orders and positions.  Those
    classes, their events and the serializer are collaborators outside the
    embedded sources; the databases use them through the interfaces below. *)

(** The order types [load_order] tells apart; any other value of the enum is
    [OrderType_UNDEFINED]. *)
Inductive OrderType := MARKET | LIMIT | STOP_MARKET | STOP_LIMIT | OrderType_UNDEFINED.

(** The events, as far as the database looks into them. *)
Class Events := {
  AccountState : Type;
  OrderInitialized : Type;
  OrderFilled : Type;
  OtherEvent : Type;
  order_type : OrderInitialized -> OrderType
}.

Inductive Event `{Events} :=
| EvAccountState (e : AccountState)
| EvOrderInitialized (e : OrderInitialized)
| EvOrderFilled (e : OrderFilled)
| EvOther (e : OtherEvent).

(** The pluggable serializer: [serialize(event) -> bytes],
    [deserialize(bytes) -> event]. *)
Class EventSerializer `{Events} := {
  serialize : Event -> string;
  deserialize : string -> Event
}.

(** The event-sourced aggregates; [BaseOrder] is the [Order] of
    model/order/base, not the resting order of the book. *)
Class Aggregates `{Events} := {
  Account : Type;
  BaseOrder : Type;
  Position : Type;
  StrategyState : Type;
  Account_init : AccountState -> Account;
  Account_apply : Account -> Event -> outcome Account;
  Account_id : Account -> string;
  Account_last_event_c : Account -> Event;
  MarketOrder_create : OrderInitialized -> BaseOrder;
  LimitOrder_create : OrderInitialized -> BaseOrder;
  StopMarketOrder_create : OrderInitialized -> BaseOrder;
  StopLimitOrder_create : OrderInitialized -> BaseOrder;
  Order_apply : BaseOrder -> Event -> outcome BaseOrder;
  Order_client_order_id : BaseOrder -> string;
  Order_last_event_c : BaseOrder -> Event;
  Position_init : OrderFilled -> Position;
  Position_apply : Position -> Event -> outcome Position;
  Position_id : Position -> string;
  Position_last_event_c : Position -> Event
}.

(** ** Logging (common/logging.pxd) *)

Inductive LogLevel := DEBUG | INFO | WARNING | ERROR | CRITICAL.

Definition LogRecord : Type := LogLevel * string.

Definition is_error (r : LogRecord) : bool :=
  match fst r with
  | ERROR => true
  | _ => false
  end.

(** ** BypassExecutionDatabase (execution/database.pyx) *)

Record BypassExecutionDatabase := mkBypass {
  bypass_trader_id : string;
  bypass_log : list LogRecord
}.

Definition BypassExecutionDatabase_init (trader : string) (log : list LogRecord)
    : BypassExecutionDatabase :=
  mkBypass trader (log ++ [(INFO, "Initialized.")]).

Section Bypass.
Context `{Aggregates}.

Definition Bypass_flush (db : BypassExecutionDatabase) : BypassExecutionDatabase := db.

Definition Bypass_load_accounts (db : BypassExecutionDatabase) : gmap string Account := ∅.

Definition Bypass_load_orders (db : BypassExecutionDatabase) : gmap string BaseOrder := ∅.

Definition Bypass_load_positions (db : BypassExecutionDatabase) : gmap string Position := ∅.

Definition Bypass_load_account (account_id : string) (db : BypassExecutionDatabase)
    : option Account := None.

Definition Bypass_load_order (client_order_id : string) (db : BypassExecutionDatabase)
    : option BaseOrder := None.

Definition Bypass_load_position (position_id : string) (db : BypassExecutionDatabase)
    : option Position := None.

Definition Bypass_load_strategy (strategy_id : string) (db : BypassExecutionDatabase)
    : gmap string string := ∅.

Definition Bypass_delete_strategy (strategy_id : string) (db : BypassExecutionDatabase)
    : BypassExecutionDatabase := db.

Definition Bypass_add_account (account : Account) (db : BypassExecutionDatabase)
    : BypassExecutionDatabase := db.

Definition Bypass_add_order (order : BaseOrder) (db : BypassExecutionDatabase)
    : BypassExecutionDatabase := db.

Definition Bypass_add_position (position : Position) (db : BypassExecutionDatabase)
    : BypassExecutionDatabase := db.

Definition Bypass_update_account (account : Account) (db : BypassExecutionDatabase)
    : BypassExecutionDatabase := db.

Definition Bypass_update_order (order : BaseOrder) (db : BypassExecutionDatabase)
    : BypassExecutionDatabase := db.

Definition Bypass_update_position (position : Position) (db : BypassExecutionDatabase)
    : BypassExecutionDatabase := db.

Definition Bypass_update_strategy (strategy : string * StrategyState)
    (db : BypassExecutionDatabase) : BypassExecutionDatabase := db.

(** The mutating calls of the interface, to speak about call sequences. *)
Inductive DatabaseCall :=
| Call_flush
| Call_delete_strategy (strategy_id : string)
| Call_add_account (account : Account)
| Call_add_order (order : BaseOrder)
| Call_add_position (position : Position)
| Call_update_account (account : Account)
| Call_update_order (order : BaseOrder)
| Call_update_position (position : Position)
| Call_update_strategy (strategy : string * StrategyState).

Definition Bypass_call (c : DatabaseCall) (db : BypassExecutionDatabase)
    : BypassExecutionDatabase :=
  match c with
  | Call_flush => Bypass_flush db
  | Call_delete_strategy s => Bypass_delete_strategy s db
  | Call_add_account a => Bypass_add_account a db
  | Call_add_order o => Bypass_add_order o db
  | Call_add_position p => Bypass_add_position p db
  | Call_update_account a => Bypass_update_account a db
  | Call_update_order o => Bypass_update_order o db
  | Call_update_position p => Bypass_update_position p db
  | Call_update_strategy s => Bypass_update_strategy s db
  end.

Definition Bypass_calls (cs : list DatabaseCall) (db : BypassExecutionDatabase)
    : BypassExecutionDatabase :=
  fold_left (fun d c => Bypass_call c d) cs db.

End Bypass.

(** ** RedisExecutionDatabase (redis/execution.pyx)

    The Redis server holds lists of serialized events under string keys; a key
    without a list reads as the empty list. *)

Definition Redis_lrange_all (name : string) (redis : gmap string (list string)) : list string :=
  default [] (redis !! name).

(** [rpush] appends and replies with the length of the list after the push. *)
Definition Redis_rpush (name : string) (value : string) (redis : gmap string (list string))
    : Z * gmap string (list string) :=
  let l := Redis_lrange_all name redis ++ [value] in
  (Z.of_nat (length l), <[name := l]> redis).

Record RedisExecutionDatabase := mkRedis {
  trader_id : string;
  _redis : gmap string (list string);
  _log : list LogRecord
}.

Definition _key_trader (db : RedisExecutionDatabase) : string := "Trader-" ++ trader_id db.

Definition _key_accounts (db : RedisExecutionDatabase) : string := _key_trader db ++ ":Accounts:".

Definition _key_orders (db : RedisExecutionDatabase) : string := _key_trader db ++ ":Orders:".

Definition _key_positions (db : RedisExecutionDatabase) : string := _key_trader db ++ ":Positions:".

Definition set_redis (redis : gmap string (list string)) (db : RedisExecutionDatabase)
    : RedisExecutionDatabase :=
  mkRedis (trader_id db) redis (_log db).

Definition log_record (lvl : LogLevel) (msg : string) (db : RedisExecutionDatabase)
    : RedisExecutionDatabase :=
  mkRedis (trader_id db) (_redis db) (_log db ++ [(lvl, msg)]).

Definition errors_logged (db : RedisExecutionDatabase) : list LogRecord :=
  filter (fun r => is_error r = true) (_log db).

Section Redis.
Context `{EventSerializer} `{!Aggregates}.

(** [for event in events: entity.apply(deserialize(event))] *)
Fixpoint apply_events {T} (apply : T -> Event -> outcome T) (entity : T)
    (events : list string) : outcome T :=
  match events with
  | [] => Ok entity
  | event_bytes :: rest =>
      match apply entity (deserialize event_bytes) with
      | Ok entity' => apply_events apply entity' rest
      | Raise e => Raise e
      end
  end.

Definition Redis_load_account (account_id : string) (db : RedisExecutionDatabase)
    : outcome (option Account) :=
  let events := Redis_lrange_all (_key_accounts db ++ account_id) (_redis db) in
  match events with
  | [] => Ok None
  | first :: rest =>
      match deserialize first with
      | EvAccountState state =>
          match apply_events Account_apply (Account_init state) rest with
          | Ok account => Ok (Some account)
          | Raise e => Raise e
          end
      | _ => Raise (TypeError "Argument 'event' has incorrect type")
      end
  end.

Definition Redis_load_order (client_order_id : string) (db : RedisExecutionDatabase)
    : outcome (option BaseOrder) :=
  let events := Redis_lrange_all (_key_orders db ++ client_order_id) (_redis db) in
  match events with
  | [] => Ok None
  | first :: events =>
      match deserialize first with
      | EvOrderInitialized init =>
          let created :=
            match order_type init with
            | MARKET => Ok (MarketOrder_create init)
            | LIMIT => Ok (LimitOrder_create init)
            | STOP_MARKET => Ok (StopMarketOrder_create init)
            | STOP_LIMIT => Ok (StopLimitOrder_create init)
            | OrderType_UNDEFINED => Raise (RuntimeError "Invalid order type")
            end in
          match created with
          | Raise e => Raise e
          | Ok order =>
              match apply_events Order_apply order events with
              | Ok order' => Ok (Some order')
              | Raise e => Raise e
              end
          end
      | _ => Raise (TypeError "Cannot convert to OrderInitialized")
      end
  end.

Definition Redis_load_position (position_id : string) (db : RedisExecutionDatabase)
    : outcome (option Position) :=
  let events := Redis_lrange_all (_key_positions db ++ position_id) (_redis db) in
  match events with
  | [] => Ok None
  | first :: events =>
      match deserialize first with
      | EvOrderFilled initial_fill =>
          match apply_events Position_apply (Position_init initial_fill) events with
          | Ok position => Ok (Some position)
          | Raise e => Raise e
          end
      | _ => Raise (TypeError "Cannot convert to OrderFilled")
      end
  end.

(** [add_account] runs the push through a pipeline, whose reply is the list
    of the replies of its commands. *)
Definition Redis_add_account (account : Account) (db : RedisExecutionDatabase)
    : RedisExecutionDatabase :=
  let '(n, redis) :=
    Redis_rpush (_key_accounts db ++ Account_id account)
      (serialize (Account_last_event_c account)) (_redis db) in
  let reply := [n] in
  let db1 := set_redis redis db in
  let db2 :=
    if 1 <? Z.of_nat (length reply)
    then log_record ERROR
           ("The " ++ Account_id account
            ++ " already existed in the accounts and was appended to.") db1
    else db1 in
  log_record DEBUG ("Added Account(id=" ++ Account_id account ++ ").") db2.

Definition Redis_add_order (order : BaseOrder) (db : RedisExecutionDatabase)
    : RedisExecutionDatabase :=
  let last_event := serialize (Order_last_event_c order) in
  let '(reply, redis) :=
    Redis_rpush (_key_orders db ++ Order_client_order_id order) last_event (_redis db) in
  let db1 := set_redis redis db in
  if 1 <? reply
  then log_record ERROR
         ("The " ++ Order_client_order_id order
          ++ " already existed in the orders and was appended to.") db1
  else db1.

Definition Redis_add_position (position : Position) (db : RedisExecutionDatabase)
    : RedisExecutionDatabase :=
  let last_event := serialize (Position_last_event_c position) in
  let '(reply, redis) :=
    Redis_rpush (_key_positions db ++ Position_id position) last_event (_redis db) in
  let db1 := set_redis redis db in
  let db2 :=
    if 1 <? reply
    then log_record ERROR
           ("The " ++ Position_id position
            ++ " already existed in the index_broker_position and was overwritten.") db1
    else db1 in
  log_record DEBUG ("Added Position(id=" ++ Position_id position ++ ").") db2.

Definition Redis_update_account (account : Account) (db : RedisExecutionDatabase)
    : RedisExecutionDatabase :=
  let serialized_event := serialize (Account_last_event_c account) in
  let '(_, redis) :=
    Redis_rpush (_key_accounts db ++ Account_id account) serialized_event (_redis db) in
  log_record DEBUG ("Updated Account(id=" ++ Account_id account ++ ").") (set_redis redis db).

Definition Redis_update_order (order : BaseOrder) (db : RedisExecutionDatabase)
    : RedisExecutionDatabase :=
  let serialized_event := serialize (Order_last_event_c order) in
  let '(reply, redis) :=
    Redis_rpush (_key_orders db ++ Order_client_order_id order) serialized_event (_redis db) in
  let db1 := set_redis redis db in
  let db2 :=
    if reply =? 1
    then log_record ERROR
           ("The updated Order(id=" ++ Order_client_order_id order
            ++ ") did not already exist.") db1
    else db1 in
  log_record DEBUG ("Updated Order(id=" ++ Order_client_order_id order ++ ").") db2.

Definition Redis_update_position (position : Position) (db : RedisExecutionDatabase)
    : RedisExecutionDatabase :=
  let serialized_event := serialize (Position_last_event_c position) in
  let '(reply, redis) :=
    Redis_rpush (_key_positions db ++ Position_id position) serialized_event (_redis db) in
  let db1 := set_redis redis db in
  let db2 :=
    if reply =? 1
    then log_record ERROR
           ("The updated Position(id=" ++ Position_id position
            ++ ") did not already exist.") db1
    else db1 in
  log_record DEBUG ("Updated Position(id=" ++ Position_id position ++ ").") db2.

(** *** The contracts in the words of the specification *)

(** Load: the first event seeds the entity, the rest is folded with [apply]. *)
Definition fold_apply {T} (apply : T -> Event -> outcome T) (seed : T)
    (events : list Event) : outcome T :=
  fold_left
    (fun acc event =>
       match acc with
       | Ok entity => apply entity event
       | Raise e => Raise e
       end)
    events (Ok seed).

(** A loaded entity is returned as found. *)
Definition found {T} (r : outcome T) : outcome (option T) :=
  match r with
  | Ok entity => Ok (Some entity)
  | Raise e => Raise e
  end.

End Redis.

(** * Auxiliary notions for the statements *)

(** Fields that no ladder operation touches. *)
Definition same_header (b b' : OrderBook) : Prop :=
  level b' = level b
  /\ last_update_timestamp_ns b' = last_update_timestamp_ns b
  /\ price_precision b' = price_precision b
  /\ size_precision b' = size_precision b.

(** The call raised a validation error ([ValueError]); the text of the
    message is not part of the statements. *)
Definition is_validation_error {A} (o : outcome A) : Prop :=
  exists msg, o = Raise (ValueError msg).

(** The integrity check failed its assertion. *)
Definition is_assertion_failure {A} (o : outcome A) : Prop :=
  exists msg, o = Raise (AssertionError msg).

(** Sequential calls [f(x1); ...; f(xn)] of a public method; a call that
    raises ends the sequence, as an exception that nobody catches does. *)
Definition calls {A} (method : A -> M unit) (xs : list A) : M unit :=
  fold_right (fun x rest => bind (method x) (fun _ => rest)) (ret tt) xs.

(** The public mutations of a book by data. *)
Inductive Mutation :=
| Mut_apply_delta (delta : OrderBookDelta)
| Mut_apply_deltas (deltas : OrderBookDeltas)
| Mut_apply_snapshot (snapshot : OrderBookSnapshot).

Definition mutate (m : Mutation) : M unit :=
  match m with
  | Mut_apply_delta d => OrderBook_apply_delta d
  | Mut_apply_deltas ds => OrderBook_apply_deltas ds
  | Mut_apply_snapshot s => OrderBook_apply_snapshot s
  end.

(** The timestamps a mutation carries into the book; of a batch those of its
    deltas, the [timestamp_ns] of the batch itself is not read. *)
Definition timestamps (m : Mutation) : list Z :=
  match m with
  | Mut_apply_delta d => [delta_timestamp_ns d]
  | Mut_apply_deltas ds => map delta_timestamp_ns (deltas_deltas ds)
  | Mut_apply_snapshot s => [snapshot_timestamp_ns s]
  end.

(** ** Example inputs *)

Definition audusd : Instrument := mkInstrument "AUD/USD.SIM" 2 0.

Definition empty_book (lvl : OrderBookLevel) : OrderBook :=
  mkOrderBook "AUD/USD.SIM" lvl 2 0 (Ladder_new true 2 0) (Ladder_new false 2 0) 0
    empty_store None None None None.

(** The levels of a side with their resting orders, references resolved. *)
Definition resolve (st : Store) (lad : Ladder) : list (Z * list Order) :=
  map (fun rl => (level_price (get_level st rl),
                  map (get_order st) (level_orders (get_level st rl))))
    (ladder_levels lad).

Definition delta_at_10 : OrderBookDelta :=
  mkOrderBookDelta "AUD/USD.SIM" L3 ADD (mkOrder "1" BUY 10000 5) 10.

Definition delta_at_5 : OrderBookDelta :=
  mkOrderBookDelta "AUD/USD.SIM" L3 ADD (mkOrder "2" SELL 10100 3) 5.

(** A batch that says L2 and carries one delta that says L3. *)
Definition batch_of_other_level : OrderBookDeltas :=
  mkOrderBookDeltas "AUD/USD.SIM" L2 [delta_at_10] 10.

Definition batch_of_two : OrderBookDeltas :=
  mkOrderBookDeltas "AUD/USD.SIM" L3 [delta_at_5; delta_at_10] 10.

(** What [apply_snapshot] does after the level check and the clear. *)
Definition snapshot_body (s : OrderBookSnapshot) : M unit :=
  (for_each (fun bid b' => self_update (Order_new (fst bid) (snd bid) BUY b') b')
     (snapshot_bids s) ;;
   for_each (fun ask b' => self_update (Order_new (fst ask) (snd ask) SELL b') b')
     (snapshot_asks s) ;;
   lift (set_last_update_timestamp_ns (snapshot_timestamp_ns s)))%book.

(** No reference of the ladder dangles: its levels and their orders are
    objects of the store. *)
Definition ladder_wf (st : Store) (lad : Ladder) : bool :=
  forallb
    (fun rl =>
       Nat.ltb rl (length (store_levels st))
       && forallb (fun ro => Nat.ltb ro (length (store_orders st)))
            (level_orders (get_level st rl)))
    (ladder_levels lad).

(** Some order resting on the ladder carries the id. *)
Definition Ladder_holds_id (st : Store) (i : string) (lad : Ladder) : bool :=
  existsb (Level_has_id st i) (ladder_levels lad).

(** The levels at a price, references resolved. *)
Definition levels_at (p : Z) (st : Store) (lad : Ladder) : list (Z * list Order) :=
  List.filter (fun lv => fst lv =? p) (resolve st lad).

(** [st'] has the objects of [st] and possibly more. *)
Definition extends (st st' : Store) : Prop :=
  exists xo xl, store_orders st' = store_orders st ++ xo
             /\ store_levels st' = store_levels st ++ xl.

Definition book_after_adds : OrderBook :=
  exec (L2OrderBook_add (mkOrder "7" BUY 9900 3)) (empty_book L2).

(** A book on which two orders were added at 100.00 already. *)
Definition book_with_stacked_level : OrderBook :=
  exec (L2OrderBook_add (mkOrder "2" BUY 10000 2))
    (exec (L2OrderBook_add (mkOrder "1" BUY 10000 1)) (empty_book L2)).

(** ** The structure of an L1 book

    A side is empty or holds one level with one order, whose id is the name
    of the side. *)
Definition l1_side_ok (st : Store) (sd : OrderSide) (lad : Ladder) : bool :=
  match ladder_levels lad with
  | [] => true
  | [rl] =>
      match store_levels st !! rl with
      | Some lv =>
          match level_orders lv with
          | [ro] =>
              match store_orders st !! ro with
              | Some o => String.eqb (order_id o) (OrderSideParser_to_str sd)
              | None => false
              end
          | _ => false
          end
      | None => false
      end
  | _ => false
  end.

Definition L1_structure (b : OrderBook) : bool :=
  l1_side_ok (objects b) BUY (bids b) && l1_side_ok (objects b) SELL (asks b).

(** The book after the crossing guard at the head of [L1OrderBook.update]. *)
Definition L1_update_guard (order : Order) (b : OrderBook) : OrderBook :=
  if bool_decide (order_side order = BUY)
     && bool_decide (is_Some (OrderBook_best_ask_level b))
     && ge_price (order_price order) (OrderBook_best_ask_price b)
  then OrderBook_clear_asks b
  else if bool_decide (order_side order = SELL)
          && bool_decide (is_Some (OrderBook_best_bid_level b))
          && le_price (order_price order) (OrderBook_best_bid_price b)
  then OrderBook_clear_bids b
  else b.

(** The third seed scenario starts from a bid at 101.00. *)
Definition book_bid_101 : OrderBook :=
  exec (L1OrderBook_update (mkOrder "1" BUY 10100 2)) (empty_book L1).

(** An L1 book fed by an order update at 100.00, a quote 97.00 / 101.00 and
    a trade at 96.00 with a BUY aggressor. *)
Definition book_after_ticks : OrderBook :=
  exec (L1OrderBook_update_top (TradeTick 9600 1 AggressorSide_BUY))
    (exec (L1OrderBook_update_top (QuoteTick 9700 10100 1 1))
       (exec (L1OrderBook_update (mkOrder "1" BUY 10000 1)) (empty_book L1))).

(** ** Execution databases: auxiliary notions and example collaborators *)

(** A call logged an integrity error: the log holds more ERROR records after
    the call than before. *)
Definition integrity_error_logged (before after : RedisExecutionDatabase) : Prop :=
  (length (errors_logged before) < length (errors_logged after))%nat.

(** Events whose payload is a text; an [OrderInitialized] names its order
    type. *)
Definition text_events : Events :=
  {| AccountState := string;
     OrderInitialized := string;
     OrderFilled := string;
     OtherEvent := string;
     order_type := fun init =>
       if String.eqb init "MARKET" then MARKET
       else if String.eqb init "LIMIT" then LIMIT
       else if String.eqb init "STOP_MARKET" then STOP_MARKET
       else if String.eqb init "STOP_LIMIT" then STOP_LIMIT
       else OrderType_UNDEFINED |}.

(** One tag character, then the payload. *)
Definition text_serializer : @EventSerializer text_events :=
  {| serialize := fun e : @Event text_events =>
       match e with
       | EvAccountState s => String "A"%char s
       | EvOrderInitialized s => String "I"%char s
       | EvOrderFilled s => String "F"%char s
       | EvOther s => String "O"%char s
       end;
     deserialize := fun s =>
       match s with
       | String "A"%char r => @EvAccountState text_events r
       | String "I"%char r => @EvOrderInitialized text_events r
       | String "F"%char r => @EvOrderFilled text_events r
       | String _ r => @EvOther text_events r
       | EmptyString => @EvOther text_events ""
       end |}.

(** Aggregates that record which class was built and the events applied. *)
Definition journal_aggregates : @Aggregates text_events :=
  {| Account := list (@Event text_events);
     BaseOrder := string * list (@Event text_events);
     Position := list (@Event text_events);
     StrategyState := string;
     Account_init := fun s => [@EvAccountState text_events s];
     Account_apply := fun a e => Ok (a ++ [e]);
     Account_id := fun _ => "SIM-001";
     Account_last_event_c := fun a => List.last a (@EvOther text_events "");
     MarketOrder_create := fun i => ("MarketOrder", [@EvOrderInitialized text_events i]);
     LimitOrder_create := fun i => ("LimitOrder", [@EvOrderInitialized text_events i]);
     StopMarketOrder_create := fun i => ("StopMarketOrder", [@EvOrderInitialized text_events i]);
     StopLimitOrder_create := fun i => ("StopLimitOrder", [@EvOrderInitialized text_events i]);
     Order_apply := fun o e => Ok (fst o, snd o ++ [e]);
     Order_client_order_id := fun _ => "O-1";
     Order_last_event_c := fun o => List.last (snd o) (@EvOther text_events "");
     Position_init := fun f => [@EvOrderFilled text_events f];
     Position_apply := fun p e => Ok (p ++ [e]);
     Position_id := fun _ => "P-1";
     Position_last_event_c := fun p => List.last p (@EvOther text_events "") |}.

Definition empty_database : RedisExecutionDatabase := mkRedis "001" ∅ [].

Definition limit_order : @BaseOrder text_events journal_aggregates :=
  ("LimitOrder", [@EvOrderInitialized text_events "LIMIT"]).

(** A store holding an initialized LIMIT order with one fill. *)
Definition database_with_order : RedisExecutionDatabase :=
  mkRedis "001" (<["Trader-001:Orders:O-1" := ["ILIMIT"; "F10"]]> ∅) [].

(** * Further parts of the sources *)

(** ** OrderBook.trade_side (model/orderbook/book.pyx) *)

(** The truth value of [self.best_bid_price()] in a condition: [None] is
    false, and so is the price [0.0]. *)
Definition price_is_true (p : option Z) : bool :=
  match p with
  | Some x => negb (x =? 0)
  | None => false
  end.

(** [trade_side] reads the price of the trade tick.  It returns the side as
    an [int]; the [0] of an invalid trade tick is [None] here. *)
Definition OrderBook_trade_side (trade_price : Z) (b : OrderBook) : option OrderSide :=
  if price_is_true (OrderBook_best_bid_price b)
     && le_price trade_price (OrderBook_best_bid_price b)
  then Some BUY
  else if price_is_true (OrderBook_best_ask_price b)
          && ge_price trade_price (OrderBook_best_ask_price b)
  then Some SELL
  else None.

(** ** DepthTypeParser (model/c_enums/depth_type.pyx) *)

(** The members [from_str] returns; the declaration of the enum
    (depth_type.pxd) is not among the sources. *)
Inductive DepthType := VOLUME | EXPOSURE.

(** [to_str] is a C function of a C [int]: [value] is a C integer. *)
Definition DepthTypeParser_to_str (value : Z) : outcome string :=
  if value =? 1 then Ok "VOLUME"
  else if value =? 2 then Ok "EXPOSURE"
  else Raise (ValueError ("value was invalid, was " ++ pretty value)).

(** [f"{value}"] of a [str] parameter, which may be [None]. *)
Definition format_str (value : option string) : string :=
  match value with
  | Some s => s
  | None => "None"
  end.

(** A parameter declared [str] takes a string or [None]. *)
Definition DepthTypeParser_from_str (value : option string) : outcome DepthType :=
  if bool_decide (value = Some "VOLUME") then Ok VOLUME
  else if bool_decide (value = Some "EXPOSURE") then Ok EXPOSURE
  else Raise (ValueError ("value was invalid, was " ++ format_str value)).

(** [to_str_py] is called from Python: its argument becomes the C [int]
    first. *)
Definition DepthTypeParser_to_str_py (value : Z) : outcome string :=
  match as_c_int value with
  | Raise e => Raise e
  | Ok value => DepthTypeParser_to_str value
  end.

Definition DepthTypeParser_from_str_py (value : option string) : outcome DepthType :=
  DepthTypeParser_from_str value.

(** ** RedisExecutionDatabase: flush and the strategy states

    The state of a strategy is kept in a Redis hash.  The keys of the lists
    and the keys of the hashes are one key space of the server: [delete] and
    [flushdb] act on both. *)

Record RedisServerDatabase := mkRedisServer {
  entities : RedisExecutionDatabase;
  _redis_hashes : gmap string (gmap string string)
}.

Definition _key_strategies (db : RedisExecutionDatabase) : string :=
  _key_trader db ++ ":Strategies:".

(** [hgetall]: a key without a hash reads as the empty dictionary. *)
Definition Redis_hgetall (name : string) (hashes : gmap string (gmap string string))
    : gmap string string :=
  default ∅ (hashes !! name).

Definition Redis_hset (name key value : string) (hashes : gmap string (gmap string string))
    : gmap string (gmap string string) :=
  <[name := <[key := value]> (Redis_hgetall name hashes)]> hashes.

Definition server_log (lvl : LogLevel) (msg : string) (db : RedisServerDatabase)
    : RedisServerDatabase :=
  mkRedisServer (log_record lvl msg (entities db)) (_redis_hashes db).

Definition Redis_flushdb (db : RedisServerDatabase) : RedisServerDatabase :=
  mkRedisServer (set_redis ∅ (entities db)) ∅.

Definition Redis_delete (name : string) (db : RedisServerDatabase) : RedisServerDatabase :=
  mkRedisServer (set_redis (delete name (_redis (entities db))) (entities db))
    (delete name (_redis_hashes db)).

Definition Redis_flush (db : RedisServerDatabase) : RedisServerDatabase :=
  server_log INFO "Flushed database."
    (Redis_flushdb (server_log DEBUG "Flushing database...." db)).

Definition Redis_load_strategy (strategy_id : string) (db : RedisServerDatabase)
    : gmap string string :=
  Redis_hgetall ((_key_strategies (entities db) ++ strategy_id) ++ ":State")
    (_redis_hashes db).

(** [repr(strategy_id)] and [str(strategy.id)] are rendered by the identifier
    class, outside the sources; the log texts carry the value of the id. *)
Definition Redis_delete_strategy (strategy_id : string) (db : RedisServerDatabase)
    : RedisServerDatabase :=
  server_log INFO ("Deleted " ++ strategy_id ++ ".")
    (Redis_delete (_key_strategies (entities db) ++ strategy_id) db).

(** Of a [TradingStrategy] (trading/strategy.pyx) the database reads the id
    and the dictionary that [save()] returns, here the list of its items. *)
Record TradingStrategy := mkTradingStrategy {
  strategy_id_value : string;
  strategy_save : list (string * string)
}.

(** The [hset] commands are queued in a pipeline and reach the server at
    [pipe.execute()], after the loop; nothing reads the server in between. *)
Definition Redis_update_strategy (strategy : TradingStrategy) (db : RedisServerDatabase)
    : RedisServerDatabase :=
  let name : string :=
    ((_key_strategies (entities db) ++ strategy_id_value strategy) ++ ":State")%string in
  let db1 :=
    fold_left
      (fun d item =>
         server_log DEBUG
           ("Saving " ++ strategy_id_value strategy ++ " state { "
            ++ fst item ++ ": " ++ snd item ++ " }")%string
           (mkRedisServer (entities d)
              (Redis_hset name (fst item) (snd item) (_redis_hashes d))))
      (strategy_save strategy) db in
  server_log DEBUG ("Saved strategy state for " ++ strategy_id_value strategy ++ ".") db1.

(** * Auxiliary notions for the further statements *)

(** The call raised [OverflowError]: an argument does not fit the C integer
    of the parameter. *)
Definition is_overflow_error {A} (o : outcome A) : Prop :=
  exists msg, o = Raise (OverflowError msg).

(** The integers a C [int] holds. *)
Definition fits_c_int (v : Z) : Prop := -2147483648 <= v <= 2147483647.

(** The book a subclass builds for an instrument. *)
Definition fresh_book (i : Instrument) (l : OrderBookLevel) : OrderBook :=
  mkOrderBook (instrument_ident i) l (instrument_price_precision i)
    (instrument_size_precision i)
    (Ladder_new true (instrument_price_precision i) (instrument_size_precision i))
    (Ladder_new false (instrument_price_precision i) (instrument_size_precision i))
    0 empty_store None None None None.

(** The constructor call of the branch of [OrderBook.create] for a level. *)
Definition subclass_init (l : OrderBookLevel) (i : Instrument) : outcome OrderBook :=
  match l with
  | L1 => L1OrderBook_init (instrument_ident i) (instrument_price_precision i)
            (instrument_size_precision i)
  | L2 => L2OrderBook_init (instrument_ident i) (instrument_price_precision i)
            (instrument_size_precision i)
  | L3 => L3OrderBook_init (instrument_ident i) (instrument_price_precision i)
            (instrument_size_precision i)
  end.


(** The timestamp of the last delta of a list, [t0] for the empty list. *)
Definition last_timestamp (t0 : Z) (ds : list OrderBookDelta) : Z :=
  List.last (map delta_timestamp_ns ds) t0.

(** What a feed of ticks says about the two tops: for each side the price
    and the size of the latest tick that spoke about it.  A quote speaks
    about both sides, a trade of a SELL aggressor about the bid, a trade of a
    BUY aggressor about the ask. *)
Definition tick_tops (tops : option (Z * Z) * option (Z * Z)) (tick : Tick)
    : option (Z * Z) * option (Z * Z) :=
  match tick with
  | QuoteTick bid ask bid_size ask_size => (Some (bid, bid_size), Some (ask, ask_size))
  | TradeTick price size AggressorSide_SELL => (Some (price, size), snd tops)
  | TradeTick price size AggressorSide_BUY => (fst tops, Some (price, size))
  end.

Definition feed_tops (ticks : list Tick) : option (Z * Z) * option (Z * Z) :=
  fold_left tick_tops ticks (None, None).

(** A side of an L1 book that is fed by ticks only: without a tick so far the
    side is empty and nothing is cached; afterwards the cached order and the
    cached level are the one level of the side and its one order, and they
    carry the price and the size. *)
Definition top_cached (st : Store) (lad : Ladder) (top top_level : option ref)
    (v : option (Z * Z)) : Prop :=
  match v with
  | None => top = None /\ top_level = None /\ ladder_levels lad = []
  | Some (p, s) =>
      exists ro rl o,
        top = Some ro /\ top_level = Some rl /\ ladder_levels lad = [rl]
        /\ store_levels st !! rl = Some (mkLevel p [ro])
        /\ store_orders st !! ro = Some o
        /\ order_price o = p /\ order_volume o = s
  end.

Definition ticks_only (b : OrderBook) (tops : option (Z * Z) * option (Z * Z)) : Prop :=
  top_cached (objects b) (bids b) (_top_bid b) (_top_bid_level b) (fst tops)
  /\ top_cached (objects b) (asks b) (_top_ask b) (_top_ask_level b) (snd tops)
  /\ (forall rb ra, _top_bid b = Some rb -> _top_ask b = Some ra -> rb <> ra)
  /\ (forall lb la, _top_bid_level b = Some lb -> _top_ask_level b = Some la -> lb <> la).

(** An L1 book in good order: the structure of an L1 book, tops not
    crossed. *)
Definition L1_sound (b : OrderBook) : Prop :=
  level b = L1 /\ L1_structure b = true /\ OrderBook__check_integrity b = Ok tt.

(** The order class [load_order] builds from the first event of an order. *)
Definition Order_of_initialized `{Aggregates} (init : OrderInitialized) : outcome BaseOrder :=
  match order_type init with
  | MARKET => Ok (MarketOrder_create init)
  | LIMIT => Ok (LimitOrder_create init)
  | STOP_MARKET => Ok (StopMarketOrder_create init)
  | STOP_LIMIT => Ok (StopLimitOrder_create init)
  | OrderType_UNDEFINED => Raise (RuntimeError "Invalid order type")
  end.

(** One more event applied to what a load returned. *)
Definition apply_loaded {T E} (apply : T -> E -> outcome T) (loaded : outcome (option T))
    (event : E) : outcome (option T) :=
  match loaded with
  | Ok (Some entity) => found (apply entity event)
  | other => other
  end.

(** The later item wins when a key is written twice. *)
Definition written (items : list (string * string)) : gmap string string :=
  list_to_map (reverse items).

(** ** Further example inputs *)

(** An L1 book fed by one quote, 100.00 / 101.00. *)
Definition book_after_quote : OrderBook :=
  exec (L1OrderBook_update_top (QuoteTick 10000 10100 1 1)) (empty_book L1).

Definition snapshot_of_two_asks : OrderBookSnapshot :=
  mkOrderBookSnapshot "AUD/USD.SIM" L1 [(10000, 1)] [(10100, 2); (10300, 4)] 9.

Definition empty_server : RedisServerDatabase := mkRedisServer empty_database ∅.

Definition strategy_with_state : TradingStrategy :=
  mkTradingStrategy "S-001" [("UserState", "1"); ("Counter", "7")].

(** * Properties of the order book *)

Lemma exec_bind {A B} (c : M A) (k : A -> M B) (b : OrderBook) :
  exec (bind c k) b =
  match result c b with
  | Ok a => exec (k a) (exec c b)
  | Raise _ => exec c b
  end.
Proof.
  unfold exec, result, bind. destruct (c b) as [[a|e] b']; reflexivity.
Qed.

(** ** Ladder operations leave the header of the book alone *)

Lemma same_header_refl b : same_header b b.
Proof. repeat split. Qed.

Lemma same_header_trans b1 b2 b3 :
  same_header b1 b2 -> same_header b2 b3 -> same_header b1 b3.
Proof.
  unfold same_header. intros (?&?&?&?) (?&?&?&?). repeat split; congruence.
Qed.

Lemma on_bids_header f b : same_header b (on_bids f b).
Proof. unfold on_bids. destruct (f _ _). repeat split. Qed.

Lemma on_asks_header f b : same_header b (on_asks f b).
Proof. unfold on_asks. destruct (f _ _). repeat split. Qed.

Lemma OrderBook__add_header o b : same_header b (OrderBook__add o b).
Proof.
  unfold OrderBook__add. destruct (order_side _); auto using on_bids_header, on_asks_header.
Qed.

Lemma OrderBook__update_header o b : same_header b (OrderBook__update o b).
Proof.
  unfold OrderBook__update. destruct (order_side _); auto using on_bids_header, on_asks_header.
Qed.

Lemma OrderBook__delete_header o b : same_header b (OrderBook__delete o b).
Proof.
  unfold OrderBook__delete. destruct (order_side _); auto using on_bids_header, on_asks_header.
Qed.

Lemma L2__remove_if_exists_header o b : same_header b (L2OrderBook__remove_if_exists o b).
Proof.
  unfold L2OrderBook__remove_if_exists.
  repeat case_match; auto using OrderBook__delete_header, same_header_refl.
Qed.

Lemma self_add_header order b : same_header b (exec (self_add order) b).
Proof.
  unfold self_add, exec. destruct (level b); simpl.
  - apply same_header_refl.
  - eapply same_header_trans; [|apply OrderBook__add_header]. repeat split.
  - eapply same_header_trans; [|apply OrderBook__add_header]. repeat split.
Qed.

Lemma self_update_header order b : same_header b (exec (self_update order) b).
Proof.
  unfold self_update, exec. destruct (level b); simpl.
  - eapply same_header_trans; [|apply OrderBook__update_header].
    repeat case_match; repeat split.
  - eapply same_header_trans; [|apply OrderBook__update_header].
    eapply same_header_trans; [|apply L2__remove_if_exists_header]. repeat split.
  - eapply same_header_trans; [|apply OrderBook__update_header]. repeat split.
Qed.

Lemma self_delete_header order b : same_header b (exec (self_delete order) b).
Proof.
  unfold self_delete, exec. destruct (level b); simpl;
    (eapply same_header_trans; [|apply OrderBook__delete_header]); repeat split.
Qed.

Lemma for_each_header {A} (body : A -> M unit) xs :
  (forall x b, same_header b (exec (body x) b)) ->
  forall b, same_header b (exec (for_each body xs) b).
Proof.
  intros Hbody. induction xs as [|x xs IH]; intros b; simpl.
  - apply same_header_refl.
  - rewrite exec_bind. destruct (result (body x) b).
    + eapply same_header_trans; [apply Hbody | apply IH].
    + apply Hbody.
Qed.

(** ** Top of book *)

Lemma Ladder_top_None lad : Ladder_top lad = None <-> ladder_levels lad = [].
Proof.
  unfold Ladder_top, Ladder_depth. destruct (ladder_levels lad); simpl; split; congruence.
Qed.

Lemma create_empty_book lvl :
  OrderBook_create (Some audusd) (OrderBookLevel_value lvl) = Ok (Some (empty_book lvl)).
Proof. destruct lvl; reflexivity. Qed.

Lemma OrderBook_init_empty instrument lvl pp sp b :
  OrderBook_init instrument lvl pp sp = Ok b ->
  ladder_levels (bids b) = [] /\ ladder_levels (asks b) = [].
Proof.
  unfold OrderBook_init.
  destruct (as_c_int pp) as [pp'|]; [|discriminate].
  destruct (as_c_int sp) as [sp'|]; [|discriminate].
  destruct (Condition_not_negative_int pp' _); [|discriminate].
  destruct (Condition_not_negative_int sp' _); [|discriminate].
  intros [= <-]. split; reflexivity.
Qed.

Lemma returned_Some {A} (r : outcome A) a : returned r = Ok (Some a) -> r = Ok a.
Proof. destruct r; simpl; congruence. Qed.

Lemma L1OrderBook_init_empty instrument pp sp b :
  L1OrderBook_init instrument pp sp = Ok b ->
  ladder_levels (bids b) = [] /\ ladder_levels (asks b) = [].
Proof.
  unfold L1OrderBook_init.
  destruct (OrderBook_init _ _ _ _) as [b0|] eqn:E; [|discriminate].
  intros [= <-]. apply OrderBook_init_empty in E. exact E.
Qed.

Lemma OrderBook_create_empty instrument lvl b :
  OrderBook_create instrument lvl = Ok (Some b) ->
  ladder_levels (bids b) = [] /\ ladder_levels (asks b) = [].
Proof.
  unfold OrderBook_create.
  destruct (as_c_int lvl) as [lvl'|]; [|discriminate].
  destruct (Condition_not_none instrument _) as [i|]; [|discriminate].
  destruct (Condition_in_range_int lvl' 1 3 _); [|discriminate].
  repeat case_match; try discriminate; intros Hr; apply returned_Some in Hr.
  - apply (L1OrderBook_init_empty _ _ _ _ Hr).
  - apply (OrderBook_init_empty _ _ _ _ _ Hr).
  - apply (OrderBook_init_empty _ _ _ _ _ Hr).
Qed.

(** C7.  The best bid price and quantity are [None] exactly when the bid side
    has no level, the best ask price and quantity exactly when the ask side
    has none, spread and midpoint exactly when one of the sides has none;
    with both sides present the spread is the best ask minus the best bid and
    the midpoint is their average; a freshly created book answers [None] to
    all six. *)
Theorem tops_none_iff_side_empty (b : OrderBook) :
  (OrderBook_best_bid_price b = None <-> ladder_levels (bids b) = [])
  /\ (OrderBook_best_bid_qty b = None <-> ladder_levels (bids b) = [])
  /\ (OrderBook_best_ask_price b = None <-> ladder_levels (asks b) = [])
  /\ (OrderBook_best_ask_qty b = None <-> ladder_levels (asks b) = [])
  /\ (OrderBook_spread b = None
      <-> ladder_levels (bids b) = [] \/ ladder_levels (asks b) = [])
  /\ (OrderBook_midpoint b = None
      <-> ladder_levels (bids b) = [] \/ ladder_levels (asks b) = [])
  /\ OrderBook_spread b =
       match OrderBook_best_bid_price b, OrderBook_best_ask_price b with
       | Some bid, Some ask => Some (ask - bid)
       | _, _ => None
       end
  /\ OrderBook_midpoint b =
       match OrderBook_best_bid_price b, OrderBook_best_ask_price b with
       | Some bid, Some ask => Some ((inject_Z (ask + bid) / 2)%Q)
       | _, _ => None
       end
  /\ (forall instrument lvl,
         OrderBook_create instrument lvl = Ok (Some b) ->
         OrderBook_best_bid_price b = None /\ OrderBook_best_bid_qty b = None
         /\ OrderBook_best_ask_price b = None /\ OrderBook_best_ask_qty b = None
         /\ OrderBook_spread b = None /\ OrderBook_midpoint b = None).
Proof.
  unfold OrderBook_best_bid_price, OrderBook_best_bid_qty, OrderBook_best_ask_price,
    OrderBook_best_ask_qty, OrderBook_spread, OrderBook_midpoint.
  pose proof (Ladder_top_None (bids b)) as Hb.
  pose proof (Ladder_top_None (asks b)) as Ha.
  destruct (Ladder_top (bids b)) as [tb|], (Ladder_top (asks b)) as [ta|];
    repeat split; try congruence; try tauto;
    try (intros; exfalso; destruct Hb, Ha; intuition congruence);
    try (intros; match goal with
                 | Hc : OrderBook_create _ _ = Ok _ |- _ =>
                     apply OrderBook_create_empty in Hc; destruct Hc, Hb, Ha;
                     intuition congruence
                 end).
Qed.

(** The first seed scenario: a fresh L2 book has no best bid and no spread. *)
Lemma tops_none_iff_side_empty_witness :
  OrderBook_create (Some audusd) 2 = Ok (Some (empty_book L2))
  /\ OrderBook_best_bid_price (empty_book L2) = None
  /\ OrderBook_spread (empty_book L2) = None.
Proof.
  pose proof (tops_none_iff_side_empty (empty_book L2)) as (_&_&_&_&_&_&_&_&Hfresh).
  destruct (Hfresh (Some audusd) 2 (create_empty_book L2)) as (Hbid&_&_&_&Hspread&_).
  split; [reflexivity|]. split; assumption.
Defined.

(** ** [apply] and the level of the data *)

Lemma apply_of_delta_is_unchecked (d : OrderBookDelta) (b : OrderBook) :
  OrderBook_apply (DataDelta d) b = OrderBook__apply_delta d b.
Proof. reflexivity. Qed.

(** C1, at the failing input.  An L3 book is given a single delta that says
    it is for an L2 book: [apply] returns normally, the order rests on the bid
    side and the timestamp has moved, while [apply_delta] rejects the same
    delta and leaves the book as it was. *)
Theorem apply_accepts_mismatched_delta :
  let d := mkOrderBookDelta "AUD/USD.SIM" L2 ADD (mkOrder "1" BUY 10000 5) 7 in
  let b := empty_book L3 in
  delta_level d <> level b
  /\ result (OrderBook_apply (DataDelta d)) b = Ok tt
  /\ resolve (objects (exec (OrderBook_apply (DataDelta d)) b))
       (bids (exec (OrderBook_apply (DataDelta d)) b))
     = [(10000, [mkOrder "1" BUY 10000 5])]
  /\ last_update_timestamp_ns (exec (OrderBook_apply (DataDelta d)) b) = 7
  /\ exec (OrderBook_apply (DataDelta d)) b <> b
  /\ is_validation_error (result (OrderBook_apply_delta d) b)
  /\ exec (OrderBook_apply_delta d) b = b.
Proof.
  cbv zeta. repeat split; try reflexivity; try discriminate.
  eexists. reflexivity.
Qed.

(** ** The trade tick of the L1 book *)

(** The two statements under the crossing test are comparisons: a SELL trade
    tick does what [_update_bid] does and nothing more, a BUY trade tick what
    [_update_ask] does. *)
Lemma L1__update_trade_tick_is_one_sided price size b :
  L1OrderBook__update_trade_tick price size AggressorSide_SELL b
  = L1OrderBook__update_bid price size b
  /\ L1OrderBook__update_trade_tick price size AggressorSide_BUY b
     = L1OrderBook__update_ask price size b.
Proof.
  unfold L1OrderBook__update_trade_tick, expression_statement.
  split; case_match; reflexivity.
Qed.

(** With both tops cached in objects of their own, a SELL trade tick writes
    the bid objects only: the cached ask and its level keep their price, also
    when the new bid price lies above it. *)
Lemma trade_tick_never_moves_the_ask (b : OrderBook) (price size : Z) (rb lb ra la : ref) :
  _top_bid b = Some rb -> _top_bid_level b = Some lb ->
  _top_ask b = Some ra -> _top_ask_level b = Some la ->
  rb <> ra -> lb <> la ->
  (rb < length (store_orders (objects b)))%nat ->
  let b1 := L1OrderBook__update_trade_tick price size AggressorSide_SELL b in
  cached_price b1 (_top_bid b1) = price
  /\ cached_price b1 (_top_ask b1) = cached_price b (_top_ask b)
  /\ cached_level_price b1 (_top_ask_level b1) = cached_level_price b (_top_ask_level b).
Proof.
  intros Hb Hbl Ha Hal Hne Hnel Hrb. cbv zeta.
  destruct (L1__update_trade_tick_is_one_sided price size b) as [-> _].
  unfold L1OrderBook__update_bid. rewrite Hb, Hbl.
  cbn [_top_bid _top_ask _top_ask_level set_objects objects]. rewrite Hb, Ha, Hal.
  unfold cached_price, cached_level_price. cbn [objects set_objects].
  unfold Order_update_volume, Order_update_price, Level_set_price, put_order, put_level,
    get_order, get_level.
  cbn [store_orders store_levels].
  repeat split.
  - rewrite !list_lookup_insert_eq by (rewrite ?length_insert; exact Hrb). reflexivity.
  - rewrite !(list_lookup_insert_ne _ rb ra) by exact Hne. reflexivity.
  - rewrite (list_lookup_insert_ne _ lb la) by exact Hnel. reflexivity.
Qed.

(** C2, at the failing input.  Quote 100.00 / 101.00, then a trade tick with
    a SELL aggressor at 102.00: the cached top bid moves to 102.00, the cached
    top ask and its level stay at 101.00, and the book is left crossed.  The
    same with a BUY aggressor at 99.00: the ask moves to 99.00 and the bid
    stays at 100.00. *)
Theorem trade_tick_leaves_book_crossed :
  let b0 := exec (L1OrderBook_update_top (QuoteTick 10000 10100 1 1)) (empty_book L1) in
  let b1 := exec (L1OrderBook_update_top (TradeTick 10200 4 AggressorSide_SELL)) b0 in
  let b2 := exec (L1OrderBook_update_top (TradeTick 9900 4 AggressorSide_BUY)) b0 in
  is_Some (_top_bid b0) /\ is_Some (_top_ask b0)
  /\ cached_price b1 (_top_bid b1) = 10200
  /\ cached_price b1 (_top_ask b1) = 10100
  /\ cached_level_price b1 (_top_ask_level b1) = 10100
  /\ OrderBook_best_bid_price b1 = Some 10200
  /\ OrderBook_best_ask_price b1 = Some 10100
  /\ is_assertion_failure (OrderBook__check_integrity b1)
  /\ cached_price b2 (_top_ask b2) = 9900
  /\ cached_price b2 (_top_bid b2) = 10000
  /\ cached_level_price b2 (_top_bid_level b2) = 10000
  /\ is_assertion_failure (OrderBook__check_integrity b2).
Proof.
  cbv zeta. repeat split; try reflexivity; eexists; reflexivity.
Qed.


Lemma OrderBook__apply_delta_effect d b :
  level (exec (OrderBook__apply_delta d) b) = level b
  /\ last_update_timestamp_ns (exec (OrderBook__apply_delta d) b)
     = match result (OrderBook__apply_delta d) b with
       | Ok _ => delta_timestamp_ns d
       | Raise _ => last_update_timestamp_ns b
       end.
Proof.
  unfold OrderBook__apply_delta, exec, result, bind.
  set (c := match delta_type d with
            | ADD => self_add (delta_order d)
            | UPDATE => self_update (delta_order d)
            | DELETE => self_delete (delta_order d)
            end).
  assert (Hc : same_header b (exec c b)).
  { subst c. destruct (delta_type d);
      auto using self_add_header, self_update_header, self_delete_header. }
  unfold exec in Hc. destruct (c b) as [[[]|e] b']; simpl in *;
    destruct Hc as (Hl & Ht & _); auto.
Qed.

Lemma OrderBook__apply_delta_level d b :
  level (snd (OrderBook__apply_delta d b)) = level b.
Proof. apply (OrderBook__apply_delta_effect d b). Qed.

Lemma for_each_apply_delta_timestamp ds : forall b t0,
  t0 <= last_update_timestamp_ns b ->
  Forall (fun d => t0 <= delta_timestamp_ns d) ds ->
  t0 <= last_update_timestamp_ns (exec (for_each OrderBook__apply_delta ds) b).
Proof.
  induction ds as [|d ds IH]; intros b t0 Hb Hds; simpl.
  - exact Hb.
  - inversion Hds as [|? ? Hd Hrest]; subst.
    rewrite exec_bind.
    destruct (OrderBook__apply_delta_effect d b) as [_ Hts].
    destruct (result (OrderBook__apply_delta d) b).
    + apply IH; [rewrite Hts; exact Hd | exact Hrest].
    + rewrite Hts. exact Hb.
Qed.

Lemma OrderBook_apply_delta_cases d b :
  OrderBook_apply_delta d b =
  if bool_decide (delta_level d = level b)
  then OrderBook__apply_delta d b
  else (Raise (ValueError "delta.level was not equal to self.level"), b).
Proof.
  unfold OrderBook_apply_delta, bind, Condition_equal. case_bool_decide; reflexivity.
Qed.

Lemma OrderBook_apply_deltas_cases ds b :
  OrderBook_apply_deltas ds b =
  if bool_decide (deltas_level ds = level b)
  then for_each OrderBook__apply_delta (deltas_deltas ds) b
  else (Raise (ValueError "deltas.level was not equal to self.level"), b).
Proof.
  unfold OrderBook_apply_deltas, bind, Condition_equal. case_bool_decide; reflexivity.
Qed.

Lemma OrderBook_apply_snapshot_cases s b :
  OrderBook_apply_snapshot s b =
  if bool_decide (snapshot_level s = level b)
  then snapshot_body s (OrderBook_clear b)
  else (Raise (ValueError "snapshot.level was not equal to self.level"), b).
Proof.
  unfold OrderBook_apply_snapshot, bind, Condition_equal. case_bool_decide; reflexivity.
Qed.

Lemma snapshot_updates_header (sd : OrderSide) (xs : list (Z * Z)) b :
  same_header b
    (exec (for_each (fun x b' => self_update (Order_new (fst x) (snd x) sd b') b') xs) b).
Proof.
  apply for_each_header. intros x b0. apply (self_update_header _ b0).
Qed.

Lemma snapshot_body_timestamp s b :
  last_update_timestamp_ns (exec (snapshot_body s) b)
  = match result (snapshot_body s) b with
    | Ok _ => snapshot_timestamp_ns s
    | Raise _ => last_update_timestamp_ns b
    end.
Proof.
  unfold snapshot_body, exec, result, bind.
  pose proof (snapshot_updates_header BUY (snapshot_bids s) b) as (_ & H1 & _).
  unfold exec in H1.
  destruct (for_each _ (snapshot_bids s) b) as [[[]|e] b1]; simpl in *; [|exact H1].
  pose proof (snapshot_updates_header SELL (snapshot_asks s) b1) as (_ & H2 & _).
  unfold exec in H2.
  destruct (for_each _ (snapshot_asks s) b1) as [[[]|e] b2]; simpl in *; [reflexivity|].
  congruence.
Qed.

(** C3, as the code has it.  A mutation writes the timestamp of the data it
    applied into [last_update_timestamp_ns]; the value does not decrease when
    every timestamp carried by the applied data is at least the value the
    book had before the call. *)
Theorem timestamp_monotone_for_ordered_data (b : OrderBook) (m : Mutation) :
  Forall (fun t => last_update_timestamp_ns b <= t) (timestamps m) ->
  last_update_timestamp_ns b <= last_update_timestamp_ns (exec (mutate m) b).
Proof.
  destruct m as [d|ds|s]; simpl; intros Hts; unfold exec.
  - rewrite OrderBook_apply_delta_cases. case_bool_decide; simpl; [|lia].
    destruct (OrderBook__apply_delta_effect d b) as [_ Hd]. unfold exec in Hd.
    rewrite Hd. inversion Hts; subst. destruct (result _ _); lia.
  - rewrite OrderBook_apply_deltas_cases. case_bool_decide; simpl; [|lia].
    apply for_each_apply_delta_timestamp; [lia|].
    clear -Hts. induction (deltas_deltas ds) as [|d l IH]; simpl in *; [constructor|].
    inversion Hts; subst. constructor; auto.
  - rewrite OrderBook_apply_snapshot_cases. case_bool_decide; simpl; [|lia].
    pose proof (snapshot_body_timestamp s (OrderBook_clear b)) as Hs. unfold exec in Hs.
    rewrite Hs. inversion Hts; subst. destruct (result _ _); simpl; lia.
Qed.

Lemma timestamp_monotone_for_ordered_data_witness :
  last_update_timestamp_ns (empty_book L3)
  <= last_update_timestamp_ns (exec (mutate (Mut_apply_deltas batch_of_two)) (empty_book L3))
  /\ last_update_timestamp_ns (exec (mutate (Mut_apply_deltas batch_of_two)) (empty_book L3)) = 10.
Proof.
  split; [|reflexivity].
  apply (timestamp_monotone_for_ordered_data (empty_book L3) (Mut_apply_deltas batch_of_two)).
  simpl. repeat constructor; lia.
Defined.

(** C3 as stated fails: a delta stamped 10 followed by a delta stamped 5, both
    accepted, takes the timestamp from 10 back to 5. *)
Lemma timestamp_can_decrease :
  result (OrderBook_apply_delta delta_at_10) (empty_book L3) = Ok tt
  /\ result (OrderBook_apply_delta delta_at_5)
       (exec (OrderBook_apply_delta delta_at_10) (empty_book L3)) = Ok tt
  /\ last_update_timestamp_ns (exec (OrderBook_apply_delta delta_at_10) (empty_book L3)) = 10
  /\ last_update_timestamp_ns
       (exec (OrderBook_apply_delta delta_at_5)
          (exec (OrderBook_apply_delta delta_at_10) (empty_book L3))) = 5
  /\ ~ (last_update_timestamp_ns (exec (OrderBook_apply_delta delta_at_10) (empty_book L3))
        <= last_update_timestamp_ns
             (exec (OrderBook_apply_delta delta_at_5)
                (exec (OrderBook_apply_delta delta_at_10) (empty_book L3)))).
Proof.
  repeat split; try reflexivity. vm_compute. intros H. apply H. reflexivity.
Qed.

(** ** Batches of deltas *)

Lemma for_each_is_calls ds : forall b,
  Forall (fun d => delta_level d = level b) ds ->
  for_each OrderBook__apply_delta ds b = calls OrderBook_apply_delta ds b.
Proof.
  induction ds as [|d ds IH]; intros b Hds; simpl; [reflexivity|].
  inversion Hds as [|? ? Hd Hrest]; subst.
  unfold bind. rewrite OrderBook_apply_delta_cases.
  rewrite bool_decide_eq_true_2 by exact Hd.
  pose proof (OrderBook__apply_delta_level d b) as Hl.
  destruct (OrderBook__apply_delta d b) as [[[]|e] b']; simpl in *; [|reflexivity].
  apply IH. rewrite Hl. exact Hrest.
Qed.

(** C6, as the code has it.  When the batch itself and each of its deltas
    carry the level of the book, [apply_deltas] returns the same outcome and
    leaves the same book as the calls [apply_delta d1; ...; apply_delta dn]. *)
Theorem apply_deltas_is_sequential_apply_delta (b : OrderBook) (ds : OrderBookDeltas) :
  deltas_level ds = level b ->
  Forall (fun d => delta_level d = level b) (deltas_deltas ds) ->
  OrderBook_apply_deltas ds b = calls OrderBook_apply_delta (deltas_deltas ds) b.
Proof.
  intros Hlevel Hds. rewrite OrderBook_apply_deltas_cases.
  rewrite bool_decide_eq_true_2 by exact Hlevel.
  apply for_each_is_calls. exact Hds.
Qed.

Lemma apply_deltas_is_sequential_apply_delta_witness :
  OrderBook_apply_deltas batch_of_two (empty_book L3)
  = calls OrderBook_apply_delta [delta_at_5; delta_at_10] (empty_book L3)
  /\ resolve (objects (exec (OrderBook_apply_deltas batch_of_two) (empty_book L3)))
       (bids (exec (OrderBook_apply_deltas batch_of_two) (empty_book L3)))
     = [(10000, [mkOrder "1" BUY 10000 5])].
Proof.
  split; [|reflexivity].
  apply (apply_deltas_is_sequential_apply_delta (empty_book L3) batch_of_two).
  - reflexivity.
  - simpl. repeat constructor.
Defined.

(** C6 as stated fails: every delta of the batch carries the level of the
    book, the batch carries another one; [apply_deltas] raises and applies
    nothing, the sequential calls rest the order and move the timestamp. *)
Lemma apply_deltas_checks_the_batch_level :
  Forall (fun d => delta_level d = level (empty_book L3)) (deltas_deltas batch_of_other_level)
  /\ is_validation_error (result (OrderBook_apply_deltas batch_of_other_level) (empty_book L3))
  /\ exec (OrderBook_apply_deltas batch_of_other_level) (empty_book L3) = empty_book L3
  /\ result (calls OrderBook_apply_delta (deltas_deltas batch_of_other_level)) (empty_book L3)
     = Ok tt
  /\ last_update_timestamp_ns
       (exec (calls OrderBook_apply_delta (deltas_deltas batch_of_other_level)) (empty_book L3))
     = 10
  /\ exec (OrderBook_apply_deltas batch_of_other_level) (empty_book L3)
     <> exec (calls OrderBook_apply_delta (deltas_deltas batch_of_other_level)) (empty_book L3).
Proof.
  repeat split; try reflexivity.
  - simpl. repeat constructor.
  - eexists. reflexivity.
  - vm_compute. discriminate.
Qed.

(** * Supporting lemmas on stores, levels and ladders *)

(** ** Stores that grow *)

Lemma insert_at_length {A} (l : list A) (x y : A) :
  <[length l := y]> (l ++ [x]) = l ++ [y].
Proof. induction l as [|a l IH]; simpl; [reflexivity|]. f_equal. exact IH. Qed.

Lemma get_order_old O xo L r :
  (r < length O)%nat -> get_order (mkStore (O ++ xo) L) r = get_order (mkStore O L) r.
Proof. intros Hr. unfold get_order. simpl. rewrite lookup_app_l by exact Hr. reflexivity. Qed.

Lemma find_none_iff {A} (P : A -> bool) (l : list A) :
  List.find P l = None <-> forall x, In x l -> P x = false.
Proof.
  induction l as [|a l IH]; simpl.
  - split; [intros _ x []|reflexivity].
  - destruct (P a) eqn:E.
    + split; [discriminate|]. intros H. rewrite (H a) in E by auto. discriminate.
    + rewrite IH. split.
      * intros H x [<-|Hx]; auto.
      * intros H x Hx. apply H. auto.
Qed.

(** ** Sorted insertion *)

Lemma insert_level_split st rev p x ls :
  exists l1 l2, ls = l1 ++ l2 /\ insert_level st rev p x ls = l1 ++ x :: l2.
Proof.
  induction ls as [|r ls IH]; simpl.
  - exists [], []. split; reflexivity.
  - destruct (if rev then _ else _).
    + exists [], (r :: ls). split; reflexivity.
    + destruct IH as (l1 & l2 & -> & ->). exists (r :: l1), l2. split; reflexivity.
Qed.

Lemma remove_ref_inserted x l1 l2 :
  ~ In x (l1 ++ l2) -> remove_ref x (l1 ++ x :: l2) = l1 ++ l2.
Proof.
  induction l1 as [|r l1 IH]; simpl; intros H.
  - rewrite Nat.eqb_refl. reflexivity.
  - destruct (Nat.eqb_spec r x) as [->|Hne]; [exfalso; auto|].
    f_equal. apply IH. auto.
Qed.

Lemma find_inserted {A} (P : A -> bool) x l1 l2 :
  P x = true -> (forall y, In y (l1 ++ l2) -> P y = false) ->
  List.find P (l1 ++ x :: l2) = Some x.
Proof.
  intros Hx. induction l1 as [|r l1 IH]; simpl; intros H.
  - rewrite Hx. reflexivity.
  - rewrite (H r) by auto. apply IH. auto.
Qed.

Lemma extends_get_order st st' r :
  extends st st' -> (r < length (store_orders st))%nat -> get_order st' r = get_order st r.
Proof.
  intros (xo & xl & Ho & Hl) Hr. unfold get_order. rewrite Ho.
  rewrite lookup_app_l by exact Hr. reflexivity.
Qed.

Lemma extends_get_level st st' r :
  extends st st' -> (r < length (store_levels st))%nat -> get_level st' r = get_level st r.
Proof.
  intros (xo & xl & Ho & Hl) Hr. unfold get_level. rewrite Hl.
  rewrite lookup_app_l by exact Hr. reflexivity.
Qed.

Lemma ladder_wf_spec st lad rl :
  ladder_wf st lad = true -> In rl (ladder_levels lad) ->
  (rl < length (store_levels st))%nat
  /\ forall ro, In ro (level_orders (get_level st rl)) -> (ro < length (store_orders st))%nat.
Proof.
  unfold ladder_wf. rewrite forallb_forall. intros H Hin.
  specialize (H rl Hin). apply andb_true_iff in H as [H1 H2].
  apply Nat.ltb_lt in H1. split; [exact H1|].
  rewrite forallb_forall in H2. intros ro Hro. apply Nat.ltb_lt. auto.
Qed.

Lemma existsb_congr {A} (P Q : A -> bool) l :
  (forall x, In x l -> P x = Q x) -> existsb P l = existsb Q l.
Proof.
  induction l as [|a l IH]; simpl; intros H; [reflexivity|].
  rewrite (H a) by auto. rewrite IH by auto. reflexivity.
Qed.

Lemma extends_Level_has_id st st' lad i rl :
  extends st st' -> ladder_wf st lad = true -> In rl (ladder_levels lad) ->
  Level_has_id st' i rl = Level_has_id st i rl.
Proof.
  intros He Hwf Hin. destruct (ladder_wf_spec _ _ _ Hwf Hin) as [Hrl Hro].
  unfold Level_has_id. rewrite (extends_get_level _ _ _ He Hrl).
  apply existsb_congr. intros ro Hin'. unfold has_id.
  rewrite (extends_get_order _ _ _ He (Hro _ Hin')). reflexivity.
Qed.

Lemma extends_at_price st st' lad p rl :
  extends st st' -> ladder_wf st lad = true -> In rl (ladder_levels lad) ->
  at_price st' p rl = at_price st p rl.
Proof.
  intros He Hwf Hin. destruct (ladder_wf_spec _ _ _ Hwf Hin) as [Hrl _].
  unfold at_price. rewrite (extends_get_level _ _ _ He Hrl). reflexivity.
Qed.

Lemma Ladder_holds_id_false st i lad :
  Ladder_holds_id st i lad = false ->
  forall rl, In rl (ladder_levels lad) -> Level_has_id st i rl = false.
Proof.
  unfold Ladder_holds_id. intros H rl Hin.
  destruct (Level_has_id st i rl) eqn:E; [|reflexivity].
  assert (existsb (Level_has_id st i) (ladder_levels lad) = true).
  { apply existsb_exists. eauto. }
  congruence.
Qed.

Lemma price_in_false st p lad :
  price_in p (Ladder_prices st lad) = false ->
  forall rl, In rl (ladder_levels lad) -> at_price st p rl = false.
Proof.
  unfold price_in, Ladder_prices, at_price. intros H rl Hin.
  destruct (level_price (get_level st rl) =? p) eqn:E; [|reflexivity].
  apply Z.eqb_eq in E.
  assert (existsb (Z.eqb p) (map (fun r => level_price (get_level st r)) (ladder_levels lad)) = true).
  { apply existsb_exists. exists p. split; [|apply Z.eqb_refl].
    rewrite <- E. apply (in_map (fun r => level_price (get_level st r))). exact Hin. }
  congruence.
Qed.

Lemma Order_set_id_new O L o i :
  Order_set_id (length O) i (mkStore (O ++ [o]) L)
  = mkStore (O ++ [mkOrder i (order_side o) (order_price o) (order_volume o)]) L.
Proof.
  unfold Order_set_id, put_order, get_order. simpl.
  rewrite lookup_app_r by lia. rewrite Nat.sub_diag. simpl.
  rewrite insert_at_length. reflexivity.
Qed.

Lemma get_order_last O L o : get_order (mkStore (O ++ [o]) L) (length O) = o.
Proof.
  unfold get_order. simpl. rewrite lookup_app_r by lia. rewrite Nat.sub_diag. reflexivity.
Qed.

Lemma get_level_last O L l : get_level (mkStore O (L ++ [l])) (length L) = l.
Proof.
  unfold get_level. simpl. rewrite lookup_app_r by lia. rewrite Nat.sub_diag. reflexivity.
Qed.

Ltac proj :=
  cbn [objects bids asks level price_precision size_precision last_update_timestamp_ns
       _top_bid _top_ask _top_bid_level _top_ask_level instrument_id
       store_orders store_levels ladder_levels ladder_reverse ladder_price_precision
       ladder_size_precision set_objects set_bids set_asks fst snd
       order_id order_side order_price order_volume level_price level_orders
       Ladder_with_levels] in *.

Lemma L2OrderBook_add_exec order b O L :
  objects b = mkStore O L ->
  order_side order = BUY ->
  exec (L2OrderBook_add order) b
  = on_bids (Ladder_add (length O))
      (set_objects
         (mkStore (O ++ [mkOrder (format_fixed (price_precision b) (order_price order))
                           BUY (order_price order) (order_volume order)]) L) b).
Proof.
  intros Hst Hside.
  unfold exec, L2OrderBook_add, new_object, alloc_order. rewrite Hst. proj.
  unfold L2OrderBook__process_order. proj.
  rewrite get_order_last, Order_set_id_new, Hside.
  unfold OrderBook__add. proj. rewrite get_order_last. proj. reflexivity.
Qed.

Lemma Ladder_delete_orders o lad st :
  store_orders (snd (Ladder_delete o lad st)) = store_orders st.
Proof. unfold Ladder_delete. repeat case_match; reflexivity. Qed.

Lemma get_order_same_orders st st' r :
  store_orders st' = store_orders st -> get_order st' r = get_order st r.
Proof. unfold get_order. intros ->. reflexivity. Qed.

Lemma on_bids_orders f b :
  (forall lad st, store_orders (snd (f lad st)) = store_orders st) ->
  store_orders (objects (on_bids f b)) = store_orders (objects b).
Proof.
  intros Hf. unfold on_bids. specialize (Hf (bids b) (objects b)).
  destruct (f _ _). exact Hf.
Qed.

Lemma on_asks_orders f b :
  (forall lad st, store_orders (snd (f lad st)) = store_orders st) ->
  store_orders (objects (on_asks f b)) = store_orders (objects b).
Proof.
  intros Hf. unfold on_asks. specialize (Hf (asks b) (objects b)).
  destruct (f _ _). exact Hf.
Qed.

Lemma OrderBook__delete_orders o b :
  store_orders (objects (OrderBook__delete o b)) = store_orders (objects b).
Proof.
  unfold OrderBook__delete.
  destruct (order_side _);
    [apply on_bids_orders | apply on_asks_orders]; intros; apply Ladder_delete_orders.
Qed.

Lemma L2__remove_if_exists_orders o b :
  store_orders (objects (L2OrderBook__remove_if_exists o b)) = store_orders (objects b).
Proof.
  unfold L2OrderBook__remove_if_exists.
  repeat case_match; auto using OrderBook__delete_orders.
Qed.

Lemma L2OrderBook_update_exec order b O L :
  objects b = mkStore O L ->
  order_side order = BUY ->
  exec (L2OrderBook_update order) b
  = on_bids (Ladder_update (length O))
      (L2OrderBook__remove_if_exists (length O)
         (set_objects
            (mkStore (O ++ [mkOrder (format_fixed (price_precision b) (order_price order))
                              BUY (order_price order) (order_volume order)]) L) b)).
Proof.
  intros Hst Hside.
  unfold exec, L2OrderBook_update, new_object, alloc_order. rewrite Hst. proj.
  unfold L2OrderBook__process_order. proj.
  rewrite get_order_last, Order_set_id_new, Hside.
  set (b1 := L2OrderBook__remove_if_exists _ _).
  assert (Hs : order_side (get_order (objects b1) (length O)) = BUY).
  { subst b1. erewrite get_order_same_orders by apply L2__remove_if_exists_orders.
    proj. rewrite get_order_last. reflexivity. }
  unfold OrderBook__update. rewrite Hs. reflexivity.
Qed.

Lemma filter_nothing {A} (Q : A -> bool) l :
  (forall y, In y l -> Q y = false) -> List.filter Q l = [].
Proof.
  induction l as [|a l IH]; simpl; intros H; [reflexivity|].
  rewrite (H a) by auto. apply IH. auto.
Qed.

Lemma wf_not_fresh st lad :
  ladder_wf st lad = true -> ~ In (length (store_levels st)) (ladder_levels lad).
Proof.
  intros Hwf Hin. destruct (ladder_wf_spec _ _ _ Hwf Hin) as [Hlt _]. lia.
Qed.

Section L2_replace.

Variables (O : list Order) (L : list Level) (lad : Ladder).
Variables (f : string) (p v1 v2 : Z).

Let st0 := mkStore O L.
Let o1 := mkOrder f BUY p v1.
Let o2 := mkOrder f BUY p v2.
Let r1 := length O.
Let r2 := length (O ++ [o1]).
Let l1 := length L.
Let l2 := length (L ++ [mkLevel p []]).

Hypothesis Hwf : ladder_wf st0 lad = true.
Hypothesis Hprice : price_in p (Ladder_prices st0 lad) = false.
Hypothesis Hid : Ladder_holds_id st0 f lad = false.

Lemma old_levels_not_at_price st :
  extends st0 st -> forall rl, In rl (ladder_levels lad) -> at_price st p rl = false.
Proof.
  intros He rl Hin. rewrite (extends_at_price _ _ _ _ _ He Hwf Hin).
  apply (price_in_false _ _ _ Hprice). exact Hin.
Qed.

Lemma old_levels_without_id st :
  extends st0 st -> forall rl, In rl (ladder_levels lad) -> Level_has_id st f rl = false.
Proof.
  intros He rl Hin. rewrite (extends_Level_has_id _ _ _ _ _ He Hwf Hin).
  apply (Ladder_holds_id_false _ _ _ Hid). exact Hin.
Qed.

(** The add creates the level. *)
Lemma replace_step_add :
  Ladder_add r1 lad (mkStore (O ++ [o1]) L)
  = (Ladder_with_levels lad
       (insert_level (mkStore (O ++ [o1]) L) (ladder_reverse lad) p l1 (ladder_levels lad)),
     mkStore (O ++ [o1]) (L ++ [mkLevel p [r1]])).
Proof.
  unfold Ladder_add. unfold r1. rewrite get_order_last.
  cbn [order_price o1].
  assert (Hf : List.find (at_price (mkStore (O ++ [o1]) L) p) (ladder_levels lad) = None).
  { apply find_none_iff. apply old_levels_not_at_price.
    exists [o1], []. rewrite app_nil_r. split; reflexivity. }
  rewrite Hf. reflexivity.
Qed.

(** The update first deletes the level again... *)
Lemma replace_step_delete ls' :
  ls' = insert_level (mkStore (O ++ [o1]) L) (ladder_reverse lad) p l1 (ladder_levels lad) ->
  Ladder_delete r2 (Ladder_with_levels lad ls')
    (mkStore ((O ++ [o1]) ++ [o2]) (L ++ [mkLevel p [r1]]))
  = (Ladder_with_levels lad (ladder_levels lad),
     mkStore ((O ++ [o1]) ++ [o2]) (L ++ [mkLevel p []])).
Proof.
  intros ->.
  destruct (insert_level_split (mkStore (O ++ [o1]) L) (ladder_reverse lad) p l1
              (ladder_levels lad)) as (la & lb & Hls & ->).
  unfold Ladder_delete. unfold r2. rewrite get_order_last.
  cbn [order_id o2 ladder_levels Ladder_with_levels].
  set (st := mkStore ((O ++ [o1]) ++ [o2]) (L ++ [mkLevel p [r1]])).
  assert (Hget1 : get_order st r1 = o1).
  { unfold st, r1. rewrite get_order_old by (rewrite length_app; simpl; lia).
    apply get_order_last. }
  assert (Hlv : get_level st l1 = mkLevel p [r1]).
  { unfold st, l1. apply get_level_last. }
  assert (Hnew : Level_has_id st f l1 = true).
  { unfold Level_has_id. rewrite Hlv.
    cbn [level_orders existsb]. unfold has_id. rewrite Hget1. cbn [order_id o1].
    rewrite String.eqb_refl. reflexivity. }
  assert (Hold : forall y, In y (la ++ lb) -> Level_has_id st f y = false).
  { rewrite <- Hls. apply old_levels_without_id. unfold st.
    exists ([o1] ++ [o2]), [mkLevel p [r1]]. cbn [store_orders store_levels st0].
    rewrite <- app_assoc. split; reflexivity. }
  rewrite (find_inserted _ _ _ _ Hnew Hold).
  rewrite Hlv.
  assert (Hrem : Level_delete st (length (O ++ [o1])) (mkLevel p [r1]) = mkLevel p []).
  { assert (Hget2 : get_order st (length (O ++ [o1])) = o2).
    { unfold st. apply get_order_last. }
    unfold Level_delete. rewrite Hget2. cbn [level_price level_orders remove_id order_id o2].
    unfold has_id. rewrite Hget1. cbn [order_id o1].
    rewrite String.eqb_refl. reflexivity. }
  rewrite Hrem. cbn [level_orders].
  rewrite remove_ref_inserted.
  - rewrite <- Hls. unfold put_level. unfold st, l1. cbn [store_orders store_levels].
    rewrite insert_at_length. reflexivity.
  - rewrite <- Hls. unfold l1. apply (wf_not_fresh st0 lad Hwf).
Qed.

(** ... and then inserts the order as a new level. *)
Lemma replace_step_update :
  Ladder_update r2 (Ladder_with_levels lad (ladder_levels lad))
    (mkStore ((O ++ [o1]) ++ [o2]) (L ++ [mkLevel p []]))
  = (Ladder_with_levels lad
       (insert_level (mkStore ((O ++ [o1]) ++ [o2]) (L ++ [mkLevel p []]))
          (ladder_reverse lad) p l2 (ladder_levels lad)),
     mkStore ((O ++ [o1]) ++ [o2]) ((L ++ [mkLevel p []]) ++ [mkLevel p [r2]])).
Proof.
  set (st := mkStore ((O ++ [o1]) ++ [o2]) (L ++ [mkLevel p []])).
  assert (He : extends st0 st).
  { exists ([o1] ++ [o2]), [mkLevel p []]. unfold st. cbn [store_orders store_levels st0].
    rewrite <- app_assoc. split; reflexivity. }
  unfold Ladder_update. unfold r2. 
  assert (Ho : get_order st (length (O ++ [o1])) = o2) by (unfold st; apply get_order_last).
  rewrite Ho. cbn [order_id o2 ladder_levels Ladder_with_levels].
  assert (Hf : List.find (Level_has_id st f) (ladder_levels lad) = None).
  { apply find_none_iff. apply old_levels_without_id. exact He. }
  rewrite Hf.
  unfold Ladder_add. rewrite Ho. cbn [order_price o2 ladder_levels Ladder_with_levels].
  assert (Hf' : List.find (at_price st p) (ladder_levels lad) = None).
  { apply find_none_iff. apply old_levels_not_at_price. exact He. }
  rewrite Hf'. reflexivity.
Qed.

(** Afterwards one level sits at the price, with the one order of the update. *)
Lemma replace_result :
  levels_at p
    (mkStore ((O ++ [o1]) ++ [o2]) ((L ++ [mkLevel p []]) ++ [mkLevel p [r2]]))
    (Ladder_with_levels lad
       (insert_level (mkStore ((O ++ [o1]) ++ [o2]) (L ++ [mkLevel p []]))
          (ladder_reverse lad) p l2 (ladder_levels lad)))
  = [(p, [o2])].
Proof.
  set (st := mkStore ((O ++ [o1]) ++ [o2]) ((L ++ [mkLevel p []]) ++ [mkLevel p [r2]])).
  assert (He : extends st0 st).
  { exists ([o1] ++ [o2]), ([mkLevel p []] ++ [mkLevel p [r2]]). unfold st.
    cbn [store_orders store_levels st0]. rewrite <- !app_assoc. split; reflexivity. }
  destruct (insert_level_split (mkStore ((O ++ [o1]) ++ [o2]) (L ++ [mkLevel p []]))
              (ladder_reverse lad) p l2 (ladder_levels lad)) as (la & lb & Hls & ->).
  unfold levels_at, resolve. cbn [ladder_levels Ladder_with_levels].
  assert (Hold : forall y, In y (la ++ lb) -> (level_price (get_level st y) =? p) = false).
  { rewrite <- Hls. intros y Hy. apply (old_levels_not_at_price st He y Hy). }
  rewrite map_app, List.filter_app. cbn [map List.filter fst].
  assert (Hlv : get_level st l2 = mkLevel p [r2]) by (unfold st, l2; apply get_level_last).
  rewrite Hlv. cbn [level_price level_orders map]. rewrite Z.eqb_refl.
  assert (Ho : get_order st r2 = o2).
  { unfold st, r2. apply get_order_last. }
  rewrite Ho.
  rewrite !filter_nothing.
  - reflexivity.
  - intros y Hy. apply in_map_iff in Hy as (x & <- & Hx). cbn [fst].
    apply Hold. apply in_or_app. right. exact Hx.
  - intros y Hy. apply in_map_iff in Hy as (x & <- & Hx). cbn [fst].
    apply Hold. apply in_or_app. left. exact Hx.
Qed.

End L2_replace.

(** ** L2: add, then update at the same price *)

Lemma price_in_inserted st st' lad rev p x :
  level_price (get_level st x) = p ->
  price_in p (Ladder_prices st
                (Ladder_with_levels lad (insert_level st' rev p x (ladder_levels lad)))) = true.
Proof.
  intros Hx. unfold price_in, Ladder_prices. cbn [ladder_levels Ladder_with_levels].
  destruct (insert_level_split st' rev p x (ladder_levels lad)) as (la & lb & _ & ->).
  apply existsb_exists. exists p. split; [|apply Z.eqb_refl].
  rewrite map_app. apply in_or_app. right. left. exact Hx.
Qed.

(** X24.  Where the update does replace the level.  On an L2 book whose bid
    side has no level at [p] and no order that already carries the formatted
    price of [p] as its id, [add] of a BUY order at [p] with volume [v1]
    followed by [update] with a BUY order at [p] with volume [v2] leaves
    exactly one bid level at [p], holding exactly one order: volume [v2], id
    the price formatted to the price precision of the book. *)
Theorem L2_add_then_update_replaces_level (b : OrderBook) (p v1 v2 : Z) (id1 id2 : string) :
  ladder_wf (objects b) (bids b) = true ->
  price_in p (Ladder_prices (objects b) (bids b)) = false ->
  Ladder_holds_id (objects b) (format_fixed (price_precision b) p) (bids b) = false ->
  levels_at p
    (objects (exec (L2OrderBook_update (mkOrder id2 BUY p v2))
                (exec (L2OrderBook_add (mkOrder id1 BUY p v1)) b)))
    (bids (exec (L2OrderBook_update (mkOrder id2 BUY p v2))
             (exec (L2OrderBook_add (mkOrder id1 BUY p v1)) b)))
  = [(p, [mkOrder (format_fixed (price_precision b) p) BUY p v2])].
Proof.
  intros Hwf Hp Hid.
  destruct (objects b) as [O L] eqn:Hst.
  set (f := format_fixed (price_precision b) p) in *.
  rewrite (L2OrderBook_add_exec (mkOrder id1 BUY p v1) b O L Hst eq_refl).
  cbn [order_price order_volume]. fold f.
  unfold on_bids. proj.
  rewrite (replace_step_add O L (bids b) f p v1 Hwf Hp).
  set (b1 := set_objects _ _).
  assert (Hst1 : objects b1 =
            mkStore (O ++ [mkOrder f BUY p v1])
              (L ++ [mkLevel p [length O]])) by reflexivity.
  rewrite (L2OrderBook_update_exec (mkOrder id2 BUY p v2) b1 _ _ Hst1 eq_refl).
  cbn [order_price order_volume].
  change (price_precision b1) with (price_precision b). fold f.
  set (b2 := L2OrderBook__remove_if_exists _ _).
  assert (Hb2 : b2 =
            set_objects
              (mkStore ((O ++ [mkOrder f BUY p v1]) ++ [mkOrder f BUY p v2])
                 (L ++ [mkLevel p []]))
              (set_bids (Ladder_with_levels (bids b) (ladder_levels (bids b))) b1)).
  { unfold b2, L2OrderBook__remove_if_exists. proj.
    rewrite get_order_last. proj.
    rewrite bool_decide_eq_true_2 by reflexivity.
    unfold b1 at 1 2. proj.
    rewrite price_in_inserted by (rewrite get_level_last; reflexivity).
    cbn [andb].
    unfold OrderBook__delete. proj. rewrite get_order_last. proj.
    unfold on_bids. proj. unfold b1 at 1. proj.
    rewrite (replace_step_delete O L (bids b) f p v1 v2 Hwf Hid _ eq_refl).
    reflexivity. }
  rewrite Hb2. unfold on_bids. proj.
  rewrite (replace_step_update O L (bids b) f p v1 v2 Hwf Hp Hid). proj.
  apply (replace_result O L (bids b) f p v1 v2 Hwf Hp).
Qed.

Lemma L2_add_then_update_replaces_level_witness :
  levels_at 10000
    (objects (exec (L2OrderBook_update (mkOrder "9" BUY 10000 7))
                (exec (L2OrderBook_add (mkOrder "8" BUY 10000 5)) book_after_adds)))
    (bids (exec (L2OrderBook_update (mkOrder "9" BUY 10000 7))
             (exec (L2OrderBook_add (mkOrder "8" BUY 10000 5)) book_after_adds)))
  = [(10000, [mkOrder "100.00" BUY 10000 7])].
Proof.
  exact (L2_add_then_update_replaces_level book_after_adds 10000 5 7 "8" "9"
           eq_refl eq_refl eq_refl).
Defined.

(** C4, at the failing input.  Two [add]s at 100.00 on a fresh L2 book rest
    two orders on one level.  On that book, [add] of a BUY order at 100.00
    with volume 5 followed by [update] with a BUY order at 100.00 with volume
    7 leaves the level at 100.00 with two orders, of volumes 7 and 5.
    [_remove_if_exists], whose comment says that the level is removed so that
    the new level can be inserted, took one order out of the level and left
    the level on the side: behind it the price is still among the bid prices
    and the level holds the orders of volumes 2 and 5, of which [_update]
    replaced the first.  The tops are not crossed, and the L2 integrity check
    fails on the result. *)
Theorem L2_update_leaves_stacked_level :
  let b0 := book_with_stacked_level in
  let b1 := exec (L2OrderBook_add (mkOrder "3" BUY 10000 5)) b0 in
  let o := fst (new_object (mkOrder "4" BUY 10000 7) b1) in
  let removed :=
    L2OrderBook__remove_if_exists o
      (L2OrderBook__process_order o (snd (new_object (mkOrder "4" BUY 10000 7) b1))) in
  let b2 := exec (L2OrderBook_update (mkOrder "4" BUY 10000 7)) b1 in
  OrderBook_create (Some audusd) 2 = Ok (Some (empty_book L2))
  /\ result (L2OrderBook_add (mkOrder "1" BUY 10000 1)) (empty_book L2) = Ok tt
  /\ result (L2OrderBook_add (mkOrder "2" BUY 10000 2))
       (exec (L2OrderBook_add (mkOrder "1" BUY 10000 1)) (empty_book L2)) = Ok tt
  /\ resolve (objects b0) (bids b0)
     = [(10000, [mkOrder "100.00" BUY 10000 1; mkOrder "100.00" BUY 10000 2])]
  /\ result (L2OrderBook_add (mkOrder "3" BUY 10000 5)) b0 = Ok tt
  /\ result (L2OrderBook_update (mkOrder "4" BUY 10000 7)) b1 = Ok tt
  /\ price_in 10000 (Ladder_prices (objects removed) (bids removed)) = true
  /\ resolve (objects removed) (bids removed)
     = [(10000, [mkOrder "100.00" BUY 10000 2; mkOrder "100.00" BUY 10000 5])]
  /\ b2 = OrderBook__update o removed
  /\ levels_at 10000 (objects b2) (bids b2)
     = [(10000, [mkOrder "100.00" BUY 10000 7; mkOrder "100.00" BUY 10000 5])]
  /\ levels_at 10000 (objects b2) (bids b2) <> [(10000, [mkOrder "100.00" BUY 10000 7])]
  /\ OrderBook__check_integrity b2 = Ok tt
  /\ is_assertion_failure (L2OrderBook_check_integrity b2).
Proof.
  cbv zeta. repeat split; try reflexivity.
  - vm_compute. discriminate.
  - eexists. reflexivity.
Qed.
(** ** L1: the update of one side *)

Lemma L1OrderBook_update_exec order b O L :
  objects b = mkStore O L ->
  exec (L1OrderBook_update order) b
  = OrderBook__update (length O)
      (set_objects
         (mkStore (O ++ [mkOrder (OrderSideParser_to_str (order_side order))
                           (order_side order) (order_price order) (order_volume order)]) L)
         (L1_update_guard order b)).
Proof.
  intros Hst. unfold exec, L1OrderBook_update. fold (L1_update_guard order b).
  assert (Hg : objects (L1_update_guard order b) = mkStore O L).
  { unfold L1_update_guard. repeat case_match; exact Hst. }
  unfold new_object, alloc_order. rewrite Hg. proj.
  unfold L1OrderBook__process_order. proj.
  rewrite get_order_last, Order_set_id_new. reflexivity.
Qed.

Lemma l1_side_ok_cases st sd lad :
  l1_side_ok st sd lad = true ->
  ladder_levels lad = []
  \/ exists rl lv ro o,
       ladder_levels lad = [rl]
       /\ store_levels st !! rl = Some lv
       /\ level_orders lv = [ro]
       /\ store_orders st !! ro = Some o
       /\ order_id o = OrderSideParser_to_str sd.
Proof.
  unfold l1_side_ok. intros H.
  destruct (ladder_levels lad) as [|rl [|? ?]]; [left; reflexivity| |discriminate].
  right. destruct (store_levels st !! rl) as [lv|] eqn:Hlv; [|discriminate].
  destruct (level_orders lv) as [|ro [|? ?]] eqn:Hos; try discriminate.
  destruct (store_orders st !! ro) as [o|] eqn:Ho; [|discriminate].
  apply String.eqb_eq in H. exists rl, lv, ro, o. repeat split; assumption.
Qed.

(** [Ladder.update] on a side of an L1 book: afterwards the side holds one
    level, at the price of the order, with the order as its only entry; no
    level changes its price, and levels outside the ladder are untouched. *)
Lemma Ladder_update_l1 O L lad o sd :
  l1_side_ok (mkStore O L) sd lad = true ->
  order_id o = OrderSideParser_to_str sd ->
  exists L' rl',
    Ladder_update (length O) lad (mkStore (O ++ [o]) L)
    = (Ladder_with_levels lad [rl'], mkStore (O ++ [o]) L')
    /\ L' !! rl' = Some (mkLevel (order_price o) [length O])
    /\ (length L <= length L')%nat
    /\ (forall x lv, L !! x = Some lv ->
          exists lv', L' !! x = Some lv' /\ level_price lv' = level_price lv)
    /\ (forall x, ~ In x (ladder_levels lad) -> (x < length L)%nat -> L' !! x = L !! x).
Proof.
  intros Hok Hid.
  set (st := mkStore (O ++ [o]) L).
  assert (Ho : get_order st (length O) = o) by apply get_order_last.
  destruct (l1_side_ok_cases _ _ _ Hok) as [Hnil|(rl & lv & ro & ob & Hls & Hlv & Hos & Hob & Hidb)].
  - (* the side is empty: the order becomes its level *)
    exists (L ++ [mkLevel (order_price o) [length O]]), (length L).
    unfold Ladder_update, Ladder_add. rewrite Ho, Hnil. cbn [List.find insert_level].
    unfold alloc_level. cbn [store_levels store_orders st].
    repeat split.
    + rewrite lookup_app_r by lia. rewrite Nat.sub_diag. reflexivity.
    + rewrite length_app. lia.
    + intros x lv Hx. exists lv. split; [|reflexivity].
      rewrite lookup_app_l by (apply lookup_lt_Some in Hx; exact Hx). exact Hx.
    + intros x _ Hx. rewrite lookup_app_l by exact Hx. reflexivity.
  - cbn [store_levels store_orders] in Hlv, Hob.
    assert (Hrl : (rl < length L)%nat) by (apply lookup_lt_Some in Hlv; exact Hlv).
    assert (Hro : (ro < length O)%nat) by (apply lookup_lt_Some in Hob; exact Hob).
    assert (Hget : get_level st rl = lv).
    { unfold get_level, st. cbn [store_levels]. rewrite Hlv. reflexivity. }
    assert (Hgeto : get_order st ro = ob).
    { unfold get_order, st. cbn [store_orders]. rewrite lookup_app_l by exact Hro.
      rewrite Hob. reflexivity. }
    assert (Hhas : has_id st (order_id o) ro = true).
    { unfold has_id. rewrite Hgeto, Hidb, Hid. apply String.eqb_refl. }
    assert (Hfind : List.find (Level_has_id st (order_id o)) (ladder_levels lad) = Some rl).
    { rewrite Hls. cbn [List.find]. unfold Level_has_id. rewrite Hget, Hos.
      cbn [existsb]. rewrite Hhas. reflexivity. }
    unfold Ladder_update. rewrite Ho, Hfind, Hget.
    destruct (level_price lv =? order_price o) eqn:Hprice.
    + (* same price: the resting order is replaced in place *)
      apply Z.eqb_eq in Hprice.
      exists (<[rl := mkLevel (order_price o) [length O]]> L), rl.
      unfold Level_update. rewrite Ho, Hos. cbn [replace_id]. rewrite Hhas.
      unfold put_level. cbn [store_levels store_orders st]. rewrite Hprice, <- Hls.
      repeat split.
      * destruct lad; reflexivity.
      * apply list_lookup_insert_eq. exact Hrl.
      * rewrite length_insert. lia.
      * intros x lv0 Hx. destruct (decide (x = rl)) as [->|Hne].
        -- exists (mkLevel (order_price o) [length O]). split.
           ++ apply list_lookup_insert_eq. exact Hrl.
           ++ cbn [level_price]. congruence.
        -- exists lv0. split; [|reflexivity].
           rewrite list_lookup_insert_ne by congruence. exact Hx.
      * intros x Hx _. rewrite list_lookup_insert_ne; [reflexivity|].
        intros ->. apply Hx. rewrite Hls. left. reflexivity.
    + (* another price: the level is dropped and a new one created *)
      exists (<[rl := mkLevel (level_price lv) []]> L ++ [mkLevel (order_price o) [length O]]),
             (length L).
      unfold Ladder_delete. rewrite Ho, Hfind, Hget.
      unfold Level_delete. rewrite Ho, Hos. cbn [remove_id level_orders level_price].
      rewrite Hhas. cbn [level_orders]. rewrite Hls. cbn [remove_ref]. rewrite Nat.eqb_refl.
      unfold Ladder_add, put_level. cbn [store_levels store_orders st].
      assert (Ho' : get_order (mkStore (O ++ [o]) (<[rl := mkLevel (level_price lv) []]> L))
                      (length O) = o) by apply get_order_last.
      rewrite Ho'. cbn [ladder_levels Ladder_with_levels List.find insert_level].
      unfold alloc_level. cbn [store_levels store_orders]. rewrite length_insert.
      repeat split.
      * rewrite lookup_app_r by (rewrite length_insert; lia).
        rewrite length_insert, Nat.sub_diag. reflexivity.
      * rewrite length_app, length_insert. lia.
      * intros x lv0 Hx. assert (Hxlt : (x < length L)%nat) by (apply lookup_lt_Some in Hx; exact Hx).
        rewrite lookup_app_l by (rewrite length_insert; exact Hxlt).
        destruct (decide (x = rl)) as [->|Hne].
        -- exists (mkLevel (level_price lv) []). split.
           ++ apply list_lookup_insert_eq. exact Hrl.
           ++ cbn [level_price]. congruence.
        -- exists lv0. split; [|reflexivity].
           rewrite list_lookup_insert_ne by congruence. exact Hx.
      * intros x Hx Hxlt. rewrite lookup_app_l by (rewrite length_insert; exact Hxlt).
        rewrite list_lookup_insert_ne; [reflexivity|].
        intros ->. apply Hx. left. reflexivity.
Qed.
Lemma l1_side_ok_transport O L xo L' sd lad :
  l1_side_ok (mkStore O L) sd lad = true ->
  (forall x, In x (ladder_levels lad) -> L' !! x = L !! x) ->
  l1_side_ok (mkStore (O ++ xo) L') sd lad = true.
Proof.
  intros Hok Hsame.
  destruct (l1_side_ok_cases _ _ _ Hok) as [Hnil|(rl & lv & ro & ob & Hls & Hlv & Hos & Hob & Hidb)];
    unfold l1_side_ok.
  - rewrite Hnil. reflexivity.
  - cbn [store_levels store_orders] in *. rewrite Hls.
    rewrite Hsame by (rewrite Hls; left; reflexivity). rewrite Hlv, Hos.
    rewrite lookup_app_l by (apply lookup_lt_Some in Hob; exact Hob).
    rewrite Hob, Hidb. apply String.eqb_refl.
Qed.

Lemma l1_sides_disjoint st lb la x :
  l1_side_ok st BUY lb = true -> l1_side_ok st SELL la = true ->
  In x (ladder_levels la) -> ~ In x (ladder_levels lb).
Proof.
  intros Hb Ha Hxa Hxb.
  destruct (l1_side_ok_cases _ _ _ Hb) as [Hnil|(rl & lv & ro & ob & Hls & Hlv & Hos & Hob & Hidb)].
  { rewrite Hnil in Hxb. destruct Hxb. }
  destruct (l1_side_ok_cases _ _ _ Ha) as [Hnil|(rl' & lv' & ro' & oa & Hls' & Hlv' & Hos' & Hoa & Hida)].
  { rewrite Hnil in Hxa. destruct Hxa. }
  rewrite Hls in Hxb. rewrite Hls' in Hxa.
  destruct Hxb as [<-|[]]. destruct Hxa as [<-|[]].
  rewrite Hlv in Hlv'. injection Hlv' as <-.
  rewrite Hos in Hos'. injection Hos' as <-.
  rewrite Hob in Hoa. injection Hoa as <-.
  rewrite Hidb in Hida. discriminate.
Qed.

Lemma L1_update_guard_objects order b : objects (L1_update_guard order b) = objects b.
Proof. unfold L1_update_guard. repeat case_match; reflexivity. Qed.

Lemma L1_update_guard_BUY order b :
  order_side order = BUY ->
  bids (L1_update_guard order b) = bids b
  /\ (asks (L1_update_guard order b) = asks b
      \/ ladder_levels (asks (L1_update_guard order b)) = []).
Proof.
  intros Hs. unfold L1_update_guard. rewrite Hs.
  rewrite (bool_decide_eq_false_2 (BUY = SELL)) by discriminate. cbn [andb].
  case_match; split; auto.
Qed.

Lemma L1_update_guard_SELL order b :
  order_side order = SELL ->
  asks (L1_update_guard order b) = asks b
  /\ (bids (L1_update_guard order b) = bids b
      \/ ladder_levels (bids (L1_update_guard order b)) = []).
Proof.
  intros Hs. unfold L1_update_guard. rewrite Hs.
  rewrite (bool_decide_eq_false_2 (SELL = BUY)) by discriminate. cbn [andb].
  case_match; split; auto.
Qed.

(** The guard leaves no top on the other side that the order would cross. *)
Lemma L1_update_guard_BUY_uncrossed order b ask :
  order_side order = BUY ->
  OrderBook_best_ask_price (L1_update_guard order b) = Some ask ->
  order_price order < ask.
Proof.
  intros Hs. unfold L1_update_guard. rewrite Hs.
  rewrite (bool_decide_eq_true_2 (BUY = BUY)) by reflexivity.
  rewrite (bool_decide_eq_false_2 (BUY = SELL)) by discriminate. cbn [andb].
  unfold OrderBook_best_ask_level, OrderBook_best_ask_price.
  destruct (Ladder_top (asks b)) as [ra|] eqn:Htop.
  - rewrite bool_decide_eq_true_2 by (eexists; reflexivity). cbn [andb ge_price].
    destruct (_ <=? _) eqn:Hle.
    + cbn. discriminate.
    + rewrite Htop. intros [= <-]. apply Z.leb_gt in Hle. exact Hle.
  - rewrite bool_decide_eq_false_2 by (intros [? ?]; discriminate). cbn [andb].
    rewrite Htop. discriminate.
Qed.

Lemma L1_update_guard_SELL_uncrossed order b bid :
  order_side order = SELL ->
  OrderBook_best_bid_price (L1_update_guard order b) = Some bid ->
  bid < order_price order.
Proof.
  intros Hs. unfold L1_update_guard. rewrite Hs.
  rewrite (bool_decide_eq_false_2 (SELL = BUY)) by discriminate.
  rewrite (bool_decide_eq_true_2 (SELL = SELL)) by reflexivity. cbn [andb].
  unfold OrderBook_best_bid_level, OrderBook_best_bid_price.
  destruct (Ladder_top (bids b)) as [rb|] eqn:Htop.
  - rewrite bool_decide_eq_true_2 by (eexists; reflexivity). cbn [andb le_price].
    destruct (_ <=? _) eqn:Hle.
    + cbn. discriminate.
    + rewrite Htop. intros [= <-]. apply Z.leb_gt in Hle. exact Hle.
  - rewrite bool_decide_eq_false_2 by (intros [? ?]; discriminate). cbn [andb].
    rewrite Htop. discriminate.
Qed.
Lemma on_bids_asks f b : asks (on_bids f b) = asks b.
Proof. unfold on_bids. destruct (f _ _). reflexivity. Qed.

Lemma on_asks_bids f b : bids (on_asks f b) = bids b.
Proof. unfold on_asks. destruct (f _ _). reflexivity. Qed.

Lemma L1_update_BUY order b O L :
  objects b = mkStore O L ->
  order_side order = BUY ->
  l1_side_ok (mkStore O L) BUY (bids b) = true ->
  exists L' rl',
    exec (L1OrderBook_update order) b
    = set_objects (mkStore (O ++ [mkOrder "BUY" BUY (order_price order) (order_volume order)]) L')
        (set_bids (Ladder_with_levels (bids b) [rl']) (L1_update_guard order b))
    /\ L' !! rl' = Some (mkLevel (order_price order) [length O])
    /\ (forall x lv, L !! x = Some lv ->
          exists lv', L' !! x = Some lv' /\ level_price lv' = level_price lv)
    /\ (forall x, ~ In x (ladder_levels (bids b)) -> (x < length L)%nat -> L' !! x = L !! x).
Proof.
  intros Hst Hs Hok.
  rewrite (L1OrderBook_update_exec order b O L Hst). rewrite Hs. cbn [OrderSideParser_to_str].
  unfold OrderBook__update. proj. rewrite get_order_last. proj.
  unfold on_bids. proj.
  destruct (L1_update_guard_BUY order b Hs) as [-> _].
  destruct (Ladder_update_l1 O L (bids b)
              (mkOrder "BUY" BUY (order_price order) (order_volume order)) BUY Hok eq_refl)
    as (L' & rl' & -> & Hnew & _ & Hprice & Hsame).
  exists L', rl'. proj. repeat split; assumption.
Qed.

Lemma L1_update_SELL order b O L :
  objects b = mkStore O L ->
  order_side order = SELL ->
  l1_side_ok (mkStore O L) SELL (asks b) = true ->
  exists L' rl',
    exec (L1OrderBook_update order) b
    = set_objects (mkStore (O ++ [mkOrder "SELL" SELL (order_price order) (order_volume order)]) L')
        (set_asks (Ladder_with_levels (asks b) [rl']) (L1_update_guard order b))
    /\ L' !! rl' = Some (mkLevel (order_price order) [length O])
    /\ (forall x lv, L !! x = Some lv ->
          exists lv', L' !! x = Some lv' /\ level_price lv' = level_price lv)
    /\ (forall x, ~ In x (ladder_levels (asks b)) -> (x < length L)%nat -> L' !! x = L !! x).
Proof.
  intros Hst Hs Hok.
  rewrite (L1OrderBook_update_exec order b O L Hst). rewrite Hs. cbn [OrderSideParser_to_str].
  unfold OrderBook__update. proj. rewrite get_order_last. proj.
  unfold on_asks. proj.
  destruct (L1_update_guard_SELL order b Hs) as [-> _].
  destruct (Ladder_update_l1 O L (asks b)
              (mkOrder "SELL" SELL (order_price order) (order_volume order)) SELL Hok eq_refl)
    as (L' & rl' & -> & Hnew & _ & Hprice & Hsame).
  exists L', rl'. proj. repeat split; assumption.
Qed.

Lemma Ladder_top_singleton lad rl : Ladder_top (Ladder_with_levels lad [rl]) = Some rl.
Proof. reflexivity. Qed.

Lemma Ladder_top_in lad rl : Ladder_top lad = Some rl -> In rl (ladder_levels lad).
Proof.
  unfold Ladder_top, Ladder_depth. destruct (ladder_levels lad); simpl; [discriminate|].
  intros [= ->]. left. reflexivity.
Qed.

Lemma l1_side_ok_level st sd lad rl :
  l1_side_ok st sd lad = true -> In rl (ladder_levels lad) ->
  exists lv, store_levels st !! rl = Some lv.
Proof.
  intros Hok Hin.
  destruct (l1_side_ok_cases _ _ _ Hok) as [Hnil|(rl' & lv & ro & ob & Hls & Hlv & _)].
  - rewrite Hnil in Hin. destruct Hin.
  - rewrite Hls in Hin. destruct Hin as [<-|[]]. eauto.
Qed.

Lemma l1_side_ok_new O L' o sd lad rl :
  L' !! rl = Some (mkLevel (order_price o) [length O]) ->
  order_id o = OrderSideParser_to_str sd ->
  l1_side_ok (mkStore (O ++ [o]) L') sd (Ladder_with_levels lad [rl]) = true.
Proof.
  intros Hl Hid. unfold l1_side_ok. cbn [ladder_levels Ladder_with_levels store_levels store_orders].
  rewrite Hl. cbn [level_orders]. rewrite lookup_app_r by lia. rewrite Nat.sub_diag.
  cbn. rewrite Hid. apply String.eqb_refl.
Qed.

Lemma l1_side_ok_empty st sd lad : ladder_levels lad = [] -> l1_side_ok st sd lad = true.
Proof. intros H. unfold l1_side_ok. rewrite H. reflexivity. Qed.

Lemma L1_update_integrity (b : OrderBook) (order : Order) :
  L1_structure b = true ->
  OrderBook__check_integrity (exec (L1OrderBook_update order) b) = Ok tt
  /\ L1_structure (exec (L1OrderBook_update order) b) = true.
Proof.
  unfold L1_structure. intros Hinv. apply andb_true_iff in Hinv as [Hbid Hask].
  destruct (objects b) as [O L] eqn:Hst.
  destruct (order_side order) eqn:Hs.
  - destruct (L1_update_BUY order b O L Hst Hs Hbid) as (L' & rl' & -> & Hnew & Hprice & Hsame).
    destruct (L1_update_guard_BUY order b Hs) as [_ Hasks].
    pose proof (L1_update_guard_BUY_uncrossed order b) as Hun.
    unfold OrderBook_best_ask_price in Hun. rewrite L1_update_guard_objects, Hst in Hun.
    split.
    + unfold OrderBook__check_integrity. proj.
      rewrite Ladder_top_singleton.
      destruct (Ladder_top (asks (L1_update_guard order b))) as [ra|] eqn:Htop; [|reflexivity].
      specialize (Hun _ Hs eq_refl).
      destruct Hasks as [Hasks|Hnil];
        [|apply Ladder_top_in in Htop; rewrite Hnil in Htop; destruct Htop].
      apply Ladder_top_in in Htop. rewrite Hasks in Htop.
      destruct (l1_side_ok_level _ _ _ _ Hask Htop) as [la Hla]. cbn [store_levels] in Hla.
      destruct (Hprice _ _ Hla) as (la' & Hla' & Hpa).
      unfold get_level in *. cbn [store_levels] in *.
      rewrite Hnew, Hla'. rewrite Hla in Hun. cbn [default from_option id level_price] in *.
      rewrite Hpa. apply Z.ltb_lt in Hun. rewrite Hun. reflexivity.
    + proj. apply andb_true_iff. split.
      * apply l1_side_ok_new; [exact Hnew|reflexivity].
      * destruct Hasks as [->|Hnil]; [|apply l1_side_ok_empty; exact Hnil].
        eapply l1_side_ok_transport; [exact Hask|].
        intros x Hx. destruct (l1_side_ok_level _ _ _ _ Hask Hx) as [la Hla].
        apply Hsame; [|apply lookup_lt_Some in Hla; exact Hla].
        apply (l1_sides_disjoint _ _ _ _ Hbid Hask Hx).
  - destruct (L1_update_SELL order b O L Hst Hs Hask) as (L' & rl' & -> & Hnew & Hprice & Hsame).
    destruct (L1_update_guard_SELL order b Hs) as [_ Hbids].
    pose proof (L1_update_guard_SELL_uncrossed order b) as Hun.
    unfold OrderBook_best_bid_price in Hun. rewrite L1_update_guard_objects, Hst in Hun.
    split.
    + unfold OrderBook__check_integrity. proj.
      rewrite Ladder_top_singleton.
      destruct (Ladder_top (bids (L1_update_guard order b))) as [rb|] eqn:Htop; [|reflexivity].
      specialize (Hun _ Hs eq_refl).
      destruct Hbids as [Hbids|Hnil];
        [|apply Ladder_top_in in Htop; rewrite Hnil in Htop; destruct Htop].
      apply Ladder_top_in in Htop. rewrite Hbids in Htop.
      destruct (l1_side_ok_level _ _ _ _ Hbid Htop) as [lb Hlb]. cbn [store_levels] in Hlb.
      destruct (Hprice _ _ Hlb) as (lb' & Hlb' & Hpb).
      unfold get_level in *. cbn [store_levels] in *.
      rewrite Hnew, Hlb'. rewrite Hlb in Hun. cbn [default from_option id level_price] in *.
      rewrite Hpb. apply Z.ltb_lt in Hun. rewrite Hun. reflexivity.
    + proj. apply andb_true_iff. split.
      * destruct Hbids as [->|Hnil]; [|apply l1_side_ok_empty; exact Hnil].
        eapply l1_side_ok_transport; [exact Hbid|].
        intros x Hx. destruct (l1_side_ok_level _ _ _ _ Hbid Hx) as [lb Hlb].
        apply Hsame; [|apply lookup_lt_Some in Hlb; exact Hlb].
        intros Hxa. apply (l1_sides_disjoint _ _ _ _ Hbid Hask Hxa Hx).
      * apply l1_side_ok_new; [exact Hnew|reflexivity].
Qed.
Lemma L1OrderBook_update_guarded order b :
  L1OrderBook_update order b
  = (let '(o, b2) := new_object order (L1_update_guard order b) in
     (Ok tt, OrderBook__update o (L1OrderBook__process_order o b2))).
Proof. reflexivity. Qed.

Lemma L1_update_guard_clears_asks order b ask :
  order_side order = BUY ->
  OrderBook_best_ask_price b = Some ask -> ask <= order_price order ->
  L1_update_guard order b = OrderBook_clear_asks b
  /\ L1_update_guard order (OrderBook_clear_asks b) = OrderBook_clear_asks b.
Proof.
  intros Hs Hask Hle. unfold L1_update_guard. rewrite Hs.
  rewrite (bool_decide_eq_true_2 (BUY = BUY)) by reflexivity.
  rewrite (bool_decide_eq_false_2 (BUY = SELL)) by discriminate. cbn [andb].
  split.
  - rewrite Hask. cbn [ge_price]. apply Z.leb_le in Hle. rewrite Hle.
    unfold OrderBook_best_ask_level. unfold OrderBook_best_ask_price in Hask.
    destruct (Ladder_top (asks b)); [|discriminate].
    rewrite bool_decide_eq_true_2 by (eexists; reflexivity). reflexivity.
  - unfold OrderBook_best_ask_level, OrderBook_clear_asks. cbn.
    reflexivity.
Qed.

Lemma L1_update_guard_clears_bids order b bid :
  order_side order = SELL ->
  OrderBook_best_bid_price b = Some bid -> order_price order <= bid ->
  L1_update_guard order b = OrderBook_clear_bids b
  /\ L1_update_guard order (OrderBook_clear_bids b) = OrderBook_clear_bids b.
Proof.
  intros Hs Hbid Hle. unfold L1_update_guard. rewrite Hs.
  rewrite (bool_decide_eq_false_2 (SELL = BUY)) by discriminate.
  rewrite (bool_decide_eq_true_2 (SELL = SELL)) by reflexivity. cbn [andb].
  split.
  - rewrite Hbid. cbn [le_price]. apply Z.leb_le in Hle. rewrite Hle.
    unfold OrderBook_best_bid_level. unfold OrderBook_best_bid_price in Hbid.
    destruct (Ladder_top (bids b)); [|discriminate].
    rewrite bool_decide_eq_true_2 by (eexists; reflexivity). reflexivity.
  - unfold OrderBook_best_bid_level, OrderBook_clear_bids. cbn.
    reflexivity.
Qed.

Lemma L1_update_other_side order b :
  match order_side order with
  | BUY => asks (exec (L1OrderBook_update order) b) = asks (L1_update_guard order b)
  | SELL => bids (exec (L1OrderBook_update order) b) = bids (L1_update_guard order b)
  end.
Proof.
  destruct (objects b) as [O L] eqn:Hst.
  rewrite (L1OrderBook_update_exec order b O L Hst).
  unfold OrderBook__update. proj. rewrite get_order_last. proj.
  destruct (order_side order).
  - rewrite on_bids_asks. reflexivity.
  - rewrite on_asks_bids. reflexivity.
Qed.

(** C5, as the code has it.  On every L1 book an update with a BUY order
    priced at or above the best ask is the update of the book with the ask
    side cleared, and leaves the ask side empty; likewise for a SELL order
    priced at or below the best bid and the bid side.  When each side of the
    book holds at most one level with one order that carries the name of the
    side as its id, the tops do not cross after the update and the book has
    that structure again. *)
Theorem L1_update_absorbs_cross (b : OrderBook) (order : Order) :
  (order_side order = BUY ->
   forall ask, OrderBook_best_ask_price b = Some ask -> ask <= order_price order ->
     L1OrderBook_update order b = L1OrderBook_update order (OrderBook_clear_asks b)
     /\ ladder_levels (asks (exec (L1OrderBook_update order) b)) = [])
  /\ (order_side order = SELL ->
      forall bid, OrderBook_best_bid_price b = Some bid -> order_price order <= bid ->
        L1OrderBook_update order b = L1OrderBook_update order (OrderBook_clear_bids b)
        /\ ladder_levels (bids (exec (L1OrderBook_update order) b)) = [])
  /\ (L1_structure b = true ->
      OrderBook__check_integrity (exec (L1OrderBook_update order) b) = Ok tt
      /\ L1_structure (exec (L1OrderBook_update order) b) = true).
Proof.
  split; [|split; [|apply L1_update_integrity]].
  - intros Hs ask Hask Hle.
    destruct (L1_update_guard_clears_asks order b ask Hs Hask Hle) as [Hg Hg'].
    split.
    + rewrite !L1OrderBook_update_guarded. rewrite Hg, Hg'. reflexivity.
    + pose proof (L1_update_other_side order b) as Hother. rewrite Hs in Hother.
      rewrite Hother, Hg. reflexivity.
  - intros Hs bid Hbid Hle.
    destruct (L1_update_guard_clears_bids order b bid Hs Hbid Hle) as [Hg Hg'].
    split.
    + rewrite !L1OrderBook_update_guarded. rewrite Hg, Hg'. reflexivity.
    + pose proof (L1_update_other_side order b) as Hother. rewrite Hs in Hother.
      rewrite Hother, Hg. reflexivity.
Qed.

(** The third seed scenario: a bid at 101.00, then an ask update at 100.00;
    the crossed bid is cleared and the ask rests alone. *)
Lemma L1_update_absorbs_cross_witness :
  L1_structure book_bid_101 = true
  /\ ladder_levels (bids (exec (L1OrderBook_update (mkOrder "2" SELL 10000 3)) book_bid_101)) = []
  /\ OrderBook_best_ask_price (exec (L1OrderBook_update (mkOrder "2" SELL 10000 3)) book_bid_101)
     = Some 10000
  /\ OrderBook__check_integrity (exec (L1OrderBook_update (mkOrder "2" SELL 10000 3)) book_bid_101)
     = Ok tt.
Proof.
  destruct (L1_update_absorbs_cross book_bid_101 (mkOrder "2" SELL 10000 3))
    as (_ & Hsell & Hstructure).
  destruct (Hsell eq_refl 10100 eq_refl ltac:(simpl; lia)) as [_ Hbids].
  destruct (Hstructure eq_refl) as [Hint _].
  split; [reflexivity|]. split; [exact Hbids|]. split; [reflexivity|exact Hint].
Defined.

(** C5 as stated fails once [update_top] has put a second level on the bid
    side: the next [update] replaces one bid level and leaves the other, which
    stands above the ask. *)
Lemma L1_update_can_leave_cross :
  resolve (objects book_after_ticks) (bids book_after_ticks)
  = [(10000, [mkOrder "BUY" BUY 10000 1]); (9700, [mkOrder "BUY" BUY 9700 1])]
  /\ result (L1OrderBook_update (mkOrder "3" BUY 9100 3)) book_after_ticks = Ok tt
  /\ OrderBook_best_bid_price (exec (L1OrderBook_update (mkOrder "3" BUY 9100 3)) book_after_ticks)
     = Some 9700
  /\ OrderBook_best_ask_price (exec (L1OrderBook_update (mkOrder "3" BUY 9100 3)) book_after_ticks)
     = Some 9600
  /\ is_assertion_failure
       (OrderBook__check_integrity
          (exec (L1OrderBook_update (mkOrder "3" BUY 9100 3)) book_after_ticks)).
Proof. repeat split; try reflexivity. eexists. reflexivity. Qed.

(** * Properties of the execution databases *)

Section BypassProperties.
Context `{Aggregates}.

(** C10.  Whatever mutating calls were made before, the bypass database is
    the database it was, every bulk load returns the empty dictionary and
    every single load returns [None]. *)
Theorem bypass_database_does_nothing (cs : list DatabaseCall) (db : BypassExecutionDatabase) :
  Bypass_calls cs db = db
  /\ Bypass_load_accounts (Bypass_calls cs db) = ∅
  /\ Bypass_load_orders (Bypass_calls cs db) = ∅
  /\ Bypass_load_positions (Bypass_calls cs db) = ∅
  /\ (forall strategy_id, Bypass_load_strategy strategy_id (Bypass_calls cs db) = ∅)
  /\ (forall account_id, Bypass_load_account account_id (Bypass_calls cs db) = None)
  /\ (forall client_order_id, Bypass_load_order client_order_id (Bypass_calls cs db) = None)
  /\ (forall position_id, Bypass_load_position position_id (Bypass_calls cs db) = None).
Proof.
  repeat split.
  unfold Bypass_calls. induction cs as [|c cs IH]; simpl; [reflexivity|].
  destruct c; exact IH.
Qed.

End BypassProperties.

Section RedisProperties.
Context `{EventSerializer} `{!Aggregates}.

Lemma fold_apply_raise {T} (apply : T -> Event -> outcome T) e events :
  fold_left
    (fun acc event => match acc with Ok entity => apply entity event | Raise x => Raise x end)
    events (Raise e)
  = Raise e.
Proof. induction events as [|ev events IH]; simpl; [reflexivity|exact IH]. Qed.

(** The loop over the stored bytes is the left fold over the events. *)
Lemma apply_events_is_fold {T} (apply : T -> Event -> outcome T) events : forall entity,
  apply_events apply entity events = fold_apply apply entity (map deserialize events).
Proof.
  unfold fold_apply. induction events as [|ev events IH]; intros entity; simpl; [reflexivity|].
  destruct (apply entity (deserialize ev)) as [entity'|e].
  - apply IH.
  - symmetry. apply fold_apply_raise.
Qed.

(** C9.  A load returns [None] for an empty event list; otherwise the first
    event seeds the entity (an [OrderInitialized] builds the order class of
    its order type, an [AccountState] the account, an [OrderFilled] the
    position) and the remaining events are folded from the left with
    [apply]. *)
Theorem load_follows_contract (db : RedisExecutionDatabase) :
  (forall id,
     Redis_lrange_all (_key_orders db ++ id) (_redis db) = [] ->
     Redis_load_order id db = Ok None)
  /\ (forall id first rest init,
        Redis_lrange_all (_key_orders db ++ id) (_redis db) = first :: rest ->
        deserialize first = EvOrderInitialized init ->
        (order_type init = MARKET ->
         Redis_load_order id db
         = found (fold_apply Order_apply (MarketOrder_create init) (map deserialize rest)))
        /\ (order_type init = LIMIT ->
            Redis_load_order id db
            = found (fold_apply Order_apply (LimitOrder_create init) (map deserialize rest)))
        /\ (order_type init = STOP_MARKET ->
            Redis_load_order id db
            = found (fold_apply Order_apply (StopMarketOrder_create init) (map deserialize rest)))
        /\ (order_type init = STOP_LIMIT ->
            Redis_load_order id db
            = found (fold_apply Order_apply (StopLimitOrder_create init) (map deserialize rest))))
  /\ (forall id,
        Redis_lrange_all (_key_accounts db ++ id) (_redis db) = [] ->
        Redis_load_account id db = Ok None)
  /\ (forall id first rest state,
        Redis_lrange_all (_key_accounts db ++ id) (_redis db) = first :: rest ->
        deserialize first = EvAccountState state ->
        Redis_load_account id db
        = found (fold_apply Account_apply (Account_init state) (map deserialize rest)))
  /\ (forall id,
        Redis_lrange_all (_key_positions db ++ id) (_redis db) = [] ->
        Redis_load_position id db = Ok None)
  /\ (forall id first rest fill,
        Redis_lrange_all (_key_positions db ++ id) (_redis db) = first :: rest ->
        deserialize first = EvOrderFilled fill ->
        Redis_load_position id db
        = found (fold_apply Position_apply (Position_init fill) (map deserialize rest))).
Proof.
  split; [|split; [|split; [|split; [|split]]]].
  - intros id Hnil. unfold Redis_load_order. rewrite Hnil. reflexivity.
  - intros id first rest init Hl Hd.
    repeat split; intros Hty; unfold Redis_load_order; rewrite Hl, Hd, Hty;
      rewrite apply_events_is_fold; reflexivity.
  - intros id Hnil. unfold Redis_load_account. rewrite Hnil. reflexivity.
  - intros id first rest state Hl Hd. unfold Redis_load_account. rewrite Hl, Hd.
    rewrite apply_events_is_fold. reflexivity.
  - intros id Hnil. unfold Redis_load_position. rewrite Hnil. reflexivity.
  - intros id first rest fill Hl Hd. unfold Redis_load_position. rewrite Hl, Hd.
    rewrite apply_events_is_fold. reflexivity.
Qed.

End RedisProperties.

Lemma load_follows_contract_witness :
  @Redis_load_order text_events text_serializer journal_aggregates "O-1" database_with_order
  = Ok (Some ("LimitOrder",
              [@EvOrderInitialized text_events "LIMIT"; @EvOrderFilled text_events "10"])).
Proof.
  destruct (@load_follows_contract text_events text_serializer journal_aggregates
              database_with_order) as (_ & Horder & _).
  destruct (Horder "O-1" "ILIMIT" ["F10"] "LIMIT" eq_refl eq_refl) as (_ & Hlimit & _).
  exact (Hlimit eq_refl).
Defined.

Section RedisIntegrity.
Context `{EventSerializer} `{!Aggregates}.

Lemma errors_logged_log_record lvl msg db :
  errors_logged (log_record lvl msg db)
  = errors_logged db ++ (if is_error (lvl, msg) then [(lvl, msg)] else []).
Proof.
  unfold errors_logged, log_record. cbn [_log]. rewrite filter_app.
  f_equal. destruct lvl; reflexivity.
Qed.

Lemma rpush_reply name value redis :
  fst (Redis_rpush name value redis)
  = Z.of_nat (length (Redis_lrange_all name redis)) + 1.
Proof. unfold Redis_rpush. cbn [fst]. rewrite length_app. simpl. lia. Qed.

Lemma reply_above_one name value redis :
  1 < fst (Redis_rpush name value redis) <-> Redis_lrange_all name redis <> [].
Proof.
  rewrite rpush_reply. destruct (Redis_lrange_all name redis); simpl; split;
    intros; try congruence; lia.
Qed.

Lemma reply_is_one name value redis :
  fst (Redis_rpush name value redis) = 1 <-> Redis_lrange_all name redis = [].
Proof.
  rewrite rpush_reply. destruct (Redis_lrange_all name redis); simpl; split;
    intros; try congruence; lia.
Qed.

Lemma logged_iff_appended db db' extra :
  errors_logged db' = errors_logged db ++ extra ->
  integrity_error_logged db db' <-> extra <> [].
Proof.
  unfold integrity_error_logged. intros ->. rewrite length_app.
  destruct extra; simpl; split; intros; try congruence; lia.
Qed.

(** C8, as the code has it.  For orders and positions: after [add] an
    integrity error is logged exactly when the reply of the push is greater
    than 1, which is when the key held events already; after [update] exactly
    when the reply equals 1, which is when the key held none. *)
Theorem integrity_error_after_add_and_update (db : RedisExecutionDatabase)
    (order : BaseOrder) (position : Position) :
  let order_key := (_key_orders db ++ Order_client_order_id order)%string in
  let position_key := (_key_positions db ++ Position_id position)%string in
  let order_reply :=
    fst (Redis_rpush order_key (serialize (Order_last_event_c order)) (_redis db)) in
  let position_reply :=
    fst (Redis_rpush position_key (serialize (Position_last_event_c position)) (_redis db)) in
  (integrity_error_logged db (Redis_add_order order db) <-> 1 < order_reply)
  /\ (integrity_error_logged db (Redis_add_position position db) <-> 1 < position_reply)
  /\ (1 < order_reply <-> Redis_lrange_all order_key (_redis db) <> [])
  /\ (1 < position_reply <-> Redis_lrange_all position_key (_redis db) <> [])
  /\ (integrity_error_logged db (Redis_update_order order db) <-> order_reply = 1)
  /\ (integrity_error_logged db (Redis_update_position position db) <-> position_reply = 1)
  /\ (order_reply = 1 <-> Redis_lrange_all order_key (_redis db) = [])
  /\ (position_reply = 1 <-> Redis_lrange_all position_key (_redis db) = []).
Proof.
  cbv zeta.
  split; [|split; [|split; [|split; [|split; [|split; [|split]]]]]];
    try apply reply_above_one; try apply reply_is_one.
  - unfold Redis_add_order.
    destruct (Redis_rpush _ _ _) as [reply redis]. cbn [fst].
    destruct (1 <? reply) eqn:E.
    + rewrite (logged_iff_appended _ _ [(ERROR, _)]) by
        (rewrite errors_logged_log_record; reflexivity).
      apply Z.ltb_lt in E. split; [intros _; exact E|discriminate].
    + rewrite (logged_iff_appended _ _ []) by (rewrite app_nil_r; reflexivity).
      apply Z.ltb_ge in E. split; [congruence|lia].
  - unfold Redis_add_position.
    destruct (Redis_rpush _ _ _) as [reply redis]. cbn [fst].
    destruct (1 <? reply) eqn:E.
    + rewrite (logged_iff_appended _ _ [(ERROR, _)]) by
        (rewrite !errors_logged_log_record; cbn; rewrite app_nil_r; reflexivity).
      apply Z.ltb_lt in E. split; [intros _; exact E|discriminate].
    + rewrite (logged_iff_appended _ _ []) by
        (rewrite errors_logged_log_record; reflexivity).
      apply Z.ltb_ge in E. split; [congruence|lia].
  - unfold Redis_update_order.
    destruct (Redis_rpush _ _ _) as [reply redis]. cbn [fst].
    destruct (reply =? 1) eqn:E.
    + rewrite (logged_iff_appended _ _ [(ERROR, _)]) by
        (rewrite !errors_logged_log_record; cbn; rewrite app_nil_r; reflexivity).
      apply Z.eqb_eq in E. split; [intros _; exact E|discriminate].
    + rewrite (logged_iff_appended _ _ []) by
        (rewrite errors_logged_log_record; reflexivity).
      apply Z.eqb_neq in E. split; [congruence|contradiction].
  - unfold Redis_update_position.
    destruct (Redis_rpush _ _ _) as [reply redis]. cbn [fst].
    destruct (reply =? 1) eqn:E.
    + rewrite (logged_iff_appended _ _ [(ERROR, _)]) by
        (rewrite !errors_logged_log_record; cbn; rewrite app_nil_r; reflexivity).
      apply Z.eqb_eq in E. split; [intros _; exact E|discriminate].
    + rewrite (logged_iff_appended _ _ []) by
        (rewrite errors_logged_log_record; reflexivity).
      apply Z.eqb_neq in E. split; [congruence|contradiction].
Qed.

End RedisIntegrity.

(** C8 as stated fails: the first add of an order gets the reply 1 and logs
    no integrity error; the second add gets the reply 2 and logs one. *)
Lemma add_logs_error_when_reply_exceeds_one :
  fst (Redis_rpush "Trader-001:Orders:O-1" "ILIMIT" (_redis empty_database)) = 1
  /\ errors_logged
       (@Redis_add_order text_events text_serializer journal_aggregates limit_order
          empty_database) = []
  /\ ~ integrity_error_logged empty_database
         (@Redis_add_order text_events text_serializer journal_aggregates limit_order
            empty_database)
  /\ fst (Redis_rpush "Trader-001:Orders:O-1" "ILIMIT"
            (_redis (@Redis_add_order text_events text_serializer journal_aggregates
                       limit_order empty_database))) = 2
  /\ integrity_error_logged
       (@Redis_add_order text_events text_serializer journal_aggregates limit_order
          empty_database)
       (@Redis_add_order text_events text_serializer journal_aggregates limit_order
          (@Redis_add_order text_events text_serializer journal_aggregates limit_order
             empty_database)).
Proof.
  repeat split; try reflexivity.
  - unfold integrity_error_logged. vm_compute. lia.
  - unfold integrity_error_logged. vm_compute. lia.
Qed.
(** * Further properties of the order book *)

(** ** Outcomes of the overridden methods *)

Lemma self_update_ok order b : result (self_update order) b = Ok tt.
Proof.
  unfold result, self_update, L1OrderBook_update, L2OrderBook_update, OrderBook_update,
    new_object, alloc_order.
  destruct (level b); reflexivity.
Qed.





Lemma for_each_app {A} (body : A -> M unit) xs ys b :
  for_each body (xs ++ ys) b
  = match for_each body xs b with
    | (Ok _, b') => for_each body ys b'
    | (Raise e, b') => (Raise e, b')
    end.
Proof.
  revert b. induction xs as [|x xs IH]; intros b; simpl; [reflexivity|].
  unfold bind. destruct (body x b) as [[[]|e] b1]; [apply IH|reflexivity].
Qed.

(** ** The level check of the public mutations *)

(** X1.  [apply_delta], [apply_deltas] and [apply_snapshot] reject data whose
    level differs from the level of the book with a validation error and
    leave the book as it was; so does [apply] for a batch and for a
    snapshot. *)
Theorem mismatched_level_is_rejected (b : OrderBook) (d : OrderBookDelta)
    (ds : OrderBookDeltas) (s : OrderBookSnapshot) :
  (delta_level d <> level b ->
   is_validation_error (result (OrderBook_apply_delta d) b)
   /\ exec (OrderBook_apply_delta d) b = b)
  /\ (deltas_level ds <> level b ->
      is_validation_error (result (OrderBook_apply_deltas ds) b)
      /\ exec (OrderBook_apply_deltas ds) b = b
      /\ is_validation_error (result (OrderBook_apply (DataDeltas ds)) b)
      /\ exec (OrderBook_apply (DataDeltas ds)) b = b)
  /\ (snapshot_level s <> level b ->
      is_validation_error (result (OrderBook_apply_snapshot s) b)
      /\ exec (OrderBook_apply_snapshot s) b = b
      /\ is_validation_error (result (OrderBook_apply (DataSnapshot s)) b)
      /\ exec (OrderBook_apply (DataSnapshot s)) b = b).
Proof.
  assert (Hd : forall ds', OrderBook_apply (DataDeltas ds') b = OrderBook_apply_deltas ds' b)
    by reflexivity.
  assert (Hs : forall s', OrderBook_apply (DataSnapshot s') b = OrderBook_apply_snapshot s' b)
    by reflexivity.
  unfold result, exec. rewrite Hd, Hs.
  rewrite OrderBook_apply_delta_cases, OrderBook_apply_deltas_cases,
    OrderBook_apply_snapshot_cases.
  split; [|split]; intros Hne; rewrite bool_decide_eq_false_2 by exact Hne;
    repeat split; eexists; reflexivity.
Qed.

Lemma mismatched_level_is_rejected_witness :
  is_validation_error (result (OrderBook_apply_deltas batch_of_other_level) (empty_book L3))
  /\ exec (OrderBook_apply (DataDeltas batch_of_other_level)) (empty_book L3) = empty_book L3.
Proof.
  destruct (mismatched_level_is_rejected (empty_book L3) delta_at_10 batch_of_other_level
              snapshot_of_two_asks) as (_ & Hds & _).
  destruct Hds as (H1 & _ & _ & H2); [discriminate|].
  split; assumption.
Defined.



(** ** Batches *)

Lemma last_cons_head {A} (x d : A) l : List.last (x :: l) d = List.last l x.
Proof.
  revert x d. induction l as [|y l IH]; intros x d; [reflexivity|].
  change (List.last (x :: y :: l) d) with (List.last (y :: l) d).
  rewrite !IH. reflexivity.
Qed.

Lemma for_each_apply_delta_last ds : forall b,
  result (for_each OrderBook__apply_delta ds) b = Ok tt ->
  last_update_timestamp_ns (exec (for_each OrderBook__apply_delta ds) b)
  = last_timestamp (last_update_timestamp_ns b) ds.
Proof.
  unfold last_timestamp.
  induction ds as [|d ds IH]; intros b Hok; [reflexivity|].
  revert Hok. unfold result, exec. simpl for_each. unfold bind.
  destruct (OrderBook__apply_delta_effect d b) as [_ Hts]. unfold exec, result in Hts.
  destruct (OrderBook__apply_delta d b) as [[[]|e] b1]; simpl in Hts; [|discriminate].
  intros Hok. specialize (IH b1 Hok). unfold exec in IH. rewrite IH, Hts.
  cbn [map]. rewrite last_cons_head. reflexivity.
Qed.

(** X3.  A batch that is applied sets the timestamp of the book to the
    timestamp of its last delta, and leaves it alone when it holds no delta:
    the [timestamp_ns] of the batch itself is never read. *)
Theorem apply_deltas_takes_last_timestamp (b : OrderBook) (ds : OrderBookDeltas) :
  result (OrderBook_apply_deltas ds) b = Ok tt ->
  last_update_timestamp_ns (exec (OrderBook_apply_deltas ds) b)
  = last_timestamp (last_update_timestamp_ns b) (deltas_deltas ds).
Proof.
  unfold result, exec. rewrite OrderBook_apply_deltas_cases.
  case_bool_decide; [|discriminate]. apply for_each_apply_delta_last.
Qed.

Lemma apply_deltas_takes_last_timestamp_witness :
  last_update_timestamp_ns (exec (OrderBook_apply_deltas batch_of_two) (empty_book L3)) = 10
  /\ deltas_timestamp_ns batch_of_two = 10.
Proof.
  split; [|reflexivity].
  apply (apply_deltas_takes_last_timestamp (empty_book L3) batch_of_two). reflexivity.
Defined.




(** ** Clearing and creating *)

(** X5.  [clear] leaves a book without levels on either side, whose tops,
    spread and midpoint are all [None] and whose integrity check passes,
    whatever the book held and whatever its level; the header, the timestamp
    and the objects are untouched, and clearing twice is clearing once. *)
Theorem clear_empties_the_book (b : OrderBook) :
  ladder_levels (bids (OrderBook_clear b)) = []
  /\ ladder_levels (asks (OrderBook_clear b)) = []
  /\ OrderBook_best_bid_level (OrderBook_clear b) = None
  /\ OrderBook_best_ask_level (OrderBook_clear b) = None
  /\ OrderBook_best_bid_price (OrderBook_clear b) = None
  /\ OrderBook_best_ask_price (OrderBook_clear b) = None
  /\ OrderBook_best_bid_qty (OrderBook_clear b) = None
  /\ OrderBook_best_ask_qty (OrderBook_clear b) = None
  /\ OrderBook_spread (OrderBook_clear b) = None
  /\ OrderBook_midpoint (OrderBook_clear b) = None
  /\ self_check_integrity (OrderBook_clear b) = Ok tt
  /\ same_header b (OrderBook_clear b)
  /\ objects (OrderBook_clear b) = objects b
  /\ OrderBook_clear (OrderBook_clear b) = OrderBook_clear b
  /\ OrderBook_clear_bids (OrderBook_clear_asks b) = OrderBook_clear b.
Proof.
  destruct b as [i l pp sp bd ak ts st tb ta tbl tal].
  repeat split. destruct l; reflexivity.
Qed.

Ltac tests :=
  repeat (match goal with
          | |- context [?a <=? ?b] => destruct (Z.leb_spec a b)
          | |- context [?a <? ?b] => destruct (Z.ltb_spec a b)
          | |- context [?a =? ?b] => destruct (Z.eqb_spec a b)
          end; cbn [andb orb]).

(** ** Creating a book *)

Lemma OrderBook_init_cases instrument lvl pp sp :
  (fits_c_int pp /\ fits_c_int sp /\ 0 <= pp /\ 0 <= sp
   /\ OrderBook_init instrument lvl pp sp
      = Ok (mkOrderBook instrument lvl pp sp (Ladder_new true pp sp) (Ladder_new false pp sp)
              0 empty_store None None None None))
  \/ (fits_c_int pp /\ fits_c_int sp /\ (pp < 0 \/ sp < 0)
      /\ is_validation_error (OrderBook_init instrument lvl pp sp))
  \/ (~ (fits_c_int pp /\ fits_c_int sp)
      /\ is_overflow_error (OrderBook_init instrument lvl pp sp)).
Proof.
  unfold OrderBook_init, as_c_int, Condition_not_negative_int, fits_c_int,
    is_validation_error, is_overflow_error.
  tests; cbn [andb orb];
    first [ left; repeat split; (lia || reflexivity)
          | right; left; repeat split; try lia; eexists; reflexivity
          | right; right; split; [lia|eexists; reflexivity] ].
Qed.

Lemma subclass_init_cases l i :
  let pp := instrument_price_precision i in
  let sp := instrument_size_precision i in
  (fits_c_int pp /\ fits_c_int sp /\ 0 <= pp /\ 0 <= sp
   /\ subclass_init l i = Ok (fresh_book i l))
  \/ (fits_c_int pp /\ fits_c_int sp /\ (pp < 0 \/ sp < 0)
      /\ is_validation_error (subclass_init l i))
  \/ (~ (fits_c_int pp /\ fits_c_int sp) /\ is_overflow_error (subclass_init l i)).
Proof.
  cbv zeta. unfold subclass_init, L1OrderBook_init, L2OrderBook_init, L3OrderBook_init.
  destruct (OrderBook_init_cases (instrument_ident i) l (instrument_price_precision i)
              (instrument_size_precision i))
    as [(H1 & H2 & H3 & H4 & Hok)|[(H1 & H2 & H3 & [msg Hv])|(H1 & [msg Ho])]].
  - left. refine (conj H1 (conj H2 (conj H3 (conj H4 _)))).
    destruct l; rewrite Hok; reflexivity.
  - right. left. refine (conj H1 (conj H2 (conj H3 _))).
    exists msg. destruct l; rewrite Hv; reflexivity.
  - right. right. split; [assumption|]. exists msg. destruct l; rewrite Ho; reflexivity.
Qed.

Lemma OrderBook_create_cases instrument lvl :
  (~ fits_c_int lvl /\ is_overflow_error (OrderBook_create instrument lvl))
  \/ (fits_c_int lvl /\ (instrument = None \/ lvl < 1 \/ 3 < lvl)
      /\ is_validation_error (OrderBook_create instrument lvl))
  \/ (exists i l, instrument = Some i /\ lvl = OrderBookLevel_value l
        /\ OrderBook_create instrument lvl = returned (subclass_init l i)).
Proof.
  unfold OrderBook_create, as_c_int, Condition_not_none, Condition_in_range_int,
    fits_c_int, is_validation_error, is_overflow_error, OrderBookLevel_value.
  destruct instrument as [i|]; tests;
    try (left; split; [lia|eexists; reflexivity]);
    try (right; left; split; [lia|]; split; [auto; lia|eexists; reflexivity]).
  - right. right. exists i, L1. repeat split. assumption.
  - right. right. exists i, L2. repeat split. assumption.
  - right. right. exists i, L3. repeat split. assumption.
  - lia.
Qed.

Lemma OrderBook_create_outcomes instrument lvl :
  (exists msg, OrderBook_create instrument lvl = Raise (OverflowError msg)
     /\ (~ fits_c_int lvl
         \/ exists i l, instrument = Some i /\ lvl = OrderBookLevel_value l
              /\ ~ (fits_c_int (instrument_price_precision i)
                    /\ fits_c_int (instrument_size_precision i))))
  \/ (exists msg, OrderBook_create instrument lvl = Raise (ValueError msg)
        /\ fits_c_int lvl
        /\ (instrument = None \/ lvl < 1 \/ 3 < lvl
            \/ exists i l, instrument = Some i /\ lvl = OrderBookLevel_value l
                 /\ fits_c_int (instrument_price_precision i)
                 /\ fits_c_int (instrument_size_precision i)
                 /\ (instrument_price_precision i < 0 \/ instrument_size_precision i < 0)))
  \/ (exists i l, OrderBook_create instrument lvl = Ok (Some (fresh_book i l))
        /\ instrument = Some i /\ lvl = OrderBookLevel_value l
        /\ 0 <= instrument_price_precision i <= 2147483647
        /\ 0 <= instrument_size_precision i <= 2147483647).
Proof.
  destruct (OrderBook_create_cases instrument lvl)
    as [(Hl & [msg Ho])|[(Hl & Hbad & [msg Hv])|(i & l & Hi & Hlv & Hc)]].
  - left. exists msg. auto.
  - right. left. exists msg. repeat split; try assumption; try apply Hl. tauto.
  - destruct (subclass_init_cases l i)
      as [(H1 & H2 & H3 & H4 & Hok)|[(H1 & H2 & H3 & [msg Hv])|(H1 & [msg Ho])]].
    + right. right. exists i, l. rewrite Hc, Hok. unfold fits_c_int in *.
      repeat split; try assumption; lia.
    + right. left. exists msg. rewrite Hc, Hv.
      split; [reflexivity|]. split; [subst lvl; unfold fits_c_int; destruct l; simpl; lia|].
      right. right. right. exists i, l. auto.
    + left. exists msg. rewrite Hc, Ho. split; [reflexivity|].
      right. exists i, l. auto.
Qed.



(** ** The side of a trade *)

(** X7.  On a book whose tops exist, are not zero and do not cross,
    [trade_side] says BUY exactly for a trade at or below the best bid, SELL
    exactly for a trade at or above the best ask, and 0 (no side) exactly for
    a trade strictly inside the spread.  On a side without levels, and on a
    side whose best price is zero, no trade is taken: a book without bids
    never says BUY. *)
Theorem trade_side_classifies (b : OrderBook) (trade_price : Z) :
  (forall bid ask,
     OrderBook_best_bid_price b = Some bid -> OrderBook_best_ask_price b = Some ask ->
     bid <> 0 -> ask <> 0 -> bid < ask ->
     (OrderBook_trade_side trade_price b = Some BUY <-> trade_price <= bid)
     /\ (OrderBook_trade_side trade_price b = Some SELL <-> ask <= trade_price)
     /\ (OrderBook_trade_side trade_price b = None <-> bid < trade_price < ask))
  /\ (OrderBook_best_bid_price b = None \/ OrderBook_best_bid_price b = Some 0 ->
      OrderBook_trade_side trade_price b <> Some BUY)
  /\ (OrderBook_best_ask_price b = None \/ OrderBook_best_ask_price b = Some 0 ->
      OrderBook_trade_side trade_price b <> Some SELL).
Proof.
  unfold OrderBook_trade_side.
  split; [|split].
  - intros bid ask -> -> Hb Ha Hlt. cbn [price_is_true le_price ge_price].
    apply Z.eqb_neq in Hb, Ha. rewrite Hb, Ha. cbn [negb andb].
    destruct (trade_price <=? bid) eqn:H1; [apply Z.leb_le in H1|apply Z.leb_gt in H1];
      (destruct (ask <=? trade_price) eqn:H2; [apply Z.leb_le in H2|apply Z.leb_gt in H2]);
      repeat split; intros; try discriminate; try lia; try reflexivity.
  - intros [->| ->]; cbn [price_is_true andb negb Z.eqb]; repeat case_match; discriminate.
  - intros [->| ->]; cbn [price_is_true andb negb Z.eqb ge_price];
      rewrite ?andb_false_r; repeat case_match; discriminate.
Qed.

Lemma trade_side_classifies_witness :
  OrderBook_trade_side 9900 book_after_quote = Some BUY
  /\ OrderBook_trade_side 10050 book_after_quote = None
  /\ OrderBook_trade_side 9900 (empty_book L3) <> Some BUY.
Proof.
  destruct (trade_side_classifies book_after_quote 9900) as (H1 & _).
  destruct (trade_side_classifies book_after_quote 10050) as (H2 & _).
  destruct (trade_side_classifies (empty_book L3) 9900) as (_ & H3 & _).
  destruct (H1 10000 10100) as (Hbuy & _); try reflexivity; try lia.
  destruct (H2 10000 10100) as (_ & _ & Hnone); try reflexivity; try lia.
  split; [apply Hbuy; lia|]. split; [apply Hnone; lia|]. apply H3. left. reflexivity.
Defined.

(** ** The L1 book under a feed of ticks *)

Lemma L1__update_bid_first price size b O L :
  _top_bid b = None -> ladder_levels (bids b) = [] -> objects b = mkStore O L ->
  L1OrderBook__update_bid price size b
  = set_top_bid (Some (length O)) (Some (length L))
      (set_objects
         (mkStore (O ++ [mkOrder "BUY" BUY price size]) (L ++ [mkLevel price [length O]]))
         (set_bids (Ladder_with_levels (bids b) [length L]) b)).
Proof.
  intros Htop Hnil Hst. unfold L1OrderBook__update_bid. rewrite Htop.
  unfold new_object, alloc_order, Order_new. rewrite Hst. proj.
  unfold L1OrderBook__process_order. proj.
  rewrite get_order_last, Order_set_id_new. proj. cbn [OrderSideParser_to_str].
  unfold OrderBook__add. proj. rewrite get_order_last. proj.
  unfold on_bids, Ladder_add. proj. rewrite get_order_last, Hnil. proj.
  cbn [List.find insert_level]. unfold alloc_level. proj. reflexivity.
Qed.

Lemma L1__update_ask_first price size b O L :
  _top_ask b = None -> ladder_levels (asks b) = [] -> objects b = mkStore O L ->
  L1OrderBook__update_ask price size b
  = set_top_ask (Some (length O)) (Some (length L))
      (set_objects
         (mkStore (O ++ [mkOrder "SELL" SELL price size]) (L ++ [mkLevel price [length O]]))
         (set_asks (Ladder_with_levels (asks b) [length L]) b)).
Proof.
  intros Htop Hnil Hst. unfold L1OrderBook__update_ask. rewrite Htop.
  unfold new_object, alloc_order, Order_new. rewrite Hst. proj.
  unfold L1OrderBook__process_order. proj.
  rewrite get_order_last, Order_set_id_new. proj. cbn [OrderSideParser_to_str].
  unfold OrderBook__add. proj. rewrite get_order_last. proj.
  unfold on_asks, Ladder_add. proj. rewrite get_order_last, Hnil. proj.
  cbn [List.find insert_level]. unfold alloc_level. proj. reflexivity.
Qed.

(** A side that was fed keeps its cache when objects are appended to the
    store. *)
Lemma top_cached_grows O L xo xl lad top top_level v :
  top_cached (mkStore O L) lad top top_level v ->
  top_cached (mkStore (O ++ xo) (L ++ xl)) lad top top_level v.
Proof.
  destruct v as [[p s]|]; [|exact id].
  intros (ro & rl & o & Ht & Htl & Hls & Hl & Ho & Hp & Hs).
  exists ro, rl, o. cbn [store_levels store_orders] in *.
  repeat split; try assumption.
  - rewrite lookup_app_l by (apply lookup_lt_Some in Hl; exact Hl). exact Hl.
  - rewrite lookup_app_l by (apply lookup_lt_Some in Ho; exact Ho). exact Ho.
Qed.

(** A side that was fed keeps its cache when other objects are written. *)
Lemma top_cached_other O L lad top top_level v ro' rl' (o' : Order) (l' : Level) :
  top_cached (mkStore O L) lad top top_level v ->
  top <> Some ro' -> top_level <> Some rl' ->
  top_cached (mkStore (<[ro' := o']> O) (<[rl' := l']> L)) lad top top_level v.
Proof.
  destruct v as [[p s]|]; [|exact (fun H _ _ => H)].
  intros (ro & rl & o & Ht & Htl & Hls & Hl & Ho & Hp & Hs) Hne Hnel.
  exists ro, rl, o. cbn [store_levels store_orders] in *.
  repeat split; try assumption.
  - rewrite list_lookup_insert_ne by congruence. exact Hl.
  - rewrite list_lookup_insert_ne by congruence. exact Ho.
Qed.

Lemma top_cached_refs st lad top top_level v ro rl :
  top_cached st lad top top_level v ->
  (top = Some ro -> (ro < length (store_orders st))%nat)
  /\ (top_level = Some rl -> (rl < length (store_levels st))%nat).
Proof.
  destruct v as [[p s]|].
  - intros (ro0 & rl0 & o & Ht & Htl & Hls & Hl & Ho & Hp & Hs).
    split; intros H; rewrite H in *.
    + injection Ht as <-. apply lookup_lt_Some in Ho. exact Ho.
    + injection Htl as <-. apply lookup_lt_Some in Hl. exact Hl.
  - intros (Ht & Htl & _). split; intros H; congruence.
Qed.

Lemma in_place_objects st ro rl price size p0 o :
  store_levels st !! rl = Some (mkLevel p0 [ro]) ->
  store_orders st !! ro = Some o ->
  Order_update_volume ro size (Order_update_price ro price (Level_set_price rl price st))
  = mkStore (<[ro := mkOrder (order_id o) (order_side o) price size]> (store_orders st))
      (<[rl := mkLevel price [ro]]> (store_levels st)).
Proof.
  intros Hl Ho.
  assert (Hro : (ro < length (store_orders st))%nat) by (apply lookup_lt_Some in Ho; exact Ho).
  unfold Order_update_volume, Order_update_price, Level_set_price, put_order, put_level,
    get_order, get_level.
  cbn [store_orders store_levels]. rewrite Hl, Ho. cbn [default from_option id level_orders].
  rewrite list_lookup_insert_eq by exact Hro.
  cbn [default from_option id order_id order_side order_price order_volume].
  rewrite list_insert_insert_eq. reflexivity.
Qed.

Lemma L1__update_bid_ticks_only price size b tops :
  ticks_only b tops ->
  ticks_only (L1OrderBook__update_bid price size b) (Some (price, size), snd tops).
Proof.
  intros (Hbid & Hask & Hne & Hnel). destruct tops as [vb va]. cbn [fst snd] in *.
  destruct (objects b) as [O L] eqn:Hst.
  destruct vb as [[p0 s0]|].
  - destruct Hbid as (ro & rl & o & Ht & Htl & Hls & Hl & Ho & Hp & Hs).
    unfold L1OrderBook__update_bid. rewrite Ht, Htl.
    rewrite Hst. rewrite (in_place_objects (mkStore O L) ro rl price size p0 o Hl Ho).
    cbn [store_orders store_levels] in *.
    assert (Hro : (ro < length O)%nat) by (apply lookup_lt_Some in Ho; exact Ho).
    assert (Hrl : (rl < length L)%nat) by (apply lookup_lt_Some in Hl; exact Hl).
    unfold ticks_only. proj. cbn [fst snd]. split; [|split; [|split]].
    + exists ro, rl, (mkOrder (order_id o) (order_side o) price size).
      repeat split; try assumption.
      * apply list_lookup_insert_eq. exact Hrl.
      * apply list_lookup_insert_eq. exact Hro.
    + apply top_cached_other; [exact Hask| |].
      * intros Ha. apply (Hne ro ro Ht Ha). reflexivity.
      * intros Ha. apply (Hnel rl rl Htl Ha). reflexivity.
    + exact Hne.
    + exact Hnel.
  - destruct Hbid as (Ht & Htl & Hnil).
    rewrite (L1__update_bid_first price size b O L Ht Hnil Hst).
    unfold ticks_only. unfold set_top_bid. proj. cbn [fst snd]. split; [|split; [|split]].
    + exists (length O), (length L), (mkOrder "BUY" BUY price size).
      repeat split.
      * cbn [store_levels]. rewrite lookup_app_r by lia. rewrite Nat.sub_diag. reflexivity.
      * cbn [store_orders]. rewrite lookup_app_r by lia. rewrite Nat.sub_diag. reflexivity.
    + apply top_cached_grows. exact Hask.
    + intros rb ra [= <-] Ha.
      destruct (top_cached_refs _ _ _ _ _ ra 0%nat Hask) as [Hlt _].
      specialize (Hlt Ha). cbn [store_orders] in Hlt. lia.
    + intros lb la [= <-] Ha.
      destruct (top_cached_refs _ _ _ _ _ 0%nat la Hask) as [_ Hlt].
      specialize (Hlt Ha). cbn [store_levels] in Hlt. lia.
Qed.

Lemma L1__update_ask_ticks_only price size b tops :
  ticks_only b tops ->
  ticks_only (L1OrderBook__update_ask price size b) (fst tops, Some (price, size)).
Proof.
  intros (Hbid & Hask & Hne & Hnel). destruct tops as [vb va]. cbn [fst snd] in *.
  destruct (objects b) as [O L] eqn:Hst.
  destruct va as [[p0 s0]|].
  - destruct Hask as (ro & rl & o & Ht & Htl & Hls & Hl & Ho & Hp & Hs).
    unfold L1OrderBook__update_ask. rewrite Ht, Htl.
    rewrite Hst. rewrite (in_place_objects (mkStore O L) ro rl price size p0 o Hl Ho).
    cbn [store_orders store_levels] in *.
    assert (Hro : (ro < length O)%nat) by (apply lookup_lt_Some in Ho; exact Ho).
    assert (Hrl : (rl < length L)%nat) by (apply lookup_lt_Some in Hl; exact Hl).
    unfold ticks_only. proj. cbn [fst snd]. split; [|split; [|split]].
    + apply top_cached_other; [exact Hbid| |].
      * intros Hb. apply (Hne ro ro Hb Ht). reflexivity.
      * intros Hb. apply (Hnel rl rl Hb Htl). reflexivity.
    + exists ro, rl, (mkOrder (order_id o) (order_side o) price size).
      repeat split; try assumption.
      * apply list_lookup_insert_eq. exact Hrl.
      * apply list_lookup_insert_eq. exact Hro.
    + exact Hne.
    + exact Hnel.
  - destruct Hask as (Ht & Htl & Hnil).
    rewrite (L1__update_ask_first price size b O L Ht Hnil Hst).
    unfold ticks_only. unfold set_top_ask. proj. cbn [fst snd]. split; [|split; [|split]].
    + apply top_cached_grows. exact Hbid.
    + exists (length O), (length L), (mkOrder "SELL" SELL price size).
      repeat split.
      * cbn [store_levels]. rewrite lookup_app_r by lia. rewrite Nat.sub_diag. reflexivity.
      * cbn [store_orders]. rewrite lookup_app_r by lia. rewrite Nat.sub_diag. reflexivity.
    + intros rb ra Hb [= <-].
      destruct (top_cached_refs _ _ _ _ _ rb 0%nat Hbid) as [Hlt _].
      specialize (Hlt Hb). cbn [store_orders] in Hlt. lia.
    + intros lb la Hb [= <-].
      destruct (top_cached_refs _ _ _ _ _ 0%nat lb Hbid) as [_ Hlt].
      specialize (Hlt Hb). cbn [store_levels] in Hlt. lia.
Qed.

Lemma update_top_ticks_only tick b tops :
  ticks_only b tops ->
  L1OrderBook_update_top tick b
  = (Ok tt, exec (L1OrderBook_update_top tick) b)
  /\ ticks_only (exec (L1OrderBook_update_top tick) b) (tick_tops tops tick).
Proof.
  intros Hinv. split; [destruct tick; reflexivity|].
  destruct tick as [bid ask bid_size ask_size|price size []]; unfold exec;
    cbn [L1OrderBook_update_top lift snd tick_tops].
  - unfold L1OrderBook__update_quote_tick.
    apply (L1__update_ask_ticks_only ask ask_size _ (Some (bid, bid_size), snd tops)).
    apply L1__update_bid_ticks_only. exact Hinv.
  - rewrite (proj2 (L1__update_trade_tick_is_one_sided price size b)).
    apply L1__update_ask_ticks_only. exact Hinv.
  - rewrite (proj1 (L1__update_trade_tick_is_one_sided price size b)).
    apply L1__update_bid_ticks_only. exact Hinv.
Qed.

Lemma feed_ticks_only ticks : forall b tops,
  ticks_only b tops ->
  result (for_each L1OrderBook_update_top ticks) b = Ok tt
  /\ ticks_only (exec (for_each L1OrderBook_update_top ticks) b) (fold_left tick_tops ticks tops).
Proof.
  induction ticks as [|tick ticks IH]; intros b tops Hinv; [split; [reflexivity|exact Hinv]|].
  destruct (update_top_ticks_only tick b tops Hinv) as [Hrun Hstep].
  unfold result, exec. simpl for_each. unfold bind. rewrite Hrun.
  apply IH. exact Hstep.
Qed.

Lemma ticks_only_tops b tops :
  ticks_only b tops ->
  OrderBook_best_bid_price b = fst <$> fst tops
  /\ OrderBook_best_bid_qty b = snd <$> fst tops
  /\ OrderBook_best_ask_price b = fst <$> snd tops
  /\ OrderBook_best_ask_qty b = snd <$> snd tops
  /\ L1OrderBook_check_integrity b = OrderBook__check_integrity b.
Proof.
  intros (Hbid & Hask & _). destruct tops as [vb va]. cbn [fst snd] in *.
  unfold OrderBook_best_bid_price, OrderBook_best_bid_qty, OrderBook_best_ask_price,
    OrderBook_best_ask_qty, L1OrderBook_check_integrity, Ladder_top, Ladder_depth.
  assert (Hb :
    match vb with
    | Some (p, s) => exists rl ro o, ladder_levels (bids b) = [rl]
        /\ get_level (objects b) rl = mkLevel p [ro] /\ get_order (objects b) ro = o
        /\ order_volume o = s
    | None => ladder_levels (bids b) = []
    end).
  { destruct vb as [[p s]|]; [|exact (proj2 (proj2 Hbid))].
    destruct Hbid as (ro & rl & o & _ & _ & Hls & Hl & Ho & _ & Hs).
    exists rl, ro, o. unfold get_level, get_order. rewrite Hl, Ho. auto. }
  assert (Ha :
    match va with
    | Some (p, s) => exists rl ro o, ladder_levels (asks b) = [rl]
        /\ get_level (objects b) rl = mkLevel p [ro] /\ get_order (objects b) ro = o
        /\ order_volume o = s
    | None => ladder_levels (asks b) = []
    end).
  { destruct va as [[p s]|]; [|exact (proj2 (proj2 Hask))].
    destruct Hask as (ro & rl & o & _ & _ & Hls & Hl & Ho & _ & Hs).
    exists rl, ro, o. unfold get_level, get_order. rewrite Hl, Ho. auto. }
  clear Hbid Hask.
  destruct vb as [[pb sb]|], va as [[pa sa]|];
    repeat match goal with
           | H : exists _, _ |- _ => destruct H as (? & H)
           | H : _ /\ _ |- _ => destruct H as (? & H)
           end;
    repeat match goal with
           | H : ladder_levels _ = _ |- _ => rewrite H
           end;
    cbn [take head fmap option_fmap option_map length Nat.leb negb];
    repeat match goal with
           | H : get_level _ _ = _ |- _ => rewrite H
           end;
    unfold Level_volume; cbn [level_price level_orders foldr fst snd];
    repeat match goal with
           | H : get_order _ _ = _ |- _ => rewrite H
           end;
    subst; repeat split; try (f_equal; lia);
    destruct (OrderBook__check_integrity b) as [[]|]; reflexivity.
Qed.

Lemma created_L1_ticks_only instrument lvl b :
  OrderBook_create instrument lvl = Ok (Some b) -> ticks_only b (None, None).
Proof.
  intros Hc.
  destruct (OrderBook_create_outcomes instrument lvl)
    as [(m & Hm & _)|[(m & Hm & _)|(i & l & Hok & _)]]; rewrite Hc in *; try discriminate.
  injection Hok as ->. repeat split; intros; discriminate.
Qed.

(** X8.  An L1 book that is created and then fed by [update_top] alone
    mirrors the feed: for each side the best price and the best quantity are
    the price and the size of the latest tick that spoke about the side (a
    quote about both, a trade of a SELL aggressor about the bid, of a BUY
    aggressor about the ask), and [None] while no tick spoke about it.  No
    call raises, and no side ever holds more than one level. *)
Theorem L1_book_mirrors_the_feed (instrument : option Instrument) (b : OrderBook)
    (ticks : list Tick) :
  OrderBook_create instrument (OrderBookLevel_value L1) = Ok (Some b) ->
  let b' := exec (for_each L1OrderBook_update_top ticks) b in
  result (for_each L1OrderBook_update_top ticks) b = Ok tt
  /\ OrderBook_best_bid_price b' = fst <$> fst (feed_tops ticks)
  /\ OrderBook_best_bid_qty b' = snd <$> fst (feed_tops ticks)
  /\ OrderBook_best_ask_price b' = fst <$> snd (feed_tops ticks)
  /\ OrderBook_best_ask_qty b' = snd <$> snd (feed_tops ticks)
  /\ (length (ladder_levels (bids b')) <= 1)%nat
  /\ (length (ladder_levels (asks b')) <= 1)%nat.
Proof.
  intros Hcreate. cbv zeta.
  destruct (feed_ticks_only ticks b (None, None) (created_L1_ticks_only _ _ _ Hcreate))
    as [Hok Hinv].
  fold (feed_tops ticks) in Hinv.
  destruct (ticks_only_tops _ _ Hinv) as (H1 & H2 & H3 & H4 & _).
  destruct Hinv as (Hbid & Hask & _).
  repeat split; try assumption.
  - destruct (fst (feed_tops ticks)) as [[p s]|].
    + destruct Hbid as (ro & rl & o & _ & _ & -> & _). simpl. lia.
    + destruct Hbid as (_ & _ & ->). simpl. lia.
  - destruct (snd (feed_tops ticks)) as [[p s]|].
    + destruct Hask as (ro & rl & o & _ & _ & -> & _). simpl. lia.
    + destruct Hask as (_ & _ & ->). simpl. lia.
Qed.

Lemma L1_book_mirrors_the_feed_witness :
  let ticks := [QuoteTick 10000 10100 1 1; TradeTick 9950 3 AggressorSide_SELL] in
  let b' := exec (for_each L1OrderBook_update_top ticks) (empty_book L1) in
  OrderBook_best_bid_price b' = Some 9950
  /\ OrderBook_best_bid_qty b' = Some 3
  /\ OrderBook_best_ask_price b' = Some 10100.
Proof.
  cbv zeta.
  destruct (L1_book_mirrors_the_feed (Some audusd) (empty_book L1)
              [QuoteTick 10000 10100 1 1; TradeTick 9950 3 AggressorSide_SELL] eq_refl)
    as (_ & H1 & H2 & H3 & _).
  repeat split; assumption.
Defined.

(** ** Clearing an L1 book that was fed by ticks *)

Lemma update_top_with_caches tick b rb lb ra la :
  _top_bid b = Some rb -> _top_bid_level b = Some lb ->
  _top_ask b = Some ra -> _top_ask_level b = Some la ->
  exists st, L1OrderBook_update_top tick b = (Ok tt, set_objects st b).
Proof.
  intros Hb Hbl Ha Hal.
  assert (Hbid : forall p s b0, _top_bid b0 = Some rb -> _top_bid_level b0 = Some lb ->
            exists st, L1OrderBook__update_bid p s b0 = set_objects st b0).
  { intros p s b0 H1 H2. unfold L1OrderBook__update_bid. rewrite H1, H2. eexists. reflexivity. }
  assert (Hask : forall p s b0, _top_ask b0 = Some ra -> _top_ask_level b0 = Some la ->
            exists st, L1OrderBook__update_ask p s b0 = set_objects st b0).
  { intros p s b0 H1 H2. unfold L1OrderBook__update_ask. rewrite H1, H2. eexists. reflexivity. }
  destruct tick as [bid ask bid_size ask_size|price size []];
    cbn [L1OrderBook_update_top]; unfold lift.
  - unfold L1OrderBook__update_quote_tick.
    destruct (Hbid bid bid_size b Hb Hbl) as [st1 ->].
    destruct (Hask ask ask_size (set_objects st1 b) Ha Hal) as [st2 ->].
    exists st2. reflexivity.
  - rewrite (proj2 (L1__update_trade_tick_is_one_sided price size b)).
    destruct (Hask price size b Ha Hal) as [st ->]. exists st. reflexivity.
  - rewrite (proj1 (L1__update_trade_tick_is_one_sided price size b)).
    destruct (Hbid price size b Hb Hbl) as [st ->]. exists st. reflexivity.
Qed.

(** X9.  [clear] does not reset the cached tops of an L1 book.  Once both
    sides have been fed by ticks, a cleared book stays empty under every
    further feed of ticks: [update_top] writes into the cached objects, which
    no ladder holds any more, so no level comes back and every top stays
    [None]. *)
Theorem cleared_L1_book_ignores_ticks (b : OrderBook) (ticks : list Tick)
    (rb lb ra la : ref) :
  _top_bid b = Some rb -> _top_bid_level b = Some lb ->
  _top_ask b = Some ra -> _top_ask_level b = Some la ->
  let b' := exec (for_each L1OrderBook_update_top ticks) (OrderBook_clear b) in
  result (for_each L1OrderBook_update_top ticks) (OrderBook_clear b) = Ok tt
  /\ ladder_levels (bids b') = [] /\ ladder_levels (asks b') = []
  /\ OrderBook_best_bid_price b' = None /\ OrderBook_best_ask_price b' = None
  /\ OrderBook_best_bid_qty b' = None /\ OrderBook_best_ask_qty b' = None.
Proof.
  intros Hb Hbl Ha Hal. cbv zeta.
  assert (Hrun : forall b0,
            _top_bid b0 = Some rb -> _top_bid_level b0 = Some lb ->
            _top_ask b0 = Some ra -> _top_ask_level b0 = Some la ->
            exists st, for_each L1OrderBook_update_top ticks b0 = (Ok tt, set_objects st b0)).
  { induction ticks as [|tick ticks IH]; intros b0 H1 H2 H3 H4.
    - exists (objects b0). destruct b0; reflexivity.
    - destruct (update_top_with_caches tick b0 rb lb ra la H1 H2 H3 H4) as [st1 Hst1].
      destruct (IH (set_objects st1 b0) H1 H2 H3 H4) as [st2 Hst2].
      exists st2. simpl for_each. unfold bind. rewrite Hst1, Hst2. reflexivity. }
  destruct (Hrun (OrderBook_clear b) Hb Hbl Ha Hal) as [st Hst].
  unfold result, exec. rewrite Hst. repeat split.
Qed.

Lemma cleared_L1_book_ignores_ticks_witness :
  OrderBook_best_bid_price book_after_quote = Some 10000
  /\ OrderBook_best_bid_price
       (exec (for_each L1OrderBook_update_top [QuoteTick 10200 10300 1 1])
          (OrderBook_clear book_after_quote)) = None.
Proof.
  split; [reflexivity|].
  destruct (cleared_L1_book_ignores_ticks book_after_quote [QuoteTick 10200 10300 1 1]
              0%nat 0%nat 1%nat 1%nat eq_refl eq_refl eq_refl eq_refl)
    as (_ & _ & _ & H & _).
  exact H.
Defined.

(** ** Snapshots of an L1 book *)

Lemma for_each_invariant {A} (P : OrderBook -> Prop) (body : A -> M unit) xs :
  (forall x b, P b -> result (body x) b = Ok tt /\ P (exec (body x) b)) ->
  forall b, P b ->
  result (for_each body xs) b = Ok tt /\ P (exec (for_each body xs) b).
Proof.
  intros Hbody. induction xs as [|x xs IH]; intros b Hb; [split; [reflexivity|exact Hb]|].
  destruct (Hbody x b Hb) as [Hok Hstep].
  unfold result, exec in *. simpl for_each. unfold bind.
  destruct (body x b) as [[[]|e] b1]; [|discriminate].
  apply IH. exact Hstep.
Qed.

Lemma L1_sound_update order b :
  L1_sound b ->
  result (self_update order) b = Ok tt /\ L1_sound (exec (self_update order) b).
Proof.
  intros (Hl & Hs & _). split; [apply self_update_ok|].
  destruct (self_update_header order b) as (Hl' & _).
  split; [congruence|].
  assert (He : exec (self_update order) b = exec (L1OrderBook_update order) b).
  { unfold exec, self_update. rewrite Hl. reflexivity. }
  rewrite He. destruct (L1_update_integrity b order Hs) as [Hi Hs']. split; assumption.
Qed.

Lemma L1_update_sets_top order b :
  L1_structure b = true ->
  let b' := exec (L1OrderBook_update order) b in
  match order_side order with
  | BUY => OrderBook_best_bid_price b' = Some (order_price order)
           /\ OrderBook_best_bid_qty b' = Some (order_volume order)
  | SELL => OrderBook_best_ask_price b' = Some (order_price order)
            /\ OrderBook_best_ask_qty b' = Some (order_volume order)
  end.
Proof.
  unfold L1_structure. intros Hinv. apply andb_true_iff in Hinv as [Hbid Hask]. cbv zeta.
  destruct (objects b) as [O L] eqn:Hst.
  destruct (order_side order) eqn:Hs.
  - destruct (L1_update_BUY order b O L Hst Hs Hbid) as (L' & rl' & -> & Hnew & _).
    unfold OrderBook_best_bid_price, OrderBook_best_bid_qty. proj.
    rewrite Ladder_top_singleton. unfold get_level, Level_volume. cbn [store_levels].
    rewrite Hnew. cbn [default from_option id level_price level_orders foldr].
    rewrite get_order_last. cbn [order_volume]. split; [reflexivity|f_equal; lia].
  - destruct (L1_update_SELL order b O L Hst Hs Hask) as (L' & rl' & -> & Hnew & _).
    unfold OrderBook_best_ask_price, OrderBook_best_ask_qty. proj.
    rewrite Ladder_top_singleton. unfold get_level, Level_volume. cbn [store_levels].
    rewrite Hnew. cbn [default from_option id level_price level_orders foldr].
    rewrite get_order_last. cbn [order_volume]. split; [reflexivity|f_equal; lia].
Qed.

Lemma L1_sound_check b : L1_sound b -> L1OrderBook_check_integrity b = Ok tt.
Proof.
  intros (_ & Hs & Hi). unfold L1OrderBook_check_integrity. rewrite Hi.
  unfold L1_structure in Hs. apply andb_true_iff in Hs as [Hbid Hask].
  destruct (l1_side_ok_cases _ _ _ Hbid) as [->|(rl & ? & ? & ? & -> & _)];
    destruct (l1_side_ok_cases _ _ _ Hask) as [->|(rl' & ? & ? & ? & -> & _)]; reflexivity.
Qed.

(** X10.  [apply_snapshot] on an L1 book, with a snapshot of level L1, never
    raises, whatever the book held before and whatever the snapshot lists:
    afterwards the book passes the L1 integrity check (at most one level per
    side, tops not crossed) and carries the timestamp of the snapshot.  Of
    several asks only the last one listed rests in the book: the best ask is
    its price and the best ask quantity its volume. *)
Theorem L1_snapshot_leaves_sound_book (b : OrderBook) (s : OrderBookSnapshot) :
  level b = L1 -> snapshot_level s = L1 ->
  let b' := exec (OrderBook_apply_snapshot s) b in
  result (OrderBook_apply_snapshot s) b = Ok tt
  /\ L1OrderBook_check_integrity b' = Ok tt
  /\ last_update_timestamp_ns b' = snapshot_timestamp_ns s
  /\ (forall asks_before ask,
        snapshot_asks s = asks_before ++ [ask] ->
        OrderBook_best_ask_price b' = Some (fst ask)
        /\ OrderBook_best_ask_qty b' = Some (snd ask)).
Proof.
  intros Hl Hsl. cbv zeta.
  unfold result, exec. rewrite OrderBook_apply_snapshot_cases.
  rewrite bool_decide_eq_true_2 by congruence.
  assert (H0 : L1_sound (OrderBook_clear b)).
  { split; [exact Hl|]. split; reflexivity. }
  unfold snapshot_body, bind.
  destruct (for_each_invariant L1_sound
              (fun bid b' => self_update (Order_new (fst bid) (snd bid) BUY b') b')
              (snapshot_bids s)
              (fun x b0 H => L1_sound_update _ b0 H) _ H0) as [Hok1 H1].
  unfold result, exec in Hok1, H1.
  destruct (for_each _ (snapshot_bids s) (OrderBook_clear b)) as [[[]|e] b1]; [|discriminate].
  cbn [snd] in H1.
  destruct (for_each_invariant L1_sound
              (fun ask b' => self_update (Order_new (fst ask) (snd ask) SELL b') b')
              (snapshot_asks s)
              (fun x b0 H => L1_sound_update _ b0 H) _ H1) as [Hok2 H2].
  unfold result, exec in Hok2, H2.
  assert (Hlast : forall asks_before ask,
            snapshot_asks s = asks_before ++ [ask] ->
            OrderBook_best_ask_price
              (snd (for_each
                      (fun ask b' => self_update (Order_new (fst ask) (snd ask) SELL b') b')
                      (snapshot_asks s) b1)) = Some (fst ask)
            /\ OrderBook_best_ask_qty
                 (snd (for_each
                         (fun ask b' => self_update (Order_new (fst ask) (snd ask) SELL b') b')
                         (snapshot_asks s) b1)) = Some (snd ask)).
  { intros pre ask Hasks. rewrite Hasks, for_each_app.
    destruct (for_each_invariant L1_sound
                (fun ask b' => self_update (Order_new (fst ask) (snd ask) SELL b') b')
                pre (fun x b0 H => L1_sound_update _ b0 H) _ H1) as [Hok3 H3].
    unfold result, exec in Hok3, H3.
    destruct (for_each _ pre b1) as [[[]|e] b3]; [|discriminate].
    cbn [snd] in H3. simpl for_each. unfold bind.
    pose proof (self_update_ok (Order_new (fst ask) (snd ask) SELL b3) b3) as Hok4.
    unfold result in Hok4.
    assert (He : self_update (Order_new (fst ask) (snd ask) SELL b3) b3
                 = L1OrderBook_update (Order_new (fst ask) (snd ask) SELL b3) b3).
    { unfold self_update. rewrite (proj1 H3). reflexivity. }
    rewrite He in *.
    pose proof (L1_update_sets_top (Order_new (fst ask) (snd ask) SELL b3) b3
                  (proj1 (proj2 H3))) as Htop.
    cbv zeta in Htop. cbn [order_side Order_new order_price order_volume] in Htop.
    unfold exec in Htop.
    destruct (L1OrderBook_update _ b3) as [[[]|e] b4]; [|discriminate].
    exact Htop. }
  destruct (for_each _ (snapshot_asks s) b1) as [[[]|e] b2]; [|discriminate].
  cbn [snd fst lift ret] in *.
  split; [reflexivity|]. split; [|split; [reflexivity|]].
  - apply L1_sound_check. destruct H2 as (Hl2 & Hs2 & Hi2).
    split; [exact Hl2|]. split; assumption.
  - exact Hlast.
Qed.

Lemma L1_snapshot_leaves_sound_book_witness :
  let b' := exec (OrderBook_apply_snapshot snapshot_of_two_asks) book_after_ticks in
  L1OrderBook_check_integrity b' = Ok tt
  /\ OrderBook_best_ask_price b' = Some 10300
  /\ OrderBook_best_ask_qty b' = Some 4.
Proof.
  cbv zeta.
  destruct (L1_snapshot_leaves_sound_book book_after_ticks snapshot_of_two_asks
              eq_refl eq_refl) as (_ & Hcheck & _ & Hlast).
  destruct (Hlast [(10100, 2)] (10300, 4) eq_refl) as [Hp Hq].
  repeat split; assumption.
Defined.

(** ** L1: deleting *)







(** ** L2: add, then delete at the same price *)

Lemma L2OrderBook_delete_exec order b O L :
  objects b = mkStore O L ->
  order_side order = BUY ->
  exec (L2OrderBook_delete order) b
  = on_bids (Ladder_delete (length O))
      (set_objects
         (mkStore (O ++ [mkOrder (format_fixed (price_precision b) (order_price order))
                           BUY (order_price order) (order_volume order)]) L) b).
Proof.
  intros Hst Hside.
  unfold exec, L2OrderBook_delete, new_object, alloc_order. rewrite Hst. proj.
  unfold L2OrderBook__process_order. proj.
  rewrite get_order_last, Order_set_id_new, Hside.
  unfold OrderBook__delete. proj. rewrite get_order_last. proj. reflexivity.
Qed.

Lemma resolve_extends st st' lad :
  extends st st' -> ladder_wf st lad = true -> resolve st' lad = resolve st lad.
Proof.
  intros He Hwf. unfold resolve. apply map_ext_in. intros rl Hin.
  destruct (ladder_wf_spec _ _ _ Hwf Hin) as [Hrl Hro].
  rewrite (extends_get_level _ _ _ He Hrl). f_equal.
  apply map_ext_in. intros ro Hin'. apply (extends_get_order _ _ _ He). auto.
Qed.

(** X12.  On an L2 book whose bid side has no level at [p] and no order that
    carries the formatted price of [p] as its id, [add] of a BUY order at [p]
    followed by [delete] of a BUY order at [p] gives back the bid side as it
    was, level by level and order by order; the ids and the volumes of the
    two orders play no part, and the ask side is not touched. *)
Theorem L2_add_then_delete_restores_side (b : OrderBook) (p v1 v2 : Z) (id1 id2 : string) :
  ladder_wf (objects b) (bids b) = true ->
  price_in p (Ladder_prices (objects b) (bids b)) = false ->
  Ladder_holds_id (objects b) (format_fixed (price_precision b) p) (bids b) = false ->
  let b1 := exec (L2OrderBook_add (mkOrder id1 BUY p v1)) b in
  let b2 := exec (L2OrderBook_delete (mkOrder id2 BUY p v2)) b1 in
  price_in p (Ladder_prices (objects b1) (bids b1)) = true
  /\ ladder_levels (bids b2) = ladder_levels (bids b)
  /\ resolve (objects b2) (bids b2) = resolve (objects b) (bids b)
  /\ asks b2 = asks b
  /\ price_in p (Ladder_prices (objects b2) (bids b2)) = false.
Proof.
  intros Hwf Hp Hid. cbv zeta.
  destruct (objects b) as [O L] eqn:Hst.
  set (f := format_fixed (price_precision b) p) in *.
  set (o1 := mkOrder f BUY p v1).
  set (o2 := mkOrder f BUY p v2).
  assert (H1 : exec (L2OrderBook_add (mkOrder id1 BUY p v1)) b
               = set_objects (mkStore (O ++ [o1]) (L ++ [mkLevel p [length O]]))
                   (set_bids
                      (Ladder_with_levels (bids b)
                         (insert_level (mkStore (O ++ [o1]) L) (ladder_reverse (bids b)) p
                            (length L) (ladder_levels (bids b))))
                      (set_objects (mkStore (O ++ [o1]) L) b))).
  { rewrite (L2OrderBook_add_exec (mkOrder id1 BUY p v1) b O L Hst eq_refl).
    cbn [order_price order_volume]. fold f. unfold o1.
    unfold on_bids. proj.
    rewrite (replace_step_add O L (bids b) f p v1 Hwf Hp). reflexivity. }
  rewrite H1. clear H1. set (b1 := set_objects _ _).
  assert (Hst1 : objects b1 = mkStore (O ++ [o1]) (L ++ [mkLevel p [length O]]))
    by reflexivity.
  assert (H2 : exec (L2OrderBook_delete (mkOrder id2 BUY p v2)) b1
               = set_objects (mkStore ((O ++ [o1]) ++ [o2]) (L ++ [mkLevel p []]))
                   (set_bids (Ladder_with_levels (bids b) (ladder_levels (bids b))) b1)).
  { rewrite (L2OrderBook_delete_exec (mkOrder id2 BUY p v2) b1 _ _ Hst1 eq_refl).
    cbn [order_price order_volume].
    change (price_precision b1) with (price_precision b). fold f.
    unfold on_bids. subst b1. unfold o1, o2. proj.
    rewrite (replace_step_delete O L (bids b) f p v1 v2 Hwf Hid _ eq_refl). reflexivity. }
  rewrite H2. clear H2. proj.
  assert (He : extends (mkStore O L)
                 (mkStore ((O ++ [o1]) ++ [o2]) (L ++ [mkLevel p []]))).
  { exists ([o1] ++ [o2]), [mkLevel p []].
    cbn [store_orders store_levels]. rewrite <- app_assoc. split; reflexivity. }
  split; [|split; [reflexivity|split; [|split; [reflexivity|]]]].
  - subst b1. proj. apply price_in_inserted. rewrite get_level_last. reflexivity.
  - rewrite <- (resolve_extends _ _ (bids b) He Hwf). reflexivity.
  - rewrite <- Hp. unfold price_in, Ladder_prices. proj. f_equal.
    apply map_ext_in. intros rl Hin.
    destruct (ladder_wf_spec _ _ _ Hwf Hin) as [Hrl _].
    rewrite (extends_get_level _ _ _ He Hrl). reflexivity.
Qed.

Lemma L2_add_then_delete_restores_side_witness :
  resolve
    (objects (exec (L2OrderBook_delete (mkOrder "9" BUY 10000 7))
                (exec (L2OrderBook_add (mkOrder "8" BUY 10000 5)) book_after_adds)))
    (bids (exec (L2OrderBook_delete (mkOrder "9" BUY 10000 7))
             (exec (L2OrderBook_add (mkOrder "8" BUY 10000 5)) book_after_adds)))
  = [(9900, [mkOrder "99.00" BUY 9900 3])].
Proof.
  destruct (L2_add_then_delete_restores_side book_after_adds 10000 5 7 "8" "9"
              eq_refl eq_refl eq_refl) as (_ & _ & H & _).
  rewrite H. reflexivity.
Defined.

(** * Further properties of the Redis execution database *)

(** ** Keys *)

Lemma string_app_cons (x : ascii) (a b : string) :
  (String x a ++ b = String x (a ++ b))%string.
Proof. reflexivity. Qed.

Lemma string_app_assoc (a b c : string) : ((a ++ b) ++ c = a ++ (b ++ c))%string.
Proof.
  induction a as [|x a IH]; [reflexivity|]. rewrite !string_app_cons. f_equal. exact IH.
Qed.

Lemma string_app_inv_head (p a b : string) : (p ++ a = p ++ b)%string -> a = b.
Proof.
  induction p as [|x p IH]; [exact id|]. rewrite !string_app_cons. intros [= Heq].
  exact (IH Heq).
Qed.

Lemma string_app_length (a b : string) :
  String.length (a ++ b) = (String.length a + String.length b)%nat.
Proof.
  induction a as [|x a IH]; [reflexivity|]. rewrite string_app_cons. cbn [String.length].
  rewrite IH. reflexivity.
Qed.

Lemma string_app_inv_tail (a b t : string) : (a ++ t = b ++ t)%string -> a = b.
Proof.
  revert b. induction a as [|x a IH]; intros [|y b] Heq.
  - reflexivity.
  - apply (f_equal String.length) in Heq. rewrite !string_app_length in Heq.
    cbn [String.length] in Heq. lia.
  - apply (f_equal String.length) in Heq. rewrite !string_app_length in Heq.
    cbn [String.length] in Heq. lia.
  - rewrite !string_app_cons in Heq. injection Heq as -> Heq. f_equal. exact (IH b Heq).
Qed.

(** The key spaces of accounts, orders, positions and strategies are
    disjoint. *)
Lemma keys_disjoint db (i j : string) :
  (_key_orders db ++ i)%string <> (_key_positions db ++ j)%string
  /\ (_key_orders db ++ i)%string <> (_key_accounts db ++ j)%string
  /\ (_key_positions db ++ i)%string <> (_key_accounts db ++ j)%string
  /\ (_key_strategies db ++ i)%string <> (_key_orders db ++ j)%string
  /\ (_key_strategies db ++ i)%string <> (_key_positions db ++ j)%string
  /\ (_key_strategies db ++ i)%string <> (_key_accounts db ++ j)%string.
Proof.
  unfold _key_orders, _key_positions, _key_accounts, _key_strategies.
  repeat split; rewrite !string_app_assoc; intros Heq;
    apply string_app_inv_head in Heq; discriminate.
Qed.

Lemma lrange_rpush name value redis k :
  Redis_lrange_all k (snd (Redis_rpush name value redis))
  = if decide (k = name) then Redis_lrange_all name redis ++ [value]
    else Redis_lrange_all k redis.
Proof.
  unfold Redis_rpush, Redis_lrange_all. cbn [snd].
  destruct (decide (k = name)) as [->|Hne].
  - rewrite lookup_insert_eq. reflexivity.
  - rewrite lookup_insert_ne by congruence. reflexivity.
Qed.

Section RedisFurther.
Context `{EventSerializer} `{!Aggregates}.

(** ** What a call writes *)

(** Every [add_*] and [update_*] pushes the serialized last event to the key
    of the entity and writes nothing else. *)
Lemma calls_push db (order : BaseOrder) (position : Position) (account : Account) :
  let pushed key event d' :=
    trader_id d' = trader_id db
    /\ _redis d' = snd (Redis_rpush key (serialize event) (_redis db)) in
  pushed (_key_orders db ++ Order_client_order_id order)%string (Order_last_event_c order)
    (Redis_add_order order db)
  /\ pushed (_key_orders db ++ Order_client_order_id order)%string (Order_last_event_c order)
       (Redis_update_order order db)
  /\ pushed (_key_positions db ++ Position_id position)%string
       (Position_last_event_c position) (Redis_add_position position db)
  /\ pushed (_key_positions db ++ Position_id position)%string
       (Position_last_event_c position) (Redis_update_position position db)
  /\ pushed (_key_accounts db ++ Account_id account)%string (Account_last_event_c account)
       (Redis_add_account account db)
  /\ pushed (_key_accounts db ++ Account_id account)%string (Account_last_event_c account)
       (Redis_update_account account db).
Proof.
  cbv zeta.
  unfold Redis_add_order, Redis_update_order, Redis_add_position, Redis_update_position,
    Redis_add_account, Redis_update_account.
  repeat split;
    match goal with
    | |- context [Redis_rpush ?k ?v ?r] => destruct (Redis_rpush k v r) as [reply redis]
    end; cbn [snd]; repeat case_match; reflexivity.
Qed.

(** A load reads the trader id and the list under the key of the entity. *)
Lemma loads_read_own_key db db' :
  trader_id db' = trader_id db ->
  (forall id,
     Redis_lrange_all (_key_orders db ++ id) (_redis db')
     = Redis_lrange_all (_key_orders db ++ id) (_redis db) ->
     Redis_load_order id db' = Redis_load_order id db)
  /\ (forall id,
        Redis_lrange_all (_key_positions db ++ id) (_redis db')
        = Redis_lrange_all (_key_positions db ++ id) (_redis db) ->
        Redis_load_position id db' = Redis_load_position id db)
  /\ (forall id,
        Redis_lrange_all (_key_accounts db ++ id) (_redis db')
        = Redis_lrange_all (_key_accounts db ++ id) (_redis db) ->
        Redis_load_account id db' = Redis_load_account id db).
Proof.
  intros Ht.
  unfold Redis_load_order, Redis_load_position, Redis_load_account,
    _key_orders, _key_positions, _key_accounts, _key_trader.
  rewrite Ht. repeat split; intros id ->; reflexivity.
Qed.

Lemma apply_events_snoc {T} (apply : T -> Event -> outcome T) events event : forall entity,
  apply_events apply entity (events ++ [event])
  = match apply_events apply entity events with
    | Ok entity' => apply entity' (deserialize event)
    | Raise e => Raise e
    end.
Proof.
  induction events as [|ev events IH]; intros entity; simpl.
  - destruct (apply entity (deserialize event)); reflexivity.
  - destruct (apply entity (deserialize ev)); [apply IH|reflexivity].
Qed.

(** ** Accounts never log an integrity error *)

(** X13.  [add_account] and [update_account] never log an error, whatever
    the key held before: [add_account] tests the length of the reply of its
    pipeline, which is the list of the one reply of the one queued push, and
    [update_account] tests nothing.  Adding the same account a second time
    is not reported, unlike adding an order a second time. *)
Theorem account_calls_log_no_error (db : RedisExecutionDatabase) (account : Account) :
  errors_logged (Redis_add_account account db) = errors_logged db
  /\ errors_logged (Redis_update_account account db) = errors_logged db
  /\ ~ integrity_error_logged db (Redis_add_account account db)
  /\ ~ integrity_error_logged db (Redis_update_account account db)
  /\ ~ integrity_error_logged (Redis_add_account account db)
         (Redis_add_account account (Redis_add_account account db)).
Proof.
  assert (Hadd : forall d, errors_logged (Redis_add_account account d) = errors_logged d).
  { intros d. unfold Redis_add_account. destruct (Redis_rpush _ _ _) as [n redis].
    cbn [length Z.of_nat Pos.of_succ_nat Z.ltb Z.compare Pos.compare Pos.compare_cont].
    rewrite errors_logged_log_record. cbn. apply app_nil_r. }
  assert (Hupd : errors_logged (Redis_update_account account db) = errors_logged db).
  { unfold Redis_update_account. destruct (Redis_rpush _ _ _) as [n redis].
    rewrite errors_logged_log_record. cbn. apply app_nil_r. }
  unfold integrity_error_logged. rewrite !Hadd, Hupd. repeat split; lia.
Qed.

(** ** Adding and loading *)

(** X14.  With a serializer that reads back what it wrote, an entity added
    under a key that held nothing loads back as the entity its last event
    builds: an order whose last event is its [OrderInitialized] as the order
    class of its type (or the error of an invalid type), a position whose
    last event is a fill as the position opened by the fill, an account as
    the account of its state. *)
Theorem added_entity_loads_back (db : RedisExecutionDatabase)
    (order : BaseOrder) (position : Position) (account : Account) :
  (forall event, deserialize (serialize event) = event) ->
  (forall init,
     Redis_lrange_all (_key_orders db ++ Order_client_order_id order) (_redis db) = [] ->
     Order_last_event_c order = EvOrderInitialized init ->
     Redis_load_order (Order_client_order_id order) (Redis_add_order order db)
     = found (Order_of_initialized init))
  /\ (forall fill,
        Redis_lrange_all (_key_positions db ++ Position_id position) (_redis db) = [] ->
        Position_last_event_c position = EvOrderFilled fill ->
        Redis_load_position (Position_id position) (Redis_add_position position db)
        = Ok (Some (Position_init fill)))
  /\ (forall state,
        Redis_lrange_all (_key_accounts db ++ Account_id account) (_redis db) = [] ->
        Account_last_event_c account = EvAccountState state ->
        Redis_load_account (Account_id account) (Redis_add_account account db)
        = Ok (Some (Account_init state))).
Proof.
  intros Hrt.
  destruct (calls_push db order position account)
    as ((Ht1 & Hr1) & _ & (Ht2 & Hr2) & _ & (Ht3 & Hr3) & _).
  split; [|split].
  - intros init Hnil Hev. unfold Redis_load_order, _key_orders, _key_trader.
    rewrite Ht1, Hr1. fold (_key_trader db). fold (_key_orders db).
    rewrite lrange_rpush, decide_True by reflexivity.
    rewrite Hnil, Hev. cbn [app]. rewrite Hrt.
    unfold Order_of_initialized. destruct (order_type init); reflexivity.
  - intros fill Hnil Hev. unfold Redis_load_position, _key_positions, _key_trader.
    rewrite Ht2, Hr2. fold (_key_trader db). fold (_key_positions db).
    rewrite lrange_rpush, decide_True by reflexivity.
    rewrite Hnil, Hev. cbn [app]. rewrite Hrt. reflexivity.
  - intros state Hnil Hev. unfold Redis_load_account, _key_accounts, _key_trader.
    rewrite Ht3, Hr3. fold (_key_trader db). fold (_key_accounts db).
    rewrite lrange_rpush, decide_True by reflexivity.
    rewrite Hnil, Hev. cbn [app]. rewrite Hrt. reflexivity.
Qed.

(** X15.  Event sourcing composes: with a serializer that reads back what it
    wrote, loading after an [update] is loading before it and applying the
    last event of the updated entity, for every key that held events; a load
    that raised before the update raises the same after it. *)
Theorem update_is_one_more_apply (db : RedisExecutionDatabase)
    (order : BaseOrder) (position : Position) (account : Account) :
  (forall event, deserialize (serialize event) = event) ->
  (Redis_lrange_all (_key_orders db ++ Order_client_order_id order) (_redis db) <> [] ->
   Redis_load_order (Order_client_order_id order) (Redis_update_order order db)
   = apply_loaded Order_apply (Redis_load_order (Order_client_order_id order) db)
       (Order_last_event_c order))
  /\ (Redis_lrange_all (_key_positions db ++ Position_id position) (_redis db) <> [] ->
      Redis_load_position (Position_id position) (Redis_update_position position db)
      = apply_loaded Position_apply (Redis_load_position (Position_id position) db)
          (Position_last_event_c position))
  /\ (Redis_lrange_all (_key_accounts db ++ Account_id account) (_redis db) <> [] ->
      Redis_load_account (Account_id account) (Redis_update_account account db)
      = apply_loaded Account_apply (Redis_load_account (Account_id account) db)
          (Account_last_event_c account)).
Proof.
  intros Hrt.
  destruct (calls_push db order position account)
    as (_ & (Ht1 & Hr1) & _ & (Ht2 & Hr2) & _ & (Ht3 & Hr3)).
  split; [|split].
  - intros Hne. unfold Redis_load_order at 1. unfold _key_orders at 1, _key_trader.
    rewrite Ht1, Hr1. fold (_key_trader db). fold (_key_orders db).
    rewrite lrange_rpush, decide_True by reflexivity.
    unfold Redis_load_order.
    destruct (Redis_lrange_all _ (_redis db)) as [|first rest]; [contradiction|].
    cbn [app]. destruct (deserialize first); try reflexivity.
    destruct (order_type e); try reflexivity;
      rewrite apply_events_snoc, Hrt;
      destruct (apply_events Order_apply _ rest); reflexivity.
  - intros Hne. unfold Redis_load_position at 1. unfold _key_positions at 1, _key_trader.
    rewrite Ht2, Hr2. fold (_key_trader db). fold (_key_positions db).
    rewrite lrange_rpush, decide_True by reflexivity.
    unfold Redis_load_position.
    destruct (Redis_lrange_all _ (_redis db)) as [|first rest]; [contradiction|].
    cbn [app]. destruct (deserialize first); try reflexivity.
    rewrite apply_events_snoc, Hrt.
    destruct (apply_events Position_apply _ rest); reflexivity.
  - intros Hne. unfold Redis_load_account at 1. unfold _key_accounts at 1, _key_trader.
    rewrite Ht3, Hr3. fold (_key_trader db). fold (_key_accounts db).
    rewrite lrange_rpush, decide_True by reflexivity.
    unfold Redis_load_account.
    destruct (Redis_lrange_all _ (_redis db)) as [|first rest]; [contradiction|].
    cbn [app]. destruct (deserialize first); try reflexivity.
    rewrite apply_events_snoc, Hrt.
    destruct (apply_events Account_apply _ rest); reflexivity.
Qed.

(** ** Entities do not interfere *)

Lemma push_keeps_other_loads db db' key event :
  trader_id db' = trader_id db ->
  _redis db' = snd (Redis_rpush key event (_redis db)) ->
  (forall id, (_key_orders db ++ id)%string <> key ->
     Redis_load_order id db' = Redis_load_order id db)
  /\ (forall id, (_key_positions db ++ id)%string <> key ->
        Redis_load_position id db' = Redis_load_position id db)
  /\ (forall id, (_key_accounts db ++ id)%string <> key ->
        Redis_load_account id db' = Redis_load_account id db).
Proof.
  intros Ht Hr. destruct (loads_read_own_key db db' Ht) as (Ho & Hp & Ha).
  repeat split; intros id Hne; [apply Ho|apply Hp|apply Ha];
    rewrite Hr, lrange_rpush, decide_False by exact Hne; reflexivity.
Qed.

(** X16.  Accounts, orders and positions live under disjoint keys: adding or
    updating an order changes no load of a position, of an account or of an
    order with another id; likewise for positions and for accounts. *)
Theorem entities_do_not_interfere (db db' : RedisExecutionDatabase)
    (order : BaseOrder) (position : Position) (account : Account) :
  (db' = Redis_add_order order db \/ db' = Redis_update_order order db ->
   (forall id, Redis_load_position id db' = Redis_load_position id db)
   /\ (forall id, Redis_load_account id db' = Redis_load_account id db)
   /\ (forall id, id <> Order_client_order_id order ->
         Redis_load_order id db' = Redis_load_order id db))
  /\ (db' = Redis_add_position position db \/ db' = Redis_update_position position db ->
      (forall id, Redis_load_order id db' = Redis_load_order id db)
      /\ (forall id, Redis_load_account id db' = Redis_load_account id db)
      /\ (forall id, id <> Position_id position ->
            Redis_load_position id db' = Redis_load_position id db))
  /\ (db' = Redis_add_account account db \/ db' = Redis_update_account account db ->
      (forall id, Redis_load_order id db' = Redis_load_order id db)
      /\ (forall id, Redis_load_position id db' = Redis_load_position id db)
      /\ (forall id, id <> Account_id account ->
            Redis_load_account id db' = Redis_load_account id db)).
Proof.
  destruct (calls_push db order position account)
    as ((Ht1 & Hr1) & (Ht2 & Hr2) & (Ht3 & Hr3) & (Ht4 & Hr4) & (Ht5 & Hr5) & (Ht6 & Hr6)).
  split; [|split].
  - intros Hdb.
    assert (Hpush : trader_id db' = trader_id db
                    /\ _redis db' = snd (Redis_rpush
                                           (_key_orders db ++ Order_client_order_id order)
                                           (serialize (Order_last_event_c order)) (_redis db)))
      by (destruct Hdb as [-> | ->]; split; assumption).
    destruct (push_keeps_other_loads db db' _ _ (proj1 Hpush) (proj2 Hpush)) as (Ho & Hp & Ha).
    repeat split; intros id.
    + apply Hp. intros Heq. symmetry in Heq. apply (keys_disjoint db _ _) in Heq. exact Heq.
    + apply Ha. intros Heq. symmetry in Heq. apply (keys_disjoint db _ _) in Heq. exact Heq.
    + intros Hne. apply Ho. intros Heq. apply string_app_inv_head in Heq. contradiction.
  - intros Hdb.
    assert (Hpush : trader_id db' = trader_id db
                    /\ _redis db' = snd (Redis_rpush
                                           (_key_positions db ++ Position_id position)
                                           (serialize (Position_last_event_c position))
                                           (_redis db)))
      by (destruct Hdb as [-> | ->]; split; assumption).
    destruct (push_keeps_other_loads db db' _ _ (proj1 Hpush) (proj2 Hpush)) as (Ho & Hp & Ha).
    repeat split; intros id.
    + apply Ho. intros Heq. apply (keys_disjoint db _ _) in Heq. exact Heq.
    + apply Ha. intros Heq. symmetry in Heq. apply (keys_disjoint db _ _) in Heq. exact Heq.
    + intros Hne. apply Hp. intros Heq. apply string_app_inv_head in Heq. contradiction.
  - intros Hdb.
    assert (Hpush : trader_id db' = trader_id db
                    /\ _redis db' = snd (Redis_rpush
                                           (_key_accounts db ++ Account_id account)
                                           (serialize (Account_last_event_c account))
                                           (_redis db)))
      by (destruct Hdb as [-> | ->]; split; assumption).
    destruct (push_keeps_other_loads db db' _ _ (proj1 Hpush) (proj2 Hpush)) as (Ho & Hp & Ha).
    repeat split; intros id.
    + apply Ho. intros Heq. apply (keys_disjoint db _ _) in Heq. exact Heq.
    + apply Hp. intros Heq. apply (keys_disjoint db _ _) in Heq. exact Heq.
    + intros Hne. apply Ha. intros Heq. apply string_app_inv_head in Heq. contradiction.
Qed.

End RedisFurther.

Lemma text_serializer_reads_back (event : @Event text_events) :
  @deserialize text_events text_serializer (@serialize text_events text_serializer event)
  = event.
Proof. destruct event; reflexivity. Qed.

Lemma added_entity_loads_back_witness :
  @Redis_load_order text_events text_serializer journal_aggregates "O-1"
    (@Redis_add_order text_events text_serializer journal_aggregates limit_order
       empty_database)
  = Ok (Some limit_order).
Proof.
  destruct (@added_entity_loads_back text_events text_serializer journal_aggregates
              empty_database limit_order [] [] text_serializer_reads_back)
    as (Horder & _).
  exact (Horder "LIMIT" eq_refl eq_refl).
Defined.

Lemma update_is_one_more_apply_witness :
  let order : @BaseOrder text_events journal_aggregates :=
    ("LimitOrder", [@EvOrderInitialized text_events "LIMIT"; @EvOrderFilled text_events "10";
                    @EvOrderFilled text_events "20"]) in
  @Redis_load_order text_events text_serializer journal_aggregates "O-1"
    (@Redis_update_order text_events text_serializer journal_aggregates order
       database_with_order)
  = Ok (Some order).
Proof.
  cbv zeta.
  destruct (@update_is_one_more_apply text_events text_serializer journal_aggregates
              database_with_order
              ("LimitOrder", [@EvOrderInitialized text_events "LIMIT";
                              @EvOrderFilled text_events "10";
                              @EvOrderFilled text_events "20"]) [] []
              text_serializer_reads_back)
    as (Horder & _).
  apply Horder. discriminate.
Defined.

Lemma entities_do_not_interfere_witness :
  @Redis_load_order text_events text_serializer journal_aggregates "O-2"
    (@Redis_update_order text_events text_serializer journal_aggregates limit_order
       database_with_order)
  = Ok None
  /\ @Redis_load_position text_events text_serializer journal_aggregates "O-1"
       (@Redis_update_order text_events text_serializer journal_aggregates limit_order
          database_with_order)
     = Ok None.
Proof.
  destruct (@entities_do_not_interfere text_events text_serializer journal_aggregates
              database_with_order
              (@Redis_update_order text_events text_serializer journal_aggregates limit_order
                 database_with_order)
              limit_order [] []) as (Horder & _).
  destruct Horder as (Hp & _ & Ho); [right; reflexivity|].
  split.
  - apply (Ho "O-2"). discriminate.
  - apply (Hp "O-1").
Defined.

(** ** Flushing, and the states of the strategies *)

Section RedisServer.
Context `{EventSerializer} `{!Aggregates}.

(** X17.  After [flush] nothing is left: every account, order and position
    loads as [None] and every strategy state as the empty dictionary,
    whatever was stored; the trader id is kept and no error is logged. *)
Theorem flush_forgets_everything (db : RedisServerDatabase) (id : string) :
  Redis_load_account id (entities (Redis_flush db)) = Ok None
  /\ Redis_load_order id (entities (Redis_flush db)) = Ok None
  /\ Redis_load_position id (entities (Redis_flush db)) = Ok None
  /\ Redis_load_strategy id (Redis_flush db) = ∅
  /\ trader_id (entities (Redis_flush db)) = trader_id (entities db)
  /\ errors_logged (entities (Redis_flush db)) = errors_logged (entities db)
  /\ _redis (entities (Redis_flush (Redis_flush db))) = _redis (entities (Redis_flush db)).
Proof.
  repeat split.
  unfold errors_logged, Redis_flush, server_log, Redis_flushdb, log_record, set_redis.
  cbn [entities _log]. rewrite !filter_app. cbn. rewrite !app_nil_r. reflexivity.
Qed.

End RedisServer.

Lemma hset_items name log_item items : forall db,
  let db' :=
    fold_left
      (fun d item =>
         server_log DEBUG (log_item item)
           (mkRedisServer (entities d)
              (Redis_hset name (fst item) (snd item) (_redis_hashes d))))
      items db in
  Redis_hgetall name (_redis_hashes db') = written items ∪ Redis_hgetall name (_redis_hashes db)
  /\ (forall other, other <> name ->
        Redis_hgetall other (_redis_hashes db') = Redis_hgetall other (_redis_hashes db))
  /\ _redis (entities db') = _redis (entities db)
  /\ trader_id (entities db') = trader_id (entities db).
Proof.
  unfold written.
  induction items as [|[k v] items IH]; intros db; cbv zeta.
  - cbn [fold_left]. change (list_to_map (reverse [])) with (∅ : gmap string string).
    rewrite (left_id_L ∅ (∪)). repeat split.
  - cbn [fold_left fst snd].
    specialize (IH (server_log DEBUG (log_item (k, v))
                      (mkRedisServer (entities db)
                         (Redis_hset name k v (_redis_hashes db))))).
    cbv zeta in IH. destruct IH as (IH1 & IH2 & IH3 & IH4).
    split; [|split; [|split]].
    + rewrite IH1. cbn [server_log _redis_hashes].
      unfold Redis_hset at 1, Redis_hgetall at 1. rewrite lookup_insert_eq.
      cbn [default from_option id].
      rewrite reverse_cons, list_to_map_app. cbn [list_to_map foldr].
      rewrite <- (assoc_L (∪)). f_equal.
      rewrite insert_empty. rewrite <- insert_union_singleton_l. reflexivity.
    + intros other Hne. rewrite (IH2 other Hne). cbn [server_log _redis_hashes].
      unfold Redis_hset, Redis_hgetall. rewrite lookup_insert_ne by congruence. reflexivity.
    + rewrite IH3. reflexivity.
    + rewrite IH4. reflexivity.
Qed.

(** X18.  The state a strategy saves is read back by [load_strategy]: after
    [update_strategy] the stored dictionary is the saved one laid over what
    was stored before, so every saved key reads its saved value and every
    other key reads what it read before.  The states of the other strategies
    and the lists of the accounts, orders and positions are not touched. *)
Theorem saved_state_loads_back (db : RedisServerDatabase) (strategy : TradingStrategy) :
  Redis_load_strategy (strategy_id_value strategy) (Redis_update_strategy strategy db)
  = written (strategy_save strategy) ∪ Redis_load_strategy (strategy_id_value strategy) db
  /\ (forall key value,
        written (strategy_save strategy) !! key = Some value ->
        Redis_load_strategy (strategy_id_value strategy) (Redis_update_strategy strategy db)
          !! key = Some value)
  /\ (forall other, other <> strategy_id_value strategy ->
        Redis_load_strategy other (Redis_update_strategy strategy db)
        = Redis_load_strategy other db)
  /\ _redis (entities (Redis_update_strategy strategy db)) = _redis (entities db).
Proof.
  unfold Redis_update_strategy. cbv zeta.
  set (name := ((_key_strategies (entities db) ++ strategy_id_value strategy) ++ ":State")%string).
  destruct (hset_items name
              (fun item => ("Saving " ++ strategy_id_value strategy ++ " state { "
                            ++ fst item ++ ": " ++ snd item ++ " }")%string)
              (strategy_save strategy) db) as (H1 & H2 & H3 & H4).
  cbv zeta in H1, H2, H3, H4.
  set (db1 := fold_left _ (strategy_save strategy) db) in *.
  assert (Hkey : _key_strategies (entities (server_log DEBUG
                   ("Saved strategy state for " ++ strategy_id_value strategy ++ ".") db1))
                 = _key_strategies (entities db)).
  { unfold _key_strategies, _key_trader. cbn [server_log entities log_record trader_id].
    rewrite H4. reflexivity. }
  assert (Hload : Redis_load_strategy (strategy_id_value strategy)
                    (server_log DEBUG
                       ("Saved strategy state for " ++ strategy_id_value strategy ++ ".") db1)
                  = written (strategy_save strategy)
                    ∪ Redis_load_strategy (strategy_id_value strategy) db).
  { unfold Redis_load_strategy. rewrite Hkey. cbn [server_log _redis_hashes]. exact H1. }
  split; [exact Hload|]. split; [|split].
  - intros key value Hw. rewrite Hload. apply lookup_union_Some_l. exact Hw.
  - intros other Hne. unfold Redis_load_strategy. rewrite Hkey.
    cbn [server_log _redis_hashes]. apply H2. unfold name. intros Heq.
    apply string_app_inv_tail, string_app_inv_head in Heq. contradiction.
  - cbn [server_log entities log_record _redis]. exact H3.
Qed.

Lemma saved_state_loads_back_witness :
  Redis_load_strategy "S-001" (Redis_update_strategy strategy_with_state empty_server)
    !! "Counter" = Some "7".
Proof.
  destruct (saved_state_loads_back empty_server strategy_with_state) as (_ & Hkey & _).
  apply (Hkey "Counter" "7"). reflexivity.
Defined.

(** X19.  [delete_strategy] does not delete the state of the strategy: it
    deletes the key of the strategy without the [":State"] suffix under which
    [update_strategy] and [load_strategy] keep the state, so the state loads
    as before.  The only state it can remove is that of another strategy,
    whose id followed by [":State"] is the id given.  Accounts, orders and
    positions are not touched. *)
Theorem delete_strategy_keeps_the_state (db : RedisServerDatabase) (strategy_id : string) :
  Redis_load_strategy strategy_id (Redis_delete_strategy strategy_id db)
  = Redis_load_strategy strategy_id db
  /\ (forall other, strategy_id <> (other ++ ":State")%string ->
        Redis_load_strategy other (Redis_delete_strategy strategy_id db)
        = Redis_load_strategy other db)
  /\ (forall other,
        Redis_load_strategy other (Redis_delete_strategy (other ++ ":State") db) = ∅)
  /\ (forall id,
        Redis_lrange_all (_key_orders (entities db) ++ id)
          (_redis (entities (Redis_delete_strategy strategy_id db)))
        = Redis_lrange_all (_key_orders (entities db) ++ id) (_redis (entities db))
        /\ Redis_lrange_all (_key_positions (entities db) ++ id)
             (_redis (entities (Redis_delete_strategy strategy_id db)))
           = Redis_lrange_all (_key_positions (entities db) ++ id) (_redis (entities db))
        /\ Redis_lrange_all (_key_accounts (entities db) ++ id)
             (_redis (entities (Redis_delete_strategy strategy_id db)))
           = Redis_lrange_all (_key_accounts (entities db) ++ id) (_redis (entities db))).
Proof.
  assert (Hkey : forall sid,
            _key_strategies (entities (Redis_delete_strategy sid db))
            = _key_strategies (entities db)) by reflexivity.
  assert (Hhashes : forall sid,
            _redis_hashes (Redis_delete_strategy sid db)
            = delete (_key_strategies (entities db) ++ sid)%string (_redis_hashes db))
    by reflexivity.
  assert (Hother : forall sid other, sid <> (other ++ ":State")%string ->
            Redis_load_strategy other (Redis_delete_strategy sid db)
            = Redis_load_strategy other db).
  { intros sid other Hne. unfold Redis_load_strategy. rewrite Hkey, Hhashes.
    unfold Redis_hgetall. rewrite lookup_delete_ne; [reflexivity|].
    intros Heq. rewrite string_app_assoc in Heq.
    apply string_app_inv_head in Heq. congruence. }
  split; [|split; [exact (Hother strategy_id)|split]].
  - apply Hother. intros Heq. apply (f_equal String.length) in Heq.
    rewrite string_app_length in Heq. cbn [String.length] in Heq. lia.
  - intros other. unfold Redis_load_strategy. rewrite Hkey, Hhashes.
    unfold Redis_hgetall. rewrite <- string_app_assoc. rewrite lookup_delete_eq. reflexivity.
  - intros id.
    assert (Hlists : _redis (entities (Redis_delete_strategy strategy_id db))
                     = delete (_key_strategies (entities db) ++ strategy_id)%string
                         (_redis (entities db))) by reflexivity.
    rewrite Hlists. unfold Redis_lrange_all.
    destruct (keys_disjoint (entities db) strategy_id id) as (_ & _ & _ & H1 & H2 & H3).
    repeat split; rewrite lookup_delete_ne by assumption; reflexivity.
Qed.

Lemma delete_strategy_keeps_the_state_witness :
  Redis_load_strategy "S-001"
    (Redis_delete_strategy "S-001" (Redis_update_strategy strategy_with_state empty_server))
    !! "Counter" = Some "7"
  /\ Redis_load_strategy "S-001"
       (Redis_delete_strategy "S-001:State"
          (Redis_update_strategy strategy_with_state empty_server)) = ∅.
Proof.
  destruct (delete_strategy_keeps_the_state
              (Redis_update_strategy strategy_with_state empty_server) "S-001")
    as (Hsame & Hother & _).
  destruct (delete_strategy_keeps_the_state
              (Redis_update_strategy strategy_with_state empty_server) "S-001:State")
    as (_ & _ & Hgone & _).
  split.
  - rewrite (Hother "S-001"); [reflexivity|discriminate].
  - exact (Hgone "S-001").
Defined.

(** * DepthTypeParser *)

(** X20.  Called from Python, [to_str_py] returns "VOLUME" exactly for 1
    and "EXPOSURE" exactly for 2, raises [ValueError] for every other C
    integer and [OverflowError] for an integer that is no C integer; on C
    integers it is [to_str].  [from_str] is defined exactly on the two names
    and raises [ValueError] for every other string and for [None].  Each name
    that is printed parses, each name that parses is printed for one value
    only, and names are case sensitive. *)
Theorem DepthTypeParser_names_agree (value : Z) (name : option string) :
  (DepthTypeParser_to_str_py value = Ok "VOLUME" <-> value = 1)
  /\ (DepthTypeParser_to_str_py value = Ok "EXPOSURE" <-> value = 2)
  /\ (is_validation_error (DepthTypeParser_to_str_py value)
      <-> fits_c_int value /\ value <> 1 /\ value <> 2)
  /\ (is_overflow_error (DepthTypeParser_to_str_py value) <-> ~ fits_c_int value)
  /\ (fits_c_int value -> DepthTypeParser_to_str_py value = DepthTypeParser_to_str value)
  /\ (DepthTypeParser_from_str name = Ok VOLUME <-> name = Some "VOLUME")
  /\ (DepthTypeParser_from_str name = Ok EXPOSURE <-> name = Some "EXPOSURE")
  /\ (is_validation_error (DepthTypeParser_from_str name)
      <-> name <> Some "VOLUME" /\ name <> Some "EXPOSURE")
  /\ (forall printed, DepthTypeParser_to_str_py value = Ok printed ->
      exists member, DepthTypeParser_from_str (Some printed) = Ok member)
  /\ (forall member, DepthTypeParser_from_str name = Ok member ->
      exists printed v,
        name = Some printed /\ DepthTypeParser_to_str_py v = Ok printed
        /\ forall v', DepthTypeParser_to_str_py v' = Ok printed -> v' = v)
  /\ is_validation_error (DepthTypeParser_from_str (Some "volume"))
  /\ is_validation_error (DepthTypeParser_from_str None)
  /\ DepthTypeParser_from_str_py name = DepthTypeParser_from_str name.
Proof.
  assert (Hto : forall v, DepthTypeParser_to_str_py v
                = if decide (fits_c_int v)
                  then if decide (v = 1) then Ok "VOLUME"
                       else if decide (v = 2) then Ok "EXPOSURE"
                       else Raise (ValueError ("value was invalid, was " ++ pretty v))
                  else Raise (OverflowError "value too large to convert to int")).
  { intros v. unfold DepthTypeParser_to_str_py, DepthTypeParser_to_str, as_c_int, fits_c_int.
    tests; repeat case_decide; try lia; reflexivity. }
  assert (Hsame : forall v, fits_c_int v ->
            DepthTypeParser_to_str_py v = DepthTypeParser_to_str v).
  { intros v Hv. unfold DepthTypeParser_to_str_py, as_c_int. unfold fits_c_int in Hv.
    tests; try lia; reflexivity. }
  assert (Hfrom : forall s, DepthTypeParser_from_str s
                  = if decide (s = Some "VOLUME") then Ok VOLUME
                    else if decide (s = Some "EXPOSURE") then Ok EXPOSURE
                    else Raise (ValueError ("value was invalid, was " ++ format_str s))).
  { intros s. unfold DepthTypeParser_from_str.
    repeat case_bool_decide; repeat case_decide; try congruence; reflexivity. }
  assert (H1 : fits_c_int 1) by (unfold fits_c_int; lia).
  assert (H2 : fits_c_int 2) by (unfold fits_c_int; lia).
  unfold is_validation_error, is_overflow_error, DepthTypeParser_from_str_py.
  split; [|split; [|split; [|split; [|split; [exact (Hsame value)|]]]]];
    [rewrite Hto ..|];
    [ repeat case_decide; split; intros; subst; try congruence; try discriminate; tauto
    | repeat case_decide; split; intros; subst; try congruence; try discriminate; tauto
    | repeat case_decide; split; intros;
        repeat match goal with
               | H : _ /\ _ |- _ => destruct H
               | H : exists _, _ |- _ => destruct H
               end; subst; try congruence; try discriminate; try tauto;
        try (eexists; reflexivity)
    | repeat case_decide; split; intros;
        repeat match goal with
               | H : exists _, _ |- _ => destruct H
               end; subst; try congruence; try discriminate; try tauto;
        try (eexists; reflexivity)
    | ].
  split; [|split; [|split; [|split; [|split; [|split; [|split]]]]]].
  - rewrite Hfrom. repeat case_decide; split; intros; subst; try congruence; discriminate.
  - rewrite Hfrom. repeat case_decide; split; intros; subst; try congruence; discriminate.
  - rewrite Hfrom. repeat case_decide; split; intros;
      repeat match goal with
             | H : _ /\ _ |- _ => destruct H
             | H : exists _, _ |- _ => destruct H
             end; subst; try congruence; try discriminate; try tauto;
      try (eexists; reflexivity).
  - intros printed. rewrite Hto, Hfrom.
    repeat case_decide; intros [= <-]; try congruence; eexists; reflexivity.
  - intros member Hm. rewrite Hfrom in Hm. repeat case_decide; subst; try discriminate.
    + exists "VOLUME", 1. split; [reflexivity|]. split; [reflexivity|].
      intros v'. rewrite Hto. repeat case_decide; intros Heq; try discriminate Heq; congruence.
    + exists "EXPOSURE", 2. split; [reflexivity|]. split; [reflexivity|].
      intros v'. rewrite Hto. repeat case_decide; intros Heq; try discriminate Heq; congruence.
  - rewrite Hfrom. repeat case_decide; try discriminate. eexists. reflexivity.
  - rewrite Hfrom. repeat case_decide; try discriminate. eexists. reflexivity.
  - reflexivity.
Qed.

Lemma DepthTypeParser_names_agree_witness :
  DepthTypeParser_to_str_py 2 = Ok "EXPOSURE"
  /\ DepthTypeParser_from_str (Some "EXPOSURE") = Ok EXPOSURE
  /\ is_validation_error (DepthTypeParser_to_str_py 3)
  /\ is_overflow_error (DepthTypeParser_to_str_py 2147483648).
Proof.
  destruct (DepthTypeParser_names_agree 2 (Some "EXPOSURE")) as (_ & H2 & _ & _ & _ & _ & Hf & _).
  destruct (DepthTypeParser_names_agree 3 None) as (_ & _ & H3 & _).
  destruct (DepthTypeParser_names_agree 2147483648 None) as (_ & _ & _ & H4 & _).
  split; [apply H2; reflexivity|]. split; [apply Hf; reflexivity|].
  split; [apply H3; unfold fits_c_int; lia|]. apply H4. unfold fits_c_int. lia.
Defined.

(** ** Snapshots, whatever the level *)

(** X21.  [apply_snapshot] is applied exactly when the level of the snapshot
    is the level of the book: no bid and no ask it lists can make it raise.
    Then the book carries the timestamp of the snapshot, and a snapshot
    without bids and asks leaves the cleared book. *)
Theorem apply_snapshot_outcome (b : OrderBook) (s : OrderBookSnapshot) :
  (result (OrderBook_apply_snapshot s) b = Ok tt <-> snapshot_level s = level b)
  /\ (snapshot_level s = level b ->
      last_update_timestamp_ns (exec (OrderBook_apply_snapshot s) b) = snapshot_timestamp_ns s
      /\ level (exec (OrderBook_apply_snapshot s) b) = level b)
  /\ (snapshot_level s = level b -> snapshot_bids s = [] -> snapshot_asks s = [] ->
      exec (OrderBook_apply_snapshot s) b
      = set_last_update_timestamp_ns (snapshot_timestamp_ns s) (OrderBook_clear b)).
Proof.
  assert (Hloop : forall sd xs b0,
            result (for_each (fun x b' => self_update (Order_new (fst x) (snd x) sd b') b') xs) b0
            = Ok tt).
  { intros sd xs b0.
    apply (for_each_invariant (fun _ => True)
             (fun x b' => self_update (Order_new (fst x) (snd x) sd b') b') xs); [|exact I].
    intros x b1 _. split; [apply self_update_ok|exact I]. }
  assert (Hbody : forall b0, result (snapshot_body s) b0 = Ok tt).
  { intros b0. unfold snapshot_body, result, bind.
    pose proof (Hloop BUY (snapshot_bids s) b0) as H1. unfold result in H1.
    destruct (for_each _ (snapshot_bids s) b0) as [[[]|e] b1]; [|discriminate].
    pose proof (Hloop SELL (snapshot_asks s) b1) as H2. unfold result in H2.
    destruct (for_each _ (snapshot_asks s) b1) as [[[]|e] b2]; [|discriminate].
    reflexivity. }
  unfold result, exec. rewrite OrderBook_apply_snapshot_cases.
  split; [|split].
  - case_bool_decide as Hl; [|split; [discriminate|contradiction]].
    split; [intros _; exact Hl|intros _; apply Hbody].
  - intros Hl. rewrite bool_decide_eq_true_2 by exact Hl.
    pose proof (snapshot_body_timestamp s (OrderBook_clear b)) as Hts.
    rewrite Hbody in Hts. unfold exec in Hts. split; [exact Hts|].
    unfold snapshot_body, bind.
    pose proof (snapshot_updates_header BUY (snapshot_bids s) (OrderBook_clear b))
      as (Hl1 & _).
    pose proof (Hloop BUY (snapshot_bids s) (OrderBook_clear b)) as H1.
    unfold result, exec in H1, Hl1.
    destruct (for_each _ (snapshot_bids s) (OrderBook_clear b)) as [[[]|e] b1];
      [|discriminate].
    pose proof (snapshot_updates_header SELL (snapshot_asks s) b1) as (Hl2 & _).
    pose proof (Hloop SELL (snapshot_asks s) b1) as H2. unfold result, exec in H2, Hl2.
    destruct (for_each _ (snapshot_asks s) b1) as [[[]|e] b2]; [|discriminate].
    cbn [snd] in *. cbn. rewrite Hl2, Hl1. destruct b; reflexivity.
  - intros Hl Hb Ha. rewrite bool_decide_eq_true_2 by exact Hl.
    unfold snapshot_body. rewrite Hb, Ha. reflexivity.
Qed.

Lemma apply_snapshot_outcome_witness :
  result (OrderBook_apply_snapshot snapshot_of_two_asks) (empty_book L1) = Ok tt
  /\ last_update_timestamp_ns
       (exec (OrderBook_apply_snapshot snapshot_of_two_asks) (empty_book L1)) = 9.
Proof.
  destruct (apply_snapshot_outcome (empty_book L1) snapshot_of_two_asks) as (Hiff & Hts & _).
  split; [apply Hiff; reflexivity|]. apply (Hts eq_refl).
Defined.

(** ** The tops, the spread, the midpoint and the integrity check *)

(** X22.  The readers of the top of the book agree with one another.  The
    spread and the midpoint exist exactly when both best prices exist; then
    the spread is the best ask less the best bid, twice the midpoint is their
    sum, and the integrity check of the base class passes exactly when the
    spread is positive.  With a side without levels the check passes. *)
Theorem tops_are_consistent (b : OrderBook) :
  (forall bid ask,
     OrderBook_best_bid_price b = Some bid -> OrderBook_best_ask_price b = Some ask ->
     OrderBook_spread b = Some (ask - bid)
     /\ (exists m, OrderBook_midpoint b = Some m /\ (m * 2 == inject_Z (bid + ask))%Q)
     /\ (OrderBook__check_integrity b = Ok tt <-> 0 < ask - bid)
     /\ (is_assertion_failure (OrderBook__check_integrity b) <-> ask <= bid))
  /\ (OrderBook_best_bid_price b = None \/ OrderBook_best_ask_price b = None ->
      OrderBook_spread b = None /\ OrderBook_midpoint b = None
      /\ OrderBook__check_integrity b = Ok tt)
  /\ (is_Some (OrderBook_spread b)
      <-> is_Some (OrderBook_best_bid_price b) /\ is_Some (OrderBook_best_ask_price b))
  /\ (is_Some (OrderBook_midpoint b) <-> is_Some (OrderBook_spread b))
  /\ (is_Some (OrderBook_best_bid_qty b) <-> is_Some (OrderBook_best_bid_price b))
  /\ (is_Some (OrderBook_best_ask_qty b) <-> is_Some (OrderBook_best_ask_price b)).
Proof.
  unfold OrderBook_best_bid_price, OrderBook_best_ask_price, OrderBook_spread,
    OrderBook_midpoint, OrderBook__check_integrity, OrderBook_best_bid_qty,
    OrderBook_best_ask_qty, is_assertion_failure.
  destruct (Ladder_top (bids b)) as [tb|], (Ladder_top (asks b)) as [ta|];
    (split; [|split; [|split; [|split; [|split]]]]);
    try (intros bid ask [= <-] [= <-]); try (intros bid ask; discriminate);
    try (intros [|]; discriminate);
    try (intros; repeat split; reflexivity);
    try (split; [intros [? ?]|intros [[? ?] [? ?]]]; try discriminate; eauto; fail);
    try (split; intros [? ?]; try discriminate; eauto; fail).
  set (bid := level_price (get_level (objects b) tb)).
  set (ask := level_price (get_level (objects b) ta)).
  split; [reflexivity|]. split; [|split].
  - eexists. split; [reflexivity|].
    unfold Qeq, Qdiv, Qmult, Qinv, inject_Z. simpl. lia.
  - destruct (Z.ltb_spec bid ask); split; intros; try discriminate; try reflexivity; lia.
  - destruct (Z.ltb_spec bid ask); split.
    + intros [? ?]. discriminate.
    + lia.
    + intros _. lia.
    + intros _. eexists. reflexivity.
Qed.

Lemma tops_are_consistent_witness :
  OrderBook_spread book_after_quote = Some 100
  /\ OrderBook__check_integrity book_after_quote = Ok tt.
Proof.
  destruct (tops_are_consistent book_after_quote) as (H & _).
  destruct (H 10000 10100 eq_refl eq_refl) as (Hs & _ & Hc & _).
  split; [exact Hs|]. apply Hc. lia.
Defined.

(** ** L2: a second add at a price *)

Lemma existsb_find {A} (P : A -> bool) l :
  existsb P l = true -> exists x, List.find P l = Some x /\ In x l /\ P x = true.
Proof.
  induction l as [|a l IH]; simpl; [discriminate|].
  destruct (P a) eqn:E.
  - intros _. exists a. auto.
  - intros Hl. destruct (IH Hl) as (x & Hf & Hin & Hx). exists x. auto.
Qed.

(** X23.  [add] on an L2 book does not replace.  On a book that passes the
    L2 integrity check, adding a BUY order at a price where the bid side has
    a level already puts the order behind the one that rests there: the side
    keeps its levels, the level keeps its price and holds two orders
    afterwards, the old one and the new one under its formatted price, and
    every other level and the ask side are as they were.  The tops are not
    crossed, and the L2 integrity check fails on the result ([update] is the
    call that replaces a level). *)
Theorem L2_second_add_breaks_integrity (b : OrderBook) (order : Order) :
  L2OrderBook_check_integrity b = Ok tt ->
  ladder_wf (objects b) (bids b) = true ->
  order_side order = BUY ->
  price_in (order_price order) (Ladder_prices (objects b) (bids b)) = true ->
  let b' := exec (L2OrderBook_add order) b in
  let added :=
    mkOrder (format_fixed (price_precision b) (order_price order)) BUY
      (order_price order) (order_volume order) in
  exists rl old,
    In rl (ladder_levels (bids b))
    /\ level_price (get_level (objects b) rl) = order_price order
    /\ map (get_order (objects b)) (level_orders (get_level (objects b) rl)) = [old]
    /\ ladder_levels (bids b') = ladder_levels (bids b)
    /\ asks b' = asks b
    /\ level_price (get_level (objects b') rl) = order_price order
    /\ map (get_order (objects b')) (level_orders (get_level (objects b') rl))
       = [old; added]
    /\ (forall x, x <> rl -> get_level (objects b') x = get_level (objects b) x)
    /\ OrderBook__check_integrity b' = Ok tt
    /\ is_assertion_failure (L2OrderBook_check_integrity b').
Proof.
  intros Hcheck Hwf Hside Hin. cbv zeta.
  destruct (objects b) as [O L] eqn:Hst.
  rewrite (L2OrderBook_add_exec order b O L Hst Hside).
  set (o := mkOrder (format_fixed (price_precision b) (order_price order)) BUY
              (order_price order) (order_volume order)).
  set (st := mkStore (O ++ [o]) L).
  (* every level of the checked book holds one order, and the tops do not cross *)
  unfold L2OrderBook_check_integrity in Hcheck.
  destruct (OrderBook__check_integrity b) as [[]|] eqn:Hbase; [|discriminate].
  destruct (forallb _ _) eqn:Hall in Hcheck; [|discriminate]. clear Hcheck.
  rewrite forallb_app in Hall. apply andb_true_iff in Hall as [Hbids _].
  rewrite forallb_forall in Hbids. rewrite Hst in Hbids.
  (* the level the order joins *)
  assert (Hex : existsb (at_price st (order_price order)) (ladder_levels (bids b)) = true).
  { unfold price_in, Ladder_prices in Hin. rewrite existsb_exists in Hin.
    destruct Hin as (q & Hq & Heq). apply in_map_iff in Hq as (rl & <- & Hrl).
    apply existsb_exists. exists rl. split; [exact Hrl|].
    unfold at_price. apply Z.eqb_eq in Heq. apply Z.eqb_eq. symmetry. exact Heq. }
  destruct (existsb_find _ _ Hex) as (rl & Hfind & Hrl & Hat).
  unfold at_price in Hat. apply Z.eqb_eq in Hat.
  specialize (Hbids rl Hrl). apply Nat.eqb_eq in Hbids.
  destruct (ladder_wf_spec _ _ _ Hwf Hrl) as [Hlt Hrefs].
  cbn [store_levels store_orders] in Hlt, Hrefs.
  assert (Hlv : exists lv, L !! rl = Some lv).
  { apply lookup_lt_is_Some. exact Hlt. }
  destruct Hlv as (lv & Hlv).
  assert (Hget : get_level (mkStore O L) rl = lv).
  { unfold get_level. cbn [store_levels]. rewrite Hlv. reflexivity. }
  assert (Hget' : get_level st rl = lv).
  { unfold get_level, st. cbn [store_levels]. rewrite Hlv. reflexivity. }
  rewrite Hget in Hbids, Hrefs. rewrite Hget' in Hat.
  destruct (level_orders lv) as [|ro [|? ?]] eqn:Hos; try discriminate. clear Hbids.
  assert (Hro : (ro < length O)%nat) by (apply Hrefs; left; reflexivity).
  unfold on_bids, Ladder_add. proj. fold o. fold st.
  assert (Ho : get_order st (length O) = o) by apply get_order_last.
  rewrite Ho. cbn [order_price o]. rewrite Hfind, Hget'. proj.
  set (st' := put_level rl (Level_add (length O) lv) st).
  assert (Hnew : get_level st' rl = mkLevel (level_price lv) [ro; length O]).
  { unfold get_level, st', put_level, Level_add, st. cbn [store_levels].
    rewrite list_lookup_insert_eq by exact Hlt. rewrite Hos. reflexivity. }
  assert (Hothers : forall x, x <> rl -> get_level st' x = get_level (mkStore O L) x).
  { intros x Hx. unfold get_level, st', put_level, st. cbn [store_levels].
    rewrite list_lookup_insert_ne by congruence. reflexivity. }
  assert (Hprices : forall x, level_price (get_level st' x)
                              = level_price (get_level (mkStore O L) x)).
  { intros x. destruct (decide (x = rl)) as [->|Hx].
    - rewrite Hnew, Hget. reflexivity.
    - rewrite (Hothers x Hx). reflexivity. }
  assert (Hbase' : OrderBook__check_integrity (set_objects st' (set_bids (bids b)
                     (set_objects st b))) = Ok tt).
  { revert Hbase. unfold OrderBook__check_integrity. proj. rewrite Hst.
    destruct (Ladder_top (bids b)), (Ladder_top (asks b)); try reflexivity.
    rewrite !Hprices. exact id. }
  exists rl, (get_order (mkStore O L) ro).
  split; [exact Hrl|]. split; [rewrite Hget; exact Hat|].
  split; [rewrite Hget, Hos; reflexivity|]. split; [reflexivity|]. split; [reflexivity|].
  split; [rewrite Hnew; exact Hat|]. split; [|split; [exact Hothers|split; [exact Hbase'|]]].
  - rewrite Hnew. cbn [level_orders map]. f_equal; [|f_equal].
    + unfold st', put_level, st, get_order. cbn [store_orders].
      rewrite lookup_app_l by exact Hro. reflexivity.
    + unfold st', put_level, st. apply get_order_last.
  - unfold L2OrderBook_check_integrity. rewrite Hbase'. proj.
    assert (Hfalse :
      forallb (fun r => Nat.eqb (length (level_orders (get_level st' r))) 1)
        (ladder_levels (bids b) ++ ladder_levels (asks b)) = false).
    { apply not_true_is_false. intros Hall. rewrite forallb_forall in Hall.
      specialize (Hall rl (in_or_app _ _ _ (or_introl Hrl))). apply Nat.eqb_eq in Hall.
      rewrite Hnew in Hall. discriminate. }
    rewrite Hfalse. eexists. reflexivity.
Qed.

Lemma L2_second_add_breaks_integrity_witness :
  L2OrderBook_check_integrity book_after_adds = Ok tt
  /\ resolve (objects (exec (L2OrderBook_add (mkOrder "8" BUY 9900 5)) book_after_adds))
       (bids (exec (L2OrderBook_add (mkOrder "8" BUY 9900 5)) book_after_adds))
     = [(9900, [mkOrder "99.00" BUY 9900 3; mkOrder "99.00" BUY 9900 5])]
  /\ is_assertion_failure
       (L2OrderBook_check_integrity
          (exec (L2OrderBook_add (mkOrder "8" BUY 9900 5)) book_after_adds)).
Proof.
  destruct (L2_second_add_breaks_integrity book_after_adds (mkOrder "8" BUY 9900 5)
              eq_refl eq_refl eq_refl eq_refl)
    as (rl & old & _ & _ & _ & _ & _ & _ & _ & _ & _ & Hfail).
  split; [reflexivity|]. split; [reflexivity|exact Hfail].
Defined.
